(** * Hive: teardown commands, managed-domains reader, zone filter, PowerVS actuator

    A shallow embedding of the Go sources into Rocq.  Every function that
    talks to the outside (the Kubernetes API server, the AWS and Alibaba
    SDKs, the operating system, the installer library) is a computation in
    a small monad [M]: it threads an arbitrary world, asks the world for the
    response of each external call, and records every call (with its
    response) and every log line in a trace.  [log.Fatal] ends the process
    with exit code 1; an index out of range or a nil dereference panics. *)

From Stdlib Require Import ZArith.
From stdpp Require Import base tactics option list strings gmap.

Open Scope string_scope.
Open Scope list_scope.

(** ** Go errors *)

(** The three ways an [error] value is built or received in the sources:
    an AWS SDK error carrying a code (it implements [awserr.Error]), a plain
    error ([errors.New], [fmt.Errorf], or any foreign error), and
    [errors.Wrap]. *)
Inductive error : Type :=
| awserr_Error (code message : string)
| errors_New (message : string)
| errors_Wrap (cause : error) (message : string).

(** [aerr, ok := err.(awserr.Error); ok && aerr.Code() == code] *)
Definition aws_code_is (err : error) (code : string) : bool :=
  match err with
  | awserr_Error c _ => bool_decide (c = code)
  | _ => false
  end.

(** logrus levels used by the sources. *)
Inductive Level : Type := DebugLevel | InfoLevel | WarnLevel | ErrorLevel | FatalLevel.

(** A Go slice value is [nil] or a (possibly empty) backing list. *)
Definition slice (A : Type) : Type := option (list A).

Definition slice_elems {A} (s : slice A) : list A := default [] s.

(** [append(s, x)]: the result is never nil. *)
Definition slice_append {A} (s : slice A) (x : A) : slice A := Some (slice_elems s ++ [x]).

(** ** The script monad *)

(** What a run leaves behind: the external calls with their responses and
    the log lines, in program order. *)
Inductive Entry (E : Type → Type) : Type :=
| Called {R : Type} (c : E R) (r : R)
| Logged (lvl : Level) (err : option error) (msg : string).
Arguments Called {E R} c r.
Arguments Logged {E} lvl err msg.

(** How a run ends: the function returns, the process exits ([os.Exit]),
    or the Go runtime panics. *)
Inductive Outcome (A : Type) : Type :=
| Returned (a : A)
| Exited (code : Z)
| Panicked.
Arguments Returned {A} a.
Arguments Exited {A} code.
Arguments Panicked {A}.

(** The world answers every external call and moves to its next state. *)
Definition Handler (E : Type → Type) (W : Type) : Type := ∀ R, E R → W → R * W.

Definition M (E : Type → Type) (W A : Type) : Type :=
  Handler E W → W → Outcome A * W * list (Entry E).

Section script.
Context {E : Type → Type} {W : Type}.

Definition ret {A} (a : A) : M E W A := λ _ w, (Returned a, w, []).

Definition bind {A B} (m : M E W A) (k : A → M E W B) : M E W B :=
  λ h w,
    match m h w with
    | (Returned a, w1, t1) =>
        match k a h w1 with
        | (o, w2, t2) => (o, w2, t1 ++ t2)
        end
    | (Exited c, w1, t1) => (Exited c, w1, t1)
    | (Panicked, w1, t1) => (Panicked, w1, t1)
    end.

(** An external call: the world's answer is recorded next to the call. *)
Definition call {R} (c : E R) : M E W R :=
  λ h w, match h R c w with (r, w1) => (Returned r, w1, [Called c r]) end.

(** [log.<Level>(msg)] and [log.WithError(err).<Level>(msg)] below Fatal. *)
Definition log (lvl : Level) (err : option error) (msg : string) : M E W unit :=
  λ _ w, (Returned tt, w, [Logged lvl err msg]).

(** [log.Fatal]: the line is written, then the process exits with 1. *)
Definition fatal {A} (err : option error) (msg : string) : M E W A :=
  λ _ w, (Exited 1, w, [Logged FatalLevel err msg]).

Definition panic {A} : M E W A := λ _ w, (Panicked, w, []).

(** [for _, x := range l { body x }] *)
Fixpoint for_each {A} (l : list A) (body : A → M E W unit) : M E W unit :=
  match l with
  | [] => ret tt
  | x :: l' => bind (body x) (λ _, for_each l' body)
  end.
End script.

Notation "'let!' x ':=' m 'in' k" := (bind m (λ x, k))
  (at level 10, x name, m at level 100, k at level 200, only parsing).
Notation "m ;; k" := (bind m (λ _, k))
  (at level 100, k at level 200, right associativity, only parsing).

(** Projections of a finished run. *)
Definition outcome {E W A} (r : Outcome A * W * list (Entry E)) : Outcome A := r.1.1.
Definition world {E W A} (r : Outcome A * W * list (Entry E)) : W := r.1.2.
Definition trace {E W A} (r : Outcome A * W * list (Entry E)) : list (Entry E) := r.2.

Definition is_log {E} (e : Entry E) : bool :=
  match e with Logged _ _ _ => true | Called _ _ => false end.

(** ** pkg/alibabaclient *)

Module alibabaclient.

(** [ecs.AvailableZone], the fields the client reads. *)
Record AvailableZone : Type := {
  RegionId : string;
  ZoneId : string;
  Status : string;
  StatusCategory : string
}.

(** [ecs.DescribeAvailableResourceResponse]; [AvailableZones] stands for
    the path [response.AvailableZones.AvailableZone]. *)
Record DescribeAvailableResourceResponse : Type := {
  RequestId : string;
  AvailableZones : list AvailableZone
}.

(** [ecs.DescribeAvailableResourceRequest] with the product name of its
    API info and the domain set by [SetDomain]. *)
Record DescribeAvailableResourceRequest : Type := {
  Product : string;
  LocationServiceCode : string;
  LocationEndpointType : string;
  req_RegionId : string;
  DestinationResource : string;
  InstanceType : string;
  Domain : string
}.

(** [endpoints.ResolveParam], without the callback into the client. *)
Record ResolveParam : Type := {
  LocationProduct : string;
  rp_LocationEndpointType : string;
  rp_Product : string;
  rp_RegionId : string
}.

Record Client : Type := {
  RegionID : string;
  AccessKeyID : string;
  AccessKeySecret : string
}.

(** The SDK entry points the client goes through. *)
Inductive sdkE : Type → Type :=
| endpoints_Resolve (param : ResolveParam) : sdkE (string * option error)
| DoAction (request : DescribeAvailableResourceRequest)
           (response : DescribeAvailableResourceResponse)
    : sdkE (DescribeAvailableResourceResponse * option error).

Definition defaultEndpoint : gmap string string :=
  {[ "pvtz" := "pvtz.aliyuncs.com";
     "resourcemanager" := "resourcemanager.aliyuncs.com";
     "ecs" := "ecs.aliyuncs.com" ]}.

Definition additionEndpoint (productName regionID : string) : string * bool :=
  let endpoints : gmap string (gmap string string) :=
    {[ "ecs" := {[ "cn-wulanchabu" := "ecs.cn-wulanchabu.aliyuncs.com";
                   "cn-guangzhou" := "ecs.cn-guangzhou.aliyuncs.com";
                   "ap-southeast-6" := "ecs.ap-southeast-6.aliyuncs.com";
                   "cn-heyuan" := "ecs.cn-heyuan.aliyuncs.com";
                   "cn-chengdu" := "ecs.cn-chengdu.aliyuncs.com" ]} ]} in
  match endpoints !! productName with
  | Some regionEndpoints =>
      match regionEndpoints !! regionID with
      | Some endpoint => (endpoint, true)
      | None => ("", false)
      end
  | None => ("", false)
  end.

Section client.
Context {W : Type}.
(** [strings.ToLower] and the request constructor of the SDK. *)
Variable strings_ToLower : string → string.
Variable CreateDescribeAvailableResourceRequest : DescribeAvailableResourceRequest.

Definition getEndpoint (client : Client) (request : DescribeAvailableResourceRequest)
  : M sdkE W string :=
  let productName := strings_ToLower (Product request) in
  let regionID := strings_ToLower (RegionID client) in
  match additionEndpoint productName regionID with
  | (additionEndpoint, true) => ret additionEndpoint
  | (_, false) =>
      let! resolved := call (endpoints_Resolve
        {| LocationProduct := LocationServiceCode request;
           rp_LocationEndpointType := LocationEndpointType request;
           rp_Product := productName;
           rp_RegionId := regionID |}) in
      match resolved with
      | (_, Some _) => ret (default "" (defaultEndpoint !! productName))
      | (endpoint, None) => ret endpoint
      end
  end.

Definition doActionWithSetDomain (client : Client)
    (request : DescribeAvailableResourceRequest)
    (response : DescribeAvailableResourceResponse)
  : M sdkE W (DescribeAvailableResourceResponse * option error) :=
  let! endpoint := getEndpoint client request in
  let request :=
    {| Product := Product request;
       LocationServiceCode := LocationServiceCode request;
       LocationEndpointType := LocationEndpointType request;
       req_RegionId := req_RegionId request;
       DestinationResource := DestinationResource request;
       InstanceType := InstanceType request;
       Domain := endpoint |} in
  call (DoAction request response).

(** DescribeAvailableZoneByInstanceType queries available zone by
    instance type of ECS. *)
Definition DescribeAvailableZoneByInstanceType (client : Client) (instanceType : string)
  : M sdkE W (DescribeAvailableResourceResponse * option error) :=
  let request := CreateDescribeAvailableResourceRequest in
  let request :=
    {| Product := Product request;
       LocationServiceCode := LocationServiceCode request;
       LocationEndpointType := LocationEndpointType request;
       req_RegionId := RegionID client;
       DestinationResource := "InstanceType";
       InstanceType := instanceType;
       Domain := Domain request |} in
  let response := {| RequestId := ""; AvailableZones := [] |} in
  doActionWithSetDomain client request response.

(** The loop of [GetAvailableZonesByInstanceType]: [zones] starts nil
    and grows by [append]. *)
Fixpoint collect_zones (zones : slice string) (l : list AvailableZone) : slice string :=
  match l with
  | [] => zones
  | zone :: l' =>
      if bool_decide (Status zone = "Available")
         && bool_decide (StatusCategory zone = "WithStock")
      then collect_zones (slice_append zones (ZoneId zone)) l'
      else collect_zones zones l'
  end.

(** GetAvailableZonesByInstanceType returns a list of available zones
    with the specified instance type is available and stock. *)
Definition GetAvailableZonesByInstanceType (client : Client) (instanceType : string)
  : M sdkE W (slice string * option error) :=
  let! described := DescribeAvailableZoneByInstanceType client instanceType in
  match described with
  | (_, Some err) => ret (None, Some err)
  | (response, None) => ret (collect_zones None (AvailableZones response), None)
  end.
End client.
End alibabaclient.

(** ** pkg/manageddns *)

Module manageddns.

Inductive osE : Type → Type :=
| os_Getenv (key : string) : osE string
| os_ReadFile (name : string) : osE (list Byte.byte * option error).

Section read.
Context {W : Type}.
(** [hivev1.ManageDNSConfig], [constants.ManagedDomainsFileEnvVar] and
    [json.Unmarshal] into a slice of configs (given the slice's value
    before the call, it yields the value after it and the error). *)
Variable ManageDNSConfig : Type.
Variable ManagedDomainsFileEnvVar : string.
Variable json_Unmarshal :
  list Byte.byte → slice ManageDNSConfig → slice ManageDNSConfig * option error.

(** ReadManagedDomainsFile reads the managed domains from the file
    pointed to by the ManagedDomainsFileEnvVar environment variable. *)
Definition ReadManagedDomainsFile : M osE W (slice ManageDNSConfig * option error) :=
  let! managedDomainsFile := call (os_Getenv ManagedDomainsFileEnvVar) in
  if bool_decide (String.length managedDomainsFile = 0) then ret (None, None)
  else
    let domains : slice ManageDNSConfig := Some [] in
    let! read := call (os_ReadFile managedDomainsFile) in
    match read with
    | (_, Some err) => ret (domains, Some err)
    | (fileBytes, None) =>
        match json_Unmarshal fileBytes domains with
        | (domains, Some err) => ret (domains, Some err)
        | (domains, None) => ret (domains, None)
        end
    end.
End read.
End manageddns.

(** ** pkg/controller/machinepool (PowerVS actuator) *)

Module machinepool.

(** [hivev1.ClusterMetadata], [hivev1powervs.Platform] (apis/hive/v1/powervs)
    and [hivev1powervs.MachinePool]: the fields the actuator reads. *)
Record ClusterMetadata : Type := { InfraID : string }.

Record powervs_Platform : Type := {
  CredentialsSecretRef : string;
  Region : string;
  Zone : string
}.

Inductive IntOrString : Type := FromInt (i : Z) | FromString (s : string).

Record powervs_MachinePool : Type := {
  MemoryGiB : Z;
  ProcType : string;
  Processors : IntOrString;
  SysType : string
}.

(** [cd.Spec.ClusterMetadata] and [cd.Spec.Platform.PowerVS] are pointers. *)
Record ClusterDeployment : Type := {
  cd_ClusterMetadata : option ClusterMetadata;
  cd_Platform_PowerVS : option powervs_Platform
}.

(** [pool.Spec.Platform.PowerVS] is a pointer. *)
Record MachinePool : Type := {
  pool_Name : string;
  pool_Replicas : option Z;
  pool_Platform_PowerVS : option powervs_MachinePool
}.

(** The installer's types. *)
Record installer_MachinePool : Type := {
  imp_Name : string;
  imp_Replicas : option Z;
  imp_Platform_PowerVS : option powervs_MachinePool
}.

Record installer_Platform : Type := { ip_Region : string; ip_Zone : string }.

Record InstallConfig : Type := { ic_Platform_PowerVS : option installer_Platform }.

Record MachineSet : Type := { ms_Name : string; ms_Replicas : option Z }.

(** [installpowervs.MachineSets], the one function of another package the
    actuator calls. *)
Inductive installerE : Type → Type :=
| installpowervs_MachineSets (clusterID : string) (config : InstallConfig)
    (pool : installer_MachinePool) (role userDataSecret : string)
    : installerE (slice MachineSet * option error).

Section actuator.
Context {W : Type}.
(** [baseMachinePool], [workerRole] and [workerUserDataName] of the
    machinepool package. *)
Variable baseMachinePool : MachinePool → installer_MachinePool.
Variable workerRole workerUserDataName : string.

(** GenerateMachineSets satisfies the Actuator interface and will take a
    clusterDeployment and return a list of MachineSets to sync to the remote
    cluster. *)
Definition GenerateMachineSets (cd : ClusterDeployment) (pool : MachinePool)
  : M installerE W (slice MachineSet * bool * option error) :=
  match cd_ClusterMetadata cd with
  | None => ret (None, false, Some (errors_New "ClusterDeployment does not have cluster metadata"))
  | Some clusterMetadata =>
  match cd_Platform_PowerVS cd with
  | None => ret (None, false, Some (errors_New "ClusterDeployment is not for PowerVS"))
  | Some cdPowerVS =>
  match pool_Platform_PowerVS pool with
  | None => ret (None, false, Some (errors_New "MachinePool is not for PowerVS"))
  | Some poolPowerVS =>
      let computePool := baseMachinePool pool in
      let computePool :=
        {| imp_Name := imp_Name computePool;
           imp_Replicas := imp_Replicas computePool;
           imp_Platform_PowerVS :=
             Some {| MemoryGiB := MemoryGiB poolPowerVS;
                     ProcType := ProcType poolPowerVS;
                     Processors := Processors poolPowerVS;
                     SysType := SysType poolPowerVS |} |} in
      let ic :=
        {| ic_Platform_PowerVS :=
             Some {| ip_Region := Region cdPowerVS; ip_Zone := Zone cdPowerVS |} |} in
      let! generated := call (installpowervs_MachineSets
        (InfraID clusterMetadata) ic computePool workerRole workerUserDataName) in
      match generated with
      | (_, Some err) => ret (None, false, Some (errors_Wrap err "failed to generate machinesets"))
      | (installerMachineSets, None) => ret (installerMachineSets, true, None)
      end
  end end end.
End actuator.
End machinepool.

(** ** contrib/pkg/deprovision (PowerVS) *)

Module deprovision.

(** powerVSDeprovisionOptions is the set of options to deprovision an
    PowerVS cluster. *)
Record powerVSDeprovisionOptions : Type := {
  baseDomain : string;
  clusterName : string;
  logLevel : string;
  infraID : string;
  region : string;
  zone : string
}.

(** [types.ClusterMetadata] of the installer, as [Run] fills it. *)
Record ClusterMetadata : Type := {
  md_ClusterName : string;
  md_InfraID : string;
  md_BaseDomain : string;
  md_Region : string;
  md_Zone : string
}.

(** Opaque objects handed out by other packages. *)
Record Client : Type := { client_id : nat }.
Record Logger : Type := { logger_id : nat }.
Record Destroyer : Type := { destroyer_id : nat }.

Inductive cliE : Type → Type :=
| utils_GetClient : cliE (Client * option error)
| powervsutils_ConfigureCreds (client : Client) : cliE unit
| cmd_Usage : cliE (option error)
| utils_NewLogger (logLevel : string) : cliE (Logger * option error)
| powervs_New (logger : Logger) (metadata : ClusterMetadata) : cliE (Destroyer * option error)
| destroyer_Run (destroyer : Destroyer) : cliE (option error).

Section command.
Context {W : Type}.

(** Complete finishes parsing arguments for the command. *)
Definition Complete (o : powerVSDeprovisionOptions) (args : list string)
  : M cliE W (powerVSDeprovisionOptions * option error) :=
  match args !! 0%nat with
  | None => panic
  | Some arg0 =>
      let o := {| baseDomain := baseDomain o; clusterName := clusterName o;
                  logLevel := logLevel o; infraID := arg0;
                  region := region o; zone := zone o |} in
      let! got := call utils_GetClient in
      match got with
      | (_, Some err) => ret (o, Some (errors_Wrap err "failed to get client"))
      | (client, None) =>
          call (powervsutils_ConfigureCreds client) ;;
          ret (o, None)
      end
  end.

(** Validate ensures that option values make sense. *)
Definition Validate (o : powerVSDeprovisionOptions) : M cliE W (option error) :=
  if bool_decide (region o = "") then
    call cmd_Usage ;;
    ret (Some (errors_New "no --region provided, cannot proceed"))
  else if bool_decide (zone o = "") then
    call cmd_Usage ;;
    ret (Some (errors_New "no --zone provided, cannot proceed"))
  else if bool_decide (baseDomain o = "") then
    call cmd_Usage ;;
    ret (Some (errors_New "no --base-domain provided, cannot proceed"))
  else if bool_decide (clusterName o = "") then
    call cmd_Usage ;;
    ret (Some (errors_New "no --cluster-name provided, cannot proceed"))
  else ret None.

(** Run executes the command. *)
Definition Run (o : powerVSDeprovisionOptions) : M cliE W (option error) :=
  let! made := call (utils_NewLogger (logLevel o)) in
  match made with
  | (_, Some err) => ret (Some err)
  | (logger, None) =>
      let metadata :=
        {| md_ClusterName := clusterName o; md_InfraID := infraID o;
           md_BaseDomain := baseDomain o; md_Region := region o; md_Zone := zone o |} in
      let! created := call (powervs_New logger metadata) in
      match created with
      | (_, Some err) => ret (Some err)
      | (destroyer, None) => call (destroyer_Run destroyer)
      end
  end.

(** The [Run] closure of [NewDeprovisionPowerVSCommand]; [opt] holds the
    parsed flags. *)
Definition NewDeprovisionPowerVSCommand_Run (opt : powerVSDeprovisionOptions)
    (args : list string) : M cliE W unit :=
  let! completed := Complete opt args in
  match completed with
  | (_, Some err) => fatal (Some err) "failed to complete options"
  | (opt, None) =>
      let! invalid := Validate opt in
      match invalid with
      | Some err => fatal (Some err) "validation failed"
      | None =>
          let! failed := Run opt in
          match failed with
          | Some err => fatal (Some err) "Runtime error"
          | None => ret tt
          end
      end
  end.
End command.
End deprovision.

(** ** hiveutil awsprivatelink: shared data and external calls *)

Module hivev1.

Record AWSPrivateLinkVPC : Type := { VPCID : string; Region : string }.

Record AWSPrivateLinkSubnet : Type := { SubnetID : string; AvailabilityZone : string }.

(** [AWSPrivateLinkInventory] embeds [AWSPrivateLinkVPC]. *)
Record AWSPrivateLinkInventory : Type := {
  inv_AWSPrivateLinkVPC : AWSPrivateLinkVPC;
  Subnets : list AWSPrivateLinkSubnet
}.

Record AWSAssociatedVPC : Type := {
  AWSPrivateLinkVPC_of : AWSPrivateLinkVPC;
  assoc_CredentialsSecretRef : option string
}.

Record AWSPrivateLinkConfig : Type := {
  CredentialsSecretRef : string;
  EndpointVPCInventory : list AWSPrivateLinkInventory;
  AssociatedVPCs : list AWSAssociatedVPC;
  DNSRecordType : string
}.

(** [HiveConfig]: [Spec.AWSPrivateLink] is a pointer. *)
Record HiveConfig : Type := {
  TargetNamespace : string;
  AWSPrivateLink : option AWSPrivateLinkConfig
}.

End hivev1.

Module hiveutil.
Import hivev1.

(** [corev1.Secret], as far as the commands look at it. *)
Record Secret : Type := { secret_Name : string; secret_Namespace : string }.

(** [ec2.Filter] *)
Record Filter : Type := { Name : string; Values : list string }.

(** [ec2.VpcPeeringConnection] and [ec2.RouteTable]: the id is a [*string]. *)
Record VpcPeeringConnection : Type := { VpcPeeringConnectionId : option string }.
Record RouteTable : Type := { RouteTableId : option string }.

(** [ec2.DescribeRouteTablesOutput], one page. *)
Record DescribeRouteTablesOutput : Type := { RouteTables : list RouteTable }.

Record DescribeVpcPeeringConnectionsInput : Type := {
  Filters : list Filter;
  VpcPeeringConnectionIds : list (option string)
}.

(** Handles of the controller-runtime client and of an [awsclient.Client]. *)
Record client_Client : Type := { k8s_id : nat }.
Record awsclient_Client : Type := { aws_id : nat }.

(** Everything the two commands ask of the outside.  A Go result
    [(value, err)] is a pair; a lone [error] is an option.
    [DescribeRouteTablesPages] is a conversation: the request is answered
    with the pages the paginator fetches and hands to the callback, each
    with its [lastPage] flag; when the callback has taken them all without
    stopping the iteration, the paginator's own result (the error of the
    fetch that ended it, if any) is asked for. *)
Inductive cloudE : Type → Type :=
| hiveutils_GetClient : cloudE (client_Client * option error)
| client_Get (c : client_Client) (name : string) : cloudE (HiveConfig * option error)
| client_List (c : client_Client) (field : string * string) (label : string * string)
    (namespace : string) : cloudE (list Secret * option error)
| client_Delete (c : client_Client) (obj : Secret) : cloudE (option error)
| client_Update (c : client_Client) (obj : HiveConfig) : cloudE (option error)
| awsutils_GetAWSClientsByRegion (regions : gset string)
    : cloudE (gmap string awsclient_Client * option error)
| awsutils_GetDefaultSGOfVpc (c : option awsclient_Client) (vpcId : string)
    : cloudE (string * option error)
| awsutils_GetCIDRFromVpcId (c : option awsclient_Client) (vpcId : string)
    : cloudE (string * option error)
| awsutils_GetWorkerSGFromVpcId (c : option awsclient_Client) (vpcId : string)
    : cloudE (string * option error)
| awsutils_RevokeAllIngressFromSG (c : option awsclient_Client) (sg peerSG : string)
    : cloudE (option error)
| awsutils_RevokeAllIngressFromCIDR (c : option awsclient_Client) (sg cidr : string)
    : cloudE (option error)
| DescribeVpcPeeringConnections (c : awsclient_Client)
    (input : DescribeVpcPeeringConnectionsInput)
    : cloudE (list VpcPeeringConnection * option error)
| DeleteVpcPeeringConnection (c : awsclient_Client) (id : option string)
    : cloudE (option error)
| WaitUntilVpcPeeringConnectionDeleted (c : awsclient_Client)
    (input : DescribeVpcPeeringConnectionsInput) : cloudE (option error)
| DescribeRouteTablesPages (c : awsclient_Client) (filters : list Filter)
    : cloudE (list (DescribeRouteTablesOutput * bool))
| DescribeRouteTablesPages_result (c : awsclient_Client) (filters : list Filter)
    : cloudE (option error)
| DeleteRoute (c : awsclient_Client) (routeTableId : option string)
    (destinationCidrBlock : string) : cloudE (option error).

(** The error a recorded call came back with, if any. *)
Definition call_error {R} (c : cloudE R) : R → option error :=
  match c in cloudE R return R → option error with
  | hiveutils_GetClient => snd
  | client_Get _ _ => snd
  | client_List _ _ _ _ => snd
  | client_Delete _ _ => id
  | client_Update _ _ => id
  | awsutils_GetAWSClientsByRegion _ => snd
  | awsutils_GetDefaultSGOfVpc _ _ => snd
  | awsutils_GetCIDRFromVpcId _ _ => snd
  | awsutils_GetWorkerSGFromVpcId _ _ => snd
  | awsutils_RevokeAllIngressFromSG _ _ _ => id
  | awsutils_RevokeAllIngressFromCIDR _ _ _ => id
  | DescribeVpcPeeringConnections _ _ => snd
  | DeleteVpcPeeringConnection _ _ => id
  | WaitUntilVpcPeeringConnectionDeleted _ _ => id
  | DescribeRouteTablesPages _ _ => λ _, None
  | DescribeRouteTablesPages_result _ _ => id
  | DeleteRoute _ _ _ => id
  end.

Definition entry_error (e : Entry cloudE) : option error :=
  match e with
  | Called c r => call_error c r
  | Logged _ _ _ => None
  end.

(** What a recorded call changes in the cloud or in the cluster. *)
Inductive Mutation : Type :=
| PeeringDeleted | RouteDeleted | IngressRevoked | SecretDeleted | ConfigWritten.

#[global] Instance Mutation_eq_dec : EqDecision Mutation.
Proof. solve_decision. Defined.

Definition call_mutation {R} (c : cloudE R) : option Mutation :=
  match c with
  | DeleteVpcPeeringConnection _ _ => Some PeeringDeleted
  | DeleteRoute _ _ _ => Some RouteDeleted
  | awsutils_RevokeAllIngressFromSG _ _ _ => Some IngressRevoked
  | awsutils_RevokeAllIngressFromCIDR _ _ _ => Some IngressRevoked
  | client_Delete _ _ => Some SecretDeleted
  | client_Update _ _ => Some ConfigWritten
  | _ => None
  end.

Definition entry_mutation (e : Entry cloudE) : option Mutation :=
  match e with
  | Called c _ => call_mutation c
  | Logged _ _ _ => None
  end.

(** [*p] on a [*string]: nil panics. *)
Definition deref {W} (p : option string) : M cloudE W string :=
  match p with
  | Some s => ret s
  | None => panic
  end.

(** A method call on an [awsclient.Client] interface value: nil panics. *)
Definition on_client {W A} (c : option awsclient_Client)
    (f : awsclient_Client → M cloudE W A) : M cloudE W A :=
  match c with
  | Some c => f c
  | None => panic
  end.

(** [s[i]] with a Go [int] index: out of range panics. *)
Definition index {A} (s : list A) (i : Z) : option A :=
  if decide (0 ≤ i)%Z then s !! Z.to_nat i else None.

Definition dquote : string := String (Ascii.ascii_of_nat 34) EmptyString.

End hiveutil.

(** ** contrib/pkg/awsprivatelink: the [disable] command *)

Module awsprivatelink.
Import hivev1 hiveutil.

Record disableOptions : Type := { dynamicClient : client_Client }.

Section command.
Context {W : Type}.
(** [operatorutils.GetHiveNamespace] and the two constants of [awsutils]
    naming the hub-account credentials Secret. *)
Variable GetHiveNamespace : HiveConfig → string.
Variable PrivateLinkHubAcctCredsName PrivateLinkHubAcctCredsLabel : string.

Definition Complete (args : list string) : M cloudE W (disableOptions * option error) :=
  let! got := call hiveutils_GetClient in
  match got with
  | (_, Some err) => fatal (Some err) "Failed to create controller-runtime client"
  | (dynamicClient, None) => ret ({| dynamicClient := dynamicClient |}, None)
  end.

Definition Validate (o : disableOptions) (args : list string) : M cloudE W (option error) :=
  ret None.

Definition Run (o : disableOptions) (args : list string) : M cloudE W (option error) :=
  let! got := call (client_Get (dynamicClient o) "hive") in
  match got with
  | (_, Some err) => fatal (Some err) "Failed to get HiveConfig/hive"
  | (hiveConfig, None) =>
      match AWSPrivateLink hiveConfig with
      | None => log WarnLevel None "AWS PrivateLink is already disabled in HiveConfig"
      | Some _ => ret tt
      end ;;
      match AWSPrivateLink hiveConfig with
      | Some privateLink =>
          if bool_decide (0 < length (EndpointVPCInventory privateLink))
             && bool_decide (0 < length (AssociatedVPCs privateLink))
          then fatal None
            ("HiveConfig has at least 1 associated VPC and 1 endpoint VPC specified. " +:+
             "Please either remove all associated VPCs or all endpoint VPCs from it. " +:+
             "Please remember to delete relevant cloud resources for networking " +:+
             "(between the associated VPCs and endpoint VPCs) as you remove the VPCs." +:+
             "You can remove the endpoint VPCs (and relevant cloud resources for networking) " +:+
             "one by one via `hiveutil awsprivatelink endpointvpc remove ...`.")
          else ret tt
      | None => ret tt
      end ;;
      (* Delete Hub account secret(s) if present *)
      let hiveNS := GetHiveNamespace hiveConfig in
      let! listed := call (client_List (dynamicClient o)
        ("metadata.name", PrivateLinkHubAcctCredsName)
        (PrivateLinkHubAcctCredsLabel, "true") hiveNS) in
      match listed.2 with
      | Some err => log ErrorLevel (Some err) "Failed to list Hub account credentials Secrets"
      | None => ret tt
      end ;;
      for_each listed.1 (λ hubAcctSecret,
        let! failed := call (client_Delete (dynamicClient o) hubAcctSecret) in
        match failed with
        | Some err => log ErrorLevel (Some err)
            ("Failed to delete Hub account credentials Secret " +:+ secret_Name hubAcctSecret)
        | None => log InfoLevel None
            ("Hub account credentials Secret " +:+ secret_Name hubAcctSecret +:+ " deleted")
        end) ;;
      (* Empty HiveConfig.spec.awsPrivateLink *)
      let hiveConfig :=
        {| TargetNamespace := TargetNamespace hiveConfig; AWSPrivateLink := None |} in
      let! failed := call (client_Update (dynamicClient o) hiveConfig) in
      match failed with
      | Some err => fatal (Some err) "Failed to update HiveConfig"
      | None =>
          log InfoLevel None "HiveConfig updated" ;;
          ret None
      end
  end.

(** The [Run] closure of [NewDisableAWSPrivateLinkCommand]. *)
Definition NewDisableAWSPrivateLinkCommand_Run (args : list string) : M cloudE W unit :=
  let! completed := Complete args in
  match completed with
  | (_, Some _) => ret tt
  | (opt, None) =>
      let! invalid := Validate opt args in
      match invalid with
      | Some _ => ret tt
      | None =>
          let! failed := Run opt args in
          match failed with
          | Some _ => ret tt
          | None => ret tt
          end
      end
  end.
End command.
End awsprivatelink.

(** ** contrib/pkg/awsprivatelink/endpointvpc: the [remove] command *)

Module endpointvpc.
Import hivev1 hiveutil.

Record endpointVPCRemoveOptions : Type := {
  hiveConfig : HiveConfig;
  associatedVpcs : list AWSAssociatedVPC;
  endpointVpcId : string;
  endpointVpcRegion : string;
  endpointVpcIdx : Z;
  endpointSubnetIds : list string;
  dynamicClient : client_Client;
  endpointVpcClients : option awsclient_Client;
  awsClientsByRegion : gmap string awsclient_Client
}.

Section command.
Context {W : Type}.
(** [awsutils.FindVpcInInventory]: index of the VPC in the inventory and
    whether it was found. *)
Variable FindVpcInInventory : string → list AWSPrivateLinkInventory → Z * bool.

(** [Complete] fills the zero-valued options of [NewEndpointVPCRemoveCommand];
    cobra's [ExactArgs(1)] has checked [args]. *)
Definition Complete (args : list string)
  : M cloudE W (endpointVPCRemoveOptions * option error) :=
  match args !! 0%nat with
  | None => panic
  | Some endpointVpcId =>
  (* Get controller-runtime dynamic client *)
  let! got := call hiveutils_GetClient in
  match got with
  | (_, Some err) => fatal (Some err) "Failed to create controller-runtime client"
  | (dynamicClient, None) =>
  (* Get HiveConfig *)
  let! got := call (client_Get dynamicClient "hive") in
  match got with
  | (_, Some err) => fatal (Some err) "Failed to get HiveConfig/hive"
  | (hiveConfig, None) =>
  match AWSPrivateLink hiveConfig with
  | None => fatal None
      ("AWS PrivateLink is not enabled in HiveConfig. Please call " +:+ dquote +:+
       "hiveutil awsprivatelink enable" +:+ dquote +:+ " first")
  | Some privateLink =>
  let associatedVpcs := AssociatedVPCs privateLink in
  (if bool_decide (length associatedVpcs = 0) then
     log WarnLevel None
       ("HiveConfig/hive does not specify any associated VPC. " +:+
        "The endpoint VPC passed in as argument will still be removed from HiveConfig, " +:+
        "and yet there will be no deletion of cloud resources.")
   else ret tt) ;;
  (* Get endpoint VPC and AWS clients for it *)
  match FindVpcInInventory endpointVpcId (EndpointVPCInventory privateLink) with
  | (_, false) => fatal None
      ("Endpoint VPC " +:+ endpointVpcId +:+
       " not found in HiveConfig.spec.awsPrivateLink.endpointVPCInventory. " +:+
       "Please call `hiveutil privatelink endpointvpc add ...` to add it first")
  | (endpointVpcIdx, true) =>
  match index (EndpointVPCInventory privateLink) endpointVpcIdx with
  | None => panic
  | Some endpointVpc =>
  let endpointVpcRegion := Region (inv_AWSPrivateLinkVPC endpointVpc) in
  let endpointSubnetIds := SubnetID <$> Subnets endpointVpc in
  (* Get AWS clients by region *)
  let regions : gset string :=
    foldl (λ regions associatedVpc,
             regions ∪ {[ Region (AWSPrivateLinkVPC_of associatedVpc) ]})
          {[ endpointVpcRegion ]} associatedVpcs in
  let! got := call (awsutils_GetAWSClientsByRegion regions) in
  match got with
  | (_, Some err) => fatal (Some err) "Failed to get AWS clients"
  | (awsClientsByRegion, None) =>
      ret ({| hiveConfig := hiveConfig;
              associatedVpcs := associatedVpcs;
              endpointVpcId := endpointVpcId;
              endpointVpcRegion := endpointVpcRegion;
              endpointVpcIdx := endpointVpcIdx;
              endpointSubnetIds := endpointSubnetIds;
              dynamicClient := dynamicClient;
              (* A shortcut to AWS clients of the endpoint VPC *)
              endpointVpcClients := awsClientsByRegion !! endpointVpcRegion;
              awsClientsByRegion := awsClientsByRegion |}, None)
  end end end end end end end.

Definition Validate (o : endpointVPCRemoveOptions) (args : list string)
  : M cloudE W (option error) :=
  ret None.

Definition removeEndpointVpcFromHiveConfig (o : endpointVPCRemoveOptions)
  : M cloudE W endpointVPCRemoveOptions :=
  log InfoLevel None ("Removing endpoint VPC " +:+ endpointVpcId o +:+ " from HiveConfig") ;;
  match AWSPrivateLink (hiveConfig o) with
  | None => panic
  | Some privateLink =>
      let inventory := EndpointVPCInventory privateLink in
      match index inventory (Z.of_nat (length inventory) - 1),
            index inventory (endpointVpcIdx o) with
      | Some last, Some _ =>
          let inventory := <[Z.to_nat (endpointVpcIdx o) := last]> inventory in
          let inventory := take (length inventory - 1) inventory in
          let hiveConfig' :=
            {| TargetNamespace := TargetNamespace (hiveConfig o);
               AWSPrivateLink := Some
                 {| CredentialsSecretRef := CredentialsSecretRef privateLink;
                    EndpointVPCInventory := inventory;
                    AssociatedVPCs := AssociatedVPCs privateLink;
                    DNSRecordType := DNSRecordType privateLink |} |} in
          let o' :=
            {| hiveConfig := hiveConfig';
               associatedVpcs := associatedVpcs o;
               endpointVpcId := endpointVpcId o;
               endpointVpcRegion := endpointVpcRegion o;
               endpointVpcIdx := endpointVpcIdx o;
               endpointSubnetIds := endpointSubnetIds o;
               dynamicClient := dynamicClient o;
               endpointVpcClients := endpointVpcClients o;
               awsClientsByRegion := awsClientsByRegion o |} in
          let! failed := call (client_Update (dynamicClient o) hiveConfig') in
          match failed with
          | Some err => fatal (Some err) "Failed to update HiveConfig"
          | None => ret o'
          end
      | _, _ => panic
      end
  end.

Definition deleteVpcPeeringConnection (awsClients : option awsclient_Client)
    (VpcId1 VpcId2 : string) : M cloudE W (option error) :=
  log InfoLevel None
    "Deleting VPC peering connection between the associated VPC and the endpoint VPC" ;;
  on_client awsClients (λ awsClients,
  let! described := call (DescribeVpcPeeringConnections awsClients
    {| Filters :=
         [ {| Name := "requester-vpc-info.vpc-id"; Values := [VpcId1; VpcId2] |};
           {| Name := "accepter-vpc-info.vpc-id"; Values := [VpcId1; VpcId2] |};
           (* Only one peering connection can be active at any given time
              between a pair of VPCs *)
           {| Name := "status-code"; Values := ["active"] |} ];
       VpcPeeringConnectionIds := [] |}) in
  match described with
  | (_, Some err) => ret (Some err)
  | ([], None) =>
      log WarnLevel None
        "No VPC peering connection found between the associated VPC and the endpoint VPC" ;;
      ret None
  | (connection :: _, None) =>
      let VpcPeeringConnectionId := VpcPeeringConnectionId connection in
      let! failed := call (DeleteVpcPeeringConnection awsClients VpcPeeringConnectionId) in
      match failed with
      | Some err => ret (Some err)
      | None =>
          let! id := deref VpcPeeringConnectionId in
          log DebugLevel None
            ("The deletion of VPC peering connection " +:+ id +:+ " has been initiated") ;;
          let! failed := call (WaitUntilVpcPeeringConnectionDeleted awsClients
            {| Filters := []; VpcPeeringConnectionIds := [VpcPeeringConnectionId] |}) in
          match failed with
          | Some err => ret (Some err)
          | None =>
              let! id := deref VpcPeeringConnectionId in
              log DebugLevel None ("VPC peering connection " +:+ id +:+ " deleted") ;;
              ret None
          end
      end
  end).

(** The body of the loop of the callback handed to
    [DescribeRouteTablesPages]: delete the route from one route table. *)
Definition deleteRoute_from_table (vpcClients : awsclient_Client) (peerCIDR : string)
    (routeTable : RouteTable) : M cloudE W unit :=
  let! failed := call (DeleteRoute vpcClients (RouteTableId routeTable) peerCIDR) in
  match failed with
  | Some err =>
      (* Proceed if route not found, fail otherwise *)
      if aws_code_is err "InvalidRoute.NotFound" then
        let! id := deref (RouteTableId routeTable) in
        log WarnLevel None ("Route not found in route table " +:+ id)
      else
        let! id := deref (RouteTableId routeTable) in
        fatal (Some err) ("Failed to delete route from route table " +:+ id)
  | None =>
      let! id := deref (RouteTableId routeTable) in
      log DebugLevel None ("Route deleted from route table " +:+ id)
  end.

(** The callback: delete the route from every route table of the page; the
    returned flag tells the paginator whether to go on. *)
Definition deleteRoute_callback (vpcClients : awsclient_Client) (peerCIDR : string)
    (page : DescribeRouteTablesOutput) (lastPage : bool) : M cloudE W bool :=
  for_each (RouteTables page) (deleteRoute_from_table vpcClients peerCIDR) ;;
  ret (negb lastPage).

(** The paginator: it hands the pages to the callback in order and stops
    at the first page for which the callback answers false, returning nil;
    when the pages run out it returns its own result. *)
Fixpoint paginate (fn : DescribeRouteTablesOutput → bool → M cloudE W bool)
    (pages : list (DescribeRouteTablesOutput * bool)) (result : M cloudE W (option error))
  : M cloudE W (option error) :=
  match pages with
  | [] => result
  | (page, lastPage) :: pages' =>
      let! continue := fn page lastPage in
      if continue then paginate fn pages' result else ret None
  end.

Definition deleteRouteFromRouteTables (vpcClients : option awsclient_Client)
    (vpcId peerCIDR : string) (additionalFiltersForRouteTables : list Filter)
  : M cloudE W (option error) :=
  let filters :=
    [ {| Name := "vpc-id"; Values := [vpcId] |} ] ++ additionalFiltersForRouteTables in
  on_client vpcClients (λ vpcClients,
    let! pages := call (DescribeRouteTablesPages vpcClients filters) in
    paginate (deleteRoute_callback vpcClients peerCIDR) pages
      (call (DescribeRouteTablesPages_result vpcClients filters))).

(** One revoke call of the "Update SGs" switch: proceed if the ingress is
    not found, fail otherwise. *)
Definition revoke_tolerating_not_found (revoke : cloudE (option error))
    (warning failure : string) : M cloudE W unit :=
  let! failed := call revoke in
  match failed with
  | Some err =>
      if aws_code_is err "InvalidPermission.NotFound" then log WarnLevel None warning
      else fatal (Some err) failure
  | None => ret tt
  end.

(** The [switch] of [Run] that updates the security groups. *)
Definition Run_update_SGs (o : endpointVPCRemoveOptions)
    (associatedVpcClients : option awsclient_Client)
    (associatedVpcRegion associatedVpcWorkerSG endpointVPCDefaultSG
     associatedVpcCIDR endpointVpcCIDR : string) : M cloudE W unit :=
  if bool_decide (associatedVpcRegion = endpointVpcRegion o) then
    (* Associated VPC & endpoint VPC in the same region => revoke ingress
       from SG of the peer *)
    log InfoLevel None
      "Revoking access from the endpoint VPC's default SG to the associated VPC's worker SG" ;;
    revoke_tolerating_not_found
      (awsutils_RevokeAllIngressFromSG associatedVpcClients
         associatedVpcWorkerSG endpointVPCDefaultSG)
      "Access from the endpoint VPC's default SG to the associated VPC's worker SG is not enabled"
      "Failed to revoke access from the endpoint VPC's default SG to the associated VPC's worker SG" ;;
    log InfoLevel None
      "Revoking access from the associated VPC's worker SG to the endpoint VPC's default SG" ;;
    revoke_tolerating_not_found
      (awsutils_RevokeAllIngressFromSG (endpointVpcClients o)
         endpointVPCDefaultSG associatedVpcWorkerSG)
      "Access from the associated VPC's worker SG to the endpoint VPC's default SG is not enabled"
      "Failed to revoke access from the associated VPC's worker SG to the endpoint VPC's default SG"
  else
    (* Associated VPC & endpoint VPC in different regions => revoke ingress
       from CIDR of the peer *)
    log InfoLevel None
      "Revoking access from the endpoint VPC's CIDR block to the associated VPC's worker SG" ;;
    revoke_tolerating_not_found
      (awsutils_RevokeAllIngressFromCIDR associatedVpcClients
         associatedVpcWorkerSG endpointVpcCIDR)
      "Access from the endpoint VPC's CIDR block to the associated VPC's worker SG is not enabled"
      "Failed to revoke access from the endpoint VPC's CIDR block to the associated VPC's worker SG" ;;
    log InfoLevel None
      "Revoking access from the associated VPC's CIDR block to the endpoint VPC's default SG" ;;
    revoke_tolerating_not_found
      (awsutils_RevokeAllIngressFromCIDR (endpointVpcClients o)
         endpointVPCDefaultSG associatedVpcCIDR)
      "Access from the associated VPC's CIDR block to the endpoint VPC's default SG is not enabled"
      "Failed to revoke access from the associated VPC's CIDR block to the endpoint VPC's default SG".

(** The steps of the loop body of [Run], cut where the source has its
    comments: the peering connection (after the two CIDR lookups), the
    route tables, the security groups. *)
Definition Run_delete_peering (o : endpointVPCRemoveOptions)
    (associatedVpc : AWSAssociatedVPC) : M cloudE W (string * string) :=
  let associatedVpcRegion := Region (AWSPrivateLinkVPC_of associatedVpc) in
  let associatedVpcClients := awsClientsByRegion o !! associatedVpcRegion in
  let associatedVpcId := VPCID (AWSPrivateLinkVPC_of associatedVpc) in
  log InfoLevel None
    ("Removing networking elements between associated VPC " +:+ associatedVpcId +:+
     " and endpoint VPC " +:+ endpointVpcId o) ;;
  let! got := call (awsutils_GetCIDRFromVpcId associatedVpcClients associatedVpcId) in
  match got with
  | (_, Some _) => fatal None "Failed to get CIDR of associated VPC"
  | (associatedVpcCIDR, None) =>
  log DebugLevel None ("Found associated VPC CIDR = " +:+ associatedVpcCIDR) ;;
  let! got := call (awsutils_GetCIDRFromVpcId (endpointVpcClients o) (endpointVpcId o)) in
  match got with
  | (_, Some _) => fatal None "Failed to get CIDR of endpoint VPC"
  | (endpointVpcCIDR, None) =>
  log DebugLevel None ("Found endpoint VPC CIDR = " +:+ endpointVpcCIDR) ;;
  (* Delete VPC peering connection *)
  let! failed :=
    deleteVpcPeeringConnection associatedVpcClients associatedVpcId (endpointVpcId o) in
  match failed with
  | Some err => fatal (Some err) "Failed to delete VPC peering connection"
  | None => ret (associatedVpcCIDR, endpointVpcCIDR)
  end end end.

Definition Run_update_route_tables (o : endpointVPCRemoveOptions)
    (associatedVpc : AWSAssociatedVPC) (associatedVpcCIDR endpointVpcCIDR : string)
  : M cloudE W unit :=
  let associatedVpcRegion := Region (AWSPrivateLinkVPC_of associatedVpc) in
  let associatedVpcClients := awsClientsByRegion o !! associatedVpcRegion in
  let associatedVpcId := VPCID (AWSPrivateLinkVPC_of associatedVpc) in
  log InfoLevel None "Deleting route from private route tables of the associated VPC" ;;
  let! failed := deleteRouteFromRouteTables associatedVpcClients associatedVpcId
    endpointVpcCIDR [ {| Name := "tag:Name"; Values := ["*private*"] |} ] in
  match failed with
  | Some err =>
      fatal (Some err) "Failed to delete route from private route tables of the associated VPC"
  | None =>
  log InfoLevel None "Deleting route from route tables of the endpoint subnets" ;;
  let! failed := deleteRouteFromRouteTables (endpointVpcClients o) (endpointVpcId o)
    associatedVpcCIDR
    [ {| Name := "association.subnet-id"; Values := endpointSubnetIds o |} ] in
  match failed with
  | Some err =>
      fatal (Some err) "Failed to delete route from route tables of the endpoint subnets"
  | None => ret tt
  end end.

Definition Run_revoke_ingress (o : endpointVPCRemoveOptions) (endpointVPCDefaultSG : string)
    (associatedVpc : AWSAssociatedVPC) (associatedVpcCIDR endpointVpcCIDR : string)
  : M cloudE W unit :=
  let associatedVpcRegion := Region (AWSPrivateLinkVPC_of associatedVpc) in
  let associatedVpcClients := awsClientsByRegion o !! associatedVpcRegion in
  let associatedVpcId := VPCID (AWSPrivateLinkVPC_of associatedVpc) in
  let! got := call (awsutils_GetWorkerSGFromVpcId associatedVpcClients associatedVpcId) in
  match got with
  | (_, Some err) => fatal (Some err) "Failed to get worker SG of the associated Hive cluster"
  | (associatedVpcWorkerSG, None) =>
  log DebugLevel None
    ("Found worker SG " +:+ associatedVpcWorkerSG +:+ " of the associated Hive cluster") ;;
  Run_update_SGs o associatedVpcClients associatedVpcRegion associatedVpcWorkerSG
    endpointVPCDefaultSG associatedVpcCIDR endpointVpcCIDR
  end.

(** The body of the loop of [Run] over the associated VPCs. *)
Definition Run_body (o : endpointVPCRemoveOptions) (endpointVPCDefaultSG : string)
    (associatedVpc : AWSAssociatedVPC) : M cloudE W unit :=
  let! cidrs := Run_delete_peering o associatedVpc in
  Run_update_route_tables o associatedVpc cidrs.1 cidrs.2 ;;
  Run_revoke_ingress o endpointVPCDefaultSG associatedVpc cidrs.1 cidrs.2.

Definition Run (o : endpointVPCRemoveOptions) (args : list string)
  : M cloudE W (option error) :=
  (* Get default SG of the endpoint VPC *)
  let! got := call (awsutils_GetDefaultSGOfVpc (endpointVpcClients o) (endpointVpcId o)) in
  match got with
  | (_, Some err) => fatal (Some err) "Failed to get default SG of the endpoint VPC"
  | (endpointVPCDefaultSG, None) =>
      log DebugLevel None
        ("Found default SG " +:+ endpointVPCDefaultSG +:+ " of the endpoint VPC") ;;
      (* Remove the networking elements between the endpoint VPC and each
         associated VPC *)
      for_each (associatedVpcs o) (Run_body o endpointVPCDefaultSG) ;;
      (* Update HiveConfig *)
      removeEndpointVpcFromHiveConfig o ;;
      ret None
  end.

(** The [Run] closure of [NewEndpointVPCRemoveCommand]. *)
Definition NewEndpointVPCRemoveCommand_Run (args : list string) : M cloudE W unit :=
  let! completed := Complete args in
  match completed with
  | (_, Some _) => ret tt
  | (opt, None) =>
      let! invalid := Validate opt args in
      match invalid with
      | Some _ => ret tt
      | None =>
          let! failed := Run opt args in
          match failed with
          | Some _ => ret tt
          | None => ret tt
          end
      end
  end.
End command.
End endpointvpc.

(** ** What the claims speak of *)

(** The zone ids of the zones of a response whose Status is "Available" and
    whose StatusCategory is "WithStock", in response order. *)
Definition available_zone_ids (response : alibabaclient.DescribeAvailableResourceResponse)
  : list string :=
  alibabaclient.ZoneId <$>
    filter (λ zone, alibabaclient.Status zone = "Available"
                    ∧ alibabaclient.StatusCategory zone = "WithStock")
           (alibabaclient.AvailableZones response).

(** What a script returned, if it did. *)
Definition returned {E W A} (r : Outcome A * W * list (Entry E)) : option A :=
  match outcome r with
  | Returned a => Some a
  | _ => None
  end.

(** The external calls of a trace, without the log lines. *)
Definition calls {E} (t : list (Entry E)) : list (Entry E) :=
  filter (λ e, is_log e = false) t.

(** A call that came back without an error, or with an AWS error of the
    given code. *)
Definition nil_or_code (code : string) (failed : option error) : bool :=
  match failed with
  | None => true
  | Some err => aws_code_is err code
  end.

(** The input of the describe call of [deleteVpcPeeringConnection]: the
    active peering connections between the two VPCs, whichever requested. *)
Definition active_peering_between (VpcId1 VpcId2 : string)
  : hiveutil.DescribeVpcPeeringConnectionsInput :=
  {| hiveutil.Filters :=
       [ {| hiveutil.Name := "requester-vpc-info.vpc-id"; hiveutil.Values := [VpcId1; VpcId2] |};
         {| hiveutil.Name := "accepter-vpc-info.vpc-id"; hiveutil.Values := [VpcId1; VpcId2] |};
         {| hiveutil.Name := "status-code"; hiveutil.Values := ["active"] |} ];
     hiveutil.VpcPeeringConnectionIds := [] |}.

Definition peering_connection_with_id (id : option string)
  : hiveutil.DescribeVpcPeeringConnectionsInput :=
  {| hiveutil.Filters := []; hiveutil.VpcPeeringConnectionIds := [id] |}.

(** The two revoke calls of the security-group step, after the calls
    [before]: the second is made when the first came back without an error
    or with "InvalidPermission.NotFound", and the step returns when the same
    holds of the second; any other error ends the process at the call. *)
Definition revokes_in_turn {W} (r : Outcome unit * W * list (Entry hiveutil.cloudE))
    (before : list (Entry hiveutil.cloudE))
    (first second : hiveutil.cloudE (option error)) : Prop :=
  ∃ revoked1,
    if nil_or_code "InvalidPermission.NotFound" revoked1 then
      ∃ revoked2,
        calls (trace r) = before ++ [Called first revoked1; Called second revoked2]
        ∧ outcome r = (if nil_or_code "InvalidPermission.NotFound" revoked2
                       then Returned tt else Exited 1)
    else
      calls (trace r) = before ++ [Called first revoked1] ∧ outcome r = Exited 1.

(** The route tables the paginator hands to the callback: those of the
    pages up to and including the first page flagged as the last. *)
Fixpoint delivered (pages : list (hiveutil.DescribeRouteTablesOutput * bool))
  : list hiveutil.RouteTable :=
  match pages with
  | [] => []
  | (page, lastPage) :: pages' =>
      hiveutil.RouteTables page ++ (if lastPage then [] else delivered pages')
  end.

(** One [DeleteRoute] call per route table, in order, as long as there are
    responses. *)
Definition route_calls (c : hiveutil.awsclient_Client) (peerCIDR : string)
    (tables : list hiveutil.RouteTable) (responses : list (option error))
  : list (Entry hiveutil.cloudE) :=
  zip_with (λ routeTable failed,
              Called (hiveutil.DeleteRoute c (hiveutil.RouteTableId routeTable) peerCIDR) failed)
           tables responses.

Definition has_id (routeTable : hiveutil.RouteTable) : Prop :=
  is_Some (hiveutil.RouteTableId routeTable).

(** A route deletion that found the route gone, or deleted it. *)
Definition route_gone (failed : option error) : Prop :=
  nil_or_code "InvalidRoute.NotFound" failed = true.

(** Whether the callback stops the paginator before the pages run out. *)
Definition stops (pages : list (hiveutil.DescribeRouteTablesOutput * bool)) : bool :=
  existsb snd pages.

(** The calls [t] of one route deletion through the client [vpcClients]:
    the route tables are asked for with exactly [filters], and the route to
    [peerCIDR] is deleted from the tables of the answer, in order and from
    no other; [ending] is the paginator's result, when it was asked for.
    [returned] is what the deletion returned, if it returned: it returns
    only after the delete on every delivered table, and nothing but a delete
    failing with another error than "InvalidRoute.NotFound" (or a table
    without id) keeps it from returning. *)
Definition route_deletion (vpcClients : option hiveutil.awsclient_Client)
    (filters : list hiveutil.Filter) (peerCIDR : string)
    (t : list (Entry hiveutil.cloudE)) (returned : option (option error)) : Prop :=
  match vpcClients with
  | None => t = [] ∧ returned = None
  | Some c =>
      ∃ pages responses ending,
        t = Called (hiveutil.DescribeRouteTablesPages c filters) pages
            :: route_calls c peerCIDR (delivered pages) responses ++ ending
        ∧ (length responses ≤ length (delivered pages))%nat
        ∧ (is_Some returned → length responses = length (delivered pages))
        ∧ (Forall route_gone responses → Forall has_id (delivered pages) → is_Some returned)
        ∧ match returned with
          | Some failed =>
              if stops pages then ending = [] ∧ failed = None
              else ending = [Called (hiveutil.DescribeRouteTablesPages_result c filters) failed]
          | None => ending = []
          end
  end.

(** The changes a trace makes, in order. *)
Definition mutations (t : list (Entry hiveutil.cloudE)) : list hiveutil.Mutation :=
  omap hiveutil.entry_mutation t.

(** How often a trace writes the configuration back. *)
Definition writes (t : list (Entry hiveutil.cloudE)) : nat :=
  length (filter (λ m, m = hiveutil.ConfigWritten) (mutations t)).

(** A stretch of a trace that changes nothing but things of one kind. *)
Definition phase (m : hiveutil.Mutation) (t : list (Entry hiveutil.cloudE)) : Prop :=
  Forall (λ e, hiveutil.entry_mutation e = None ∨ hiveutil.entry_mutation e = Some m) t.

(** The calls of a completed deletion of the peering connection between
    two VPCs through the client [c]: the active peering connections between
    the two VPCs are asked for; when there is none nothing is deleted,
    otherwise the first one is deleted and its deletion is awaited, and
    every call came back without an error. *)
Definition peering_deletion (c : hiveutil.awsclient_Client) (VpcId1 VpcId2 : string)
    (t : list (Entry hiveutil.cloudE)) : Prop :=
  ∃ connections,
    t = Called (hiveutil.DescribeVpcPeeringConnections c
                  (active_peering_between VpcId1 VpcId2)) (connections, None)
        :: match connections with
           | [] => []
           | connection :: _ =>
               let id := hiveutil.VpcPeeringConnectionId connection in
               [ Called (hiveutil.DeleteVpcPeeringConnection c id) None;
                 Called (hiveutil.WaitUntilVpcPeeringConnectionDeleted c
                           (peering_connection_with_id id)) None ]
           end.

(** Every call of a stretch came back without an error or with an AWS
    error of the given code. *)
Definition all_nil_or_code (code : string) (t : list (Entry hiveutil.cloudE)) : Prop :=
  Forall (λ e, nil_or_code code (hiveutil.entry_error e) = true) t.

(** The two revokes of security-group ingress between the endpoint VPC and
    an associated VPC: in the same region each security group loses the
    ingress from the other one, across regions each loses the ingress from
    the CIDR block of the other VPC. *)
Definition ingress_revokes (o : endpointvpc.endpointVPCRemoveOptions)
    (associatedVpc : hivev1.AWSAssociatedVPC)
    (endpointVPCDefaultSG associatedVpcWorkerSG associatedVpcCIDR endpointVpcCIDR : string)
  : hiveutil.cloudE (option error) * hiveutil.cloudE (option error) :=
  let associatedVpcRegion := hivev1.Region (hivev1.AWSPrivateLinkVPC_of associatedVpc) in
  let associatedVpcClients := endpointvpc.awsClientsByRegion o !! associatedVpcRegion in
  if decide (associatedVpcRegion = endpointvpc.endpointVpcRegion o) then
    (hiveutil.awsutils_RevokeAllIngressFromSG associatedVpcClients
       associatedVpcWorkerSG endpointVPCDefaultSG,
     hiveutil.awsutils_RevokeAllIngressFromSG (endpointvpc.endpointVpcClients o)
       endpointVPCDefaultSG associatedVpcWorkerSG)
  else
    (hiveutil.awsutils_RevokeAllIngressFromCIDR associatedVpcClients
       associatedVpcWorkerSG endpointVpcCIDR,
     hiveutil.awsutils_RevokeAllIngressFromCIDR (endpointvpc.endpointVpcClients o)
       endpointVPCDefaultSG associatedVpcCIDR).

(** The completed teardown between the endpoint VPC (whose default
    security group is [endpointVPCDefaultSG]) and one associated VPC.  Its
    calls are, in this order: the lookups of the CIDR blocks of the two
    VPCs; the deletion, through the client of the associated VPC's region,
    of the peering connection between the two VPCs ([peering_deletion]);
    the deletion of the route to the endpoint VPC's CIDR block from the
    private route tables of the associated VPC, and of the route to the
    associated VPC's CIDR block from the route tables of the endpoint
    subnets ([route_deletion], every delete having deleted the route or
    found it gone); the lookup of the worker security group of the
    associated VPC and the two revokes of ingress between that group and
    the default security group of the endpoint VPC ([ingress_revokes]),
    each having revoked the ingress or found none. *)
Definition teardown_of (o : endpointvpc.endpointVPCRemoveOptions)
    (endpointVPCDefaultSG : string)
    (associatedVpc : hivev1.AWSAssociatedVPC) (seg : list (Entry hiveutil.cloudE)) : Prop :=
  let associatedVpcId := hivev1.VPCID (hivev1.AWSPrivateLinkVPC_of associatedVpc) in
  let associatedVpcClients :=
    endpointvpc.awsClientsByRegion o
      !! hivev1.Region (hivev1.AWSPrivateLinkVPC_of associatedVpc) in
  ∃ c associatedVpcCIDR endpointVpcCIDR peering routes1 routes2
    associatedVpcWorkerSG revoked1 revoked2,
    let revokes := ingress_revokes o associatedVpc endpointVPCDefaultSG
                     associatedVpcWorkerSG associatedVpcCIDR endpointVpcCIDR in
    associatedVpcClients = Some c
    ∧ calls seg
      = [ Called (hiveutil.awsutils_GetCIDRFromVpcId associatedVpcClients associatedVpcId)
            (associatedVpcCIDR, None);
          Called (hiveutil.awsutils_GetCIDRFromVpcId (endpointvpc.endpointVpcClients o)
                    (endpointvpc.endpointVpcId o))
            (endpointVpcCIDR, None) ]
        ++ peering ++ routes1 ++ routes2
        ++ [ Called (hiveutil.awsutils_GetWorkerSGFromVpcId associatedVpcClients
                       associatedVpcId)
               (associatedVpcWorkerSG, None);
             Called revokes.1 revoked1;
             Called revokes.2 revoked2 ]
    ∧ peering_deletion c associatedVpcId (endpointvpc.endpointVpcId o) peering
    ∧ route_deletion associatedVpcClients
        [ {| hiveutil.Name := "vpc-id"; hiveutil.Values := [associatedVpcId] |};
          {| hiveutil.Name := "tag:Name"; hiveutil.Values := ["*private*"] |} ]
        endpointVpcCIDR routes1 (Some None)
    ∧ all_nil_or_code "InvalidRoute.NotFound" routes1
    ∧ route_deletion (endpointvpc.endpointVpcClients o)
        [ {| hiveutil.Name := "vpc-id"; hiveutil.Values := [endpointvpc.endpointVpcId o] |};
          {| hiveutil.Name := "association.subnet-id";
             hiveutil.Values := endpointvpc.endpointSubnetIds o |} ]
        associatedVpcCIDR routes2 (Some None)
    ∧ all_nil_or_code "InvalidRoute.NotFound" routes2
    ∧ nil_or_code "InvalidPermission.NotFound" revoked1 = true
    ∧ nil_or_code "InvalidPermission.NotFound" revoked2 = true.

(** The configuration of the options with another endpoint-VPC inventory. *)
Definition with_inventory (hiveConfig : hivev1.HiveConfig)
    (inventory : list hivev1.AWSPrivateLinkInventory) : hivev1.HiveConfig :=
  {| hivev1.TargetNamespace := hivev1.TargetNamespace hiveConfig;
     hivev1.AWSPrivateLink :=
       (λ privateLink,
          {| hivev1.CredentialsSecretRef := hivev1.CredentialsSecretRef privateLink;
             hivev1.EndpointVPCInventory := inventory;
             hivev1.AssociatedVPCs := hivev1.AssociatedVPCs privateLink;
             hivev1.DNSRecordType := hivev1.DNSRecordType privateLink |})
       <$> hivev1.AWSPrivateLink hiveConfig |}.

(** [inventory'] is the inventory of the options without the entry at the
    index of the endpoint VPC. *)
Definition endpoint_vpc_removed (o : endpointvpc.endpointVPCRemoveOptions)
    (inventory' : list hivev1.AWSPrivateLinkInventory) : Prop :=
  ∃ privateLink endpointVpc,
    hivev1.AWSPrivateLink (endpointvpc.hiveConfig o) = Some privateLink
    ∧ hiveutil.index (hivev1.EndpointVPCInventory privateLink) (endpointvpc.endpointVpcIdx o)
      = Some endpointVpc
    ∧ hivev1.EndpointVPCInventory privateLink ≡ₚ endpointVpc :: inventory'.

(** *** Failing fast *)

(** Which errors a command passes over, and at which level it logs them. *)
Definition Tolerance (E : Type → Type) : Type := ∀ R, E R → error → option Level.

(** A run fails fast when every call that comes back with an error is
    either passed over, and then the next thing the run does is to log it at
    the level of the tolerance, or is the last call of the run: the process
    ends there, with a fatal log line and exit code 1.  In both cases the
    run may instead panic at once (on a nil id in the response). *)
Definition fail_fast {E W A} (call_err : ∀ R, E R → R → option error)
    (tolerated : Tolerance E) (r : Outcome A * W * list (Entry E)) : Prop :=
  ∀ pre R (c : E R) (resp : R) err post,
    trace r = pre ++ Called c resp :: post →
    call_err R c resp = Some err →
    match tolerated R c err with
    | Some lvl =>
        (∃ oe msg post', post = Logged lvl oe msg :: post')
        ∨ (outcome r = Panicked ∧ post = [])
    | None =>
        (outcome r = Exited 1 ∧ ∃ oe msg, post = [Logged FatalLevel oe msg])
        ∨ (outcome r = Panicked ∧ post = [])
    end.

(** The errors the commands are said to pass over: "not found" on revoking
    security-group ingress and on deleting a route, logged as warnings. *)
Definition not_found_only : Tolerance hiveutil.cloudE :=
  λ R c err,
    match c with
    | hiveutil.awsutils_RevokeAllIngressFromSG _ _ _
    | hiveutil.awsutils_RevokeAllIngressFromCIDR _ _ _ =>
        if aws_code_is err "InvalidPermission.NotFound" then Some WarnLevel else None
    | hiveutil.DeleteRoute _ _ _ =>
        if aws_code_is err "InvalidRoute.NotFound" then Some WarnLevel else None
    | _ => None
    end.

(** What the [disable] command passes over besides: any failure to list or
    to delete the hub-account credentials Secrets, logged as errors. *)
Definition secrets_also : Tolerance hiveutil.cloudE :=
  λ R c err,
    match c with
    | hiveutil.client_List _ _ _ _ | hiveutil.client_Delete _ _ => Some ErrorLevel
    | _ => not_found_only R c err
    end.

Definition nothing_tolerated {E} : Tolerance E := λ _ _ _, None.

(** The error a call of the PowerVS deprovision command came back with. *)
Definition cli_error {R} (c : deprovision.cliE R) : R → option error :=
  match c in deprovision.cliE R return R → option error with
  | deprovision.utils_GetClient => snd
  | deprovision.powervsutils_ConfigureCreds _ => λ _, None
  | deprovision.cmd_Usage => id
  | deprovision.utils_NewLogger _ => snd
  | deprovision.powervs_New _ _ => snd
  | deprovision.destroyer_Run _ => id
  end.

(** Where a trace stands with respect to failing fast: every error so far
    was passed over and logged ([Clean]); or the last call came back with an
    error that is not passed over and nothing happened since ([Pending]);
    or the last call came back with an error that is passed over and
    nothing happened since ([Unlogged]); or the trace ends with the fatal
    log line ([Ended]); or it fails to fail fast ([Bad]). *)
Inductive Verdict : Type := Clean | Pending | Unlogged | Ended | Bad.

Definition is_fatal (lvl : Level) : bool :=
  match lvl with FatalLevel => true | _ => false end.

Definition same_level (a b : Level) : bool :=
  match a, b with
  | DebugLevel, DebugLevel | InfoLevel, InfoLevel | WarnLevel, WarnLevel
  | ErrorLevel, ErrorLevel | FatalLevel, FatalLevel => true
  | _, _ => false
  end.

Fixpoint judge {E} (call_err : ∀ R, E R → R → option error) (tolerated : Tolerance E)
    (t : list (Entry E)) : Verdict :=
  match t with
  | [] => Clean
  | Logged lvl _ _ :: post =>
      if is_fatal lvl then match post with [] => Ended | _ => Bad end
      else judge call_err tolerated post
  | Called c r :: post =>
      match call_err _ c r with
      | None => judge call_err tolerated post
      | Some err =>
          match tolerated _ c err with
          | Some lvl =>
              match post with
              | [] => Unlogged
              | Logged lvl' _ _ :: _ =>
                  if same_level lvl' lvl && negb (is_fatal lvl)
                  then judge call_err tolerated post else Bad
              | _ => Bad
              end
          | None =>
              match post with
              | [] => Pending
              | [Logged FatalLevel _ _] => Ended
              | _ => Bad
              end
          end
      end
  end.

(** Whether a returned [error] is non-nil. *)
Definition erred (failed : option error) : bool :=
  match failed with Some _ => true | None => false end.

(** A finished run is settled when its end fits the verdict on its trace:
    it returned after a clean trace, or returned a failure right after the
    failing call, or exited with code 1 after the fatal log line, or
    panicked (possibly right after a failing call). *)
Definition settled {E W A} (call_err : ∀ R, E R → R → option error) (tolerated : Tolerance E)
    (failed : A → bool) (r : Outcome A * W * list (Entry E)) : Prop :=
  match outcome r, judge call_err tolerated (trace r) with
  | Returned a, Clean => True
  | Returned a, Pending => failed a = true
  | Exited code, Ended => code = 1%Z
  | Panicked, (Clean | Pending | Unlogged) => True
  | _, _ => False
  end.

(** ** Example worlds *)

Module examples.

(** An installer that generates one machine set per call. *)
Definition installer : Handler machinepool.installerE unit :=
  λ R c, match c in machinepool.installerE R return unit → R * unit with
         | machinepool.installpowervs_MachineSets clusterID _ pool _ _ =>
             λ w, ((Some [ {| machinepool.ms_Name := clusterID +:+ "-worker-1";
                              machinepool.ms_Replicas := machinepool.imp_Replicas pool |} ],
                    None), w)
         end.

Definition baseMachinePool (pool : machinepool.MachinePool) : machinepool.installer_MachinePool :=
  {| machinepool.imp_Name := machinepool.pool_Name pool;
     machinepool.imp_Replicas := machinepool.pool_Replicas pool;
     machinepool.imp_Platform_PowerVS := None |}.

(** The cluster deployment and the pool of the actuator's unit test; the
    second deployment lacks its cluster metadata. *)
Definition testPowerVSPool : machinepool.MachinePool :=
  {| machinepool.pool_Name := "worker";
     machinepool.pool_Replicas := Some 3%Z;
     machinepool.pool_Platform_PowerVS :=
       Some {| machinepool.MemoryGiB := 32;
               machinepool.ProcType := "Shared";
               machinepool.Processors := machinepool.FromString "0.5";
               machinepool.SysType := "s922" |} |}.

Definition testPowerVSClusterDeployment : machinepool.ClusterDeployment :=
  {| machinepool.cd_ClusterMetadata := Some {| machinepool.InfraID := "foo-12345" |};
     machinepool.cd_Platform_PowerVS :=
       Some {| machinepool.CredentialsSecretRef := "powervs-credentials";
               machinepool.Region := "test-region";
               machinepool.Zone := "test-zone" |} |}.

Definition clusterDeployment_without_metadata : machinepool.ClusterDeployment :=
  {| machinepool.cd_ClusterMetadata := None;
     machinepool.cd_Platform_PowerVS :=
       machinepool.cd_Platform_PowerVS testPowerVSClusterDeployment |}.

(** An operating system with one environment variable and one file; the
    world is the pair (value of the variable, whether the file is readable). *)
Definition os : Handler manageddns.osE (string * bool) :=
  λ R c, match c in manageddns.osE R return string * bool → R * (string * bool) with
         | manageddns.os_Getenv _ => λ w, (w.1, w)
         | manageddns.os_ReadFile name =>
             λ w, if w.2 then (([Byte.x5b; Byte.x5d], None), w)
                  else (([], Some (errors_New ("open " +:+ name +:+ ": no such file or directory"))), w)
         end.

(** A JSON decoder for domain lists that knows exactly one document, the
    empty array. *)
Definition unmarshal_domains (data : list Byte.byte) (into : slice (list string))
  : slice (list string) * option error :=
  match data with
  | [Byte.x5b; Byte.x5d] => (Some [], None)
  | _ => (into, Some (errors_New "invalid character"))
  end.

(** A terminal on which every call of the PowerVS deprovision command works. *)
Definition terminal : Handler deprovision.cliE unit :=
  λ R c, match c in deprovision.cliE R return unit → R * unit with
         | deprovision.utils_GetClient => λ w, (({| deprovision.client_id := 0 |}, None), w)
         | deprovision.powervsutils_ConfigureCreds _ => λ w, (tt, w)
         | deprovision.cmd_Usage => λ w, (None, w)
         | deprovision.utils_NewLogger _ => λ w, (({| deprovision.logger_id := 0 |}, None), w)
         | deprovision.powervs_New _ _ => λ w, (({| deprovision.destroyer_id := 0 |}, None), w)
         | deprovision.destroyer_Run _ => λ w, (None, w)
         end.

Definition flags_all_given : deprovision.powerVSDeprovisionOptions :=
  {| deprovision.baseDomain := "example.com"; deprovision.clusterName := "c1";
     deprovision.logLevel := "info"; deprovision.infraID := "";
     deprovision.region := "us-east"; deprovision.zone := "us-east" |}.

Definition flags_without_zone : deprovision.powerVSDeprovisionOptions :=
  {| deprovision.baseDomain := "example.com"; deprovision.clusterName := "c1";
     deprovision.logLevel := "info"; deprovision.infraID := "";
     deprovision.region := "us-east"; deprovision.zone := "" |}.

(** A HiveConfig with three endpoint VPCs and two associated VPCs, one in
    the region of the endpoint VPCs and one elsewhere. *)
Definition vpc (id region : string) : hivev1.AWSPrivateLinkVPC :=
  {| hivev1.VPCID := id; hivev1.Region := region |}.

Definition endpoint_vpc (id region : string) (subnets : list string)
  : hivev1.AWSPrivateLinkInventory :=
  {| hivev1.inv_AWSPrivateLinkVPC := vpc id region;
     hivev1.Subnets :=
       (λ s, {| hivev1.SubnetID := s; hivev1.AvailabilityZone := region +:+ "a" |}) <$> subnets |}.

Definition associated_vpc (id region : string) : hivev1.AWSAssociatedVPC :=
  {| hivev1.AWSPrivateLinkVPC_of := vpc id region; hivev1.assoc_CredentialsSecretRef := None |}.

Definition privateLink : hivev1.AWSPrivateLinkConfig :=
  {| hivev1.CredentialsSecretRef := "aws-hub-creds";
     hivev1.EndpointVPCInventory :=
       [ endpoint_vpc "vpc-e1" "us-east-1" ["subnet-1"; "subnet-2"];
         endpoint_vpc "vpc-e2" "us-east-1" ["subnet-3"];
         endpoint_vpc "vpc-e3" "us-west-2" ["subnet-4"] ];
     hivev1.AssociatedVPCs :=
       [ associated_vpc "vpc-a1" "us-east-1"; associated_vpc "vpc-a2" "us-west-2" ];
     hivev1.DNSRecordType := "Alias" |}.

Definition hiveConfig : hivev1.HiveConfig :=
  {| hivev1.TargetNamespace := "hive"; hivev1.AWSPrivateLink := Some privateLink |}.

(** The index of the first inventory entry with the VPC id, as a Go
    [(int, bool)]. *)
Fixpoint find_vpc (i : Z) (vpcId : string) (inventory : list hivev1.AWSPrivateLinkInventory)
  : Z * bool :=
  match inventory with
  | [] => ((-1)%Z, false)
  | endpointVpc :: inventory' =>
      if bool_decide (hivev1.VPCID (hivev1.inv_AWSPrivateLinkVPC endpointVpc) = vpcId)
      then (i, true) else find_vpc (i + 1)%Z vpcId inventory'
  end.

Definition FindVpcInInventory := find_vpc 0.

Definition k8s : hiveutil.client_Client := {| hiveutil.k8s_id := 1 |}.
Definition east : hiveutil.awsclient_Client := {| hiveutil.aws_id := 1 |}.
Definition west : hiveutil.awsclient_Client := {| hiveutil.aws_id := 2 |}.

Definition route_table (id : string) : hiveutil.RouteTable :=
  {| hiveutil.RouteTableId := Some id |}.

(** A cloud without memory.  [faulty] says which calls fail and how; apart
    from that every VPC has one peering connection, two pages of route
    tables, and the cluster holds one hub-account Secret. *)
Definition cloud_with (hiveConfig : hivev1.HiveConfig)
    (faulty : ∀ R, hiveutil.cloudE R → option error) : Handler hiveutil.cloudE unit :=
  λ R c,
    match c in hiveutil.cloudE R return option error → unit → R * unit with
    | hiveutil.hiveutils_GetClient => λ e w, ((k8s, e), w)
    | hiveutil.client_Get _ _ => λ e w, ((hiveConfig, e), w)
    | hiveutil.client_List _ _ _ ns =>
        λ e w, (([ {| hiveutil.secret_Name := "aws-hub-creds";
                      hiveutil.secret_Namespace := ns |} ], e), w)
    | hiveutil.client_Delete _ _ => λ e w, (e, w)
    | hiveutil.client_Update _ _ => λ e w, (e, w)
    | hiveutil.awsutils_GetAWSClientsByRegion _ =>
        λ e w, (({[ "us-east-1" := east; "us-west-2" := west ]}, e), w)
    | hiveutil.awsutils_GetDefaultSGOfVpc _ vpcId => λ e w, (("sg-default-" +:+ vpcId, e), w)
    | hiveutil.awsutils_GetCIDRFromVpcId _ vpcId => λ e w, (("cidr-" +:+ vpcId, e), w)
    | hiveutil.awsutils_GetWorkerSGFromVpcId _ vpcId => λ e w, (("sg-worker-" +:+ vpcId, e), w)
    | hiveutil.awsutils_RevokeAllIngressFromSG _ _ _ => λ e w, (e, w)
    | hiveutil.awsutils_RevokeAllIngressFromCIDR _ _ _ => λ e w, (e, w)
    | hiveutil.DescribeVpcPeeringConnections _ _ =>
        λ e w, (([ {| hiveutil.VpcPeeringConnectionId := Some "pcx-1" |} ], e), w)
    | hiveutil.DeleteVpcPeeringConnection _ _ => λ e w, (e, w)
    | hiveutil.WaitUntilVpcPeeringConnectionDeleted _ _ => λ e w, (e, w)
    | hiveutil.DescribeRouteTablesPages _ _ =>
        λ e w, ([ ({| hiveutil.RouteTables := [route_table "rtb-1"; route_table "rtb-2"] |}, false);
                  ({| hiveutil.RouteTables := [route_table "rtb-3"] |}, true) ], w)
    | hiveutil.DescribeRouteTablesPages_result _ _ => λ e w, (e, w)
    | hiveutil.DeleteRoute _ _ _ => λ e w, (e, w)
    end (faulty R c).

Definition cloud := cloud_with hiveConfig.

(** The same cluster once every associated VPC has been taken out of the
    configuration. *)
Definition hiveConfig_without_associated_vpcs : hivev1.HiveConfig :=
  {| hivev1.TargetNamespace := "hive";
     hivev1.AWSPrivateLink := Some
       {| hivev1.CredentialsSecretRef := "aws-hub-creds";
          hivev1.EndpointVPCInventory := hivev1.EndpointVPCInventory privateLink;
          hivev1.AssociatedVPCs := [];
          hivev1.DNSRecordType := "Alias" |} |}.

(** No call fails. *)
Definition healthy : ∀ R, hiveutil.cloudE R → option error := λ _ _, None.

(** Every revoke and every route deletion finds nothing to remove. *)
Definition nothing_left : ∀ R, hiveutil.cloudE R → option error :=
  λ _ c, match c with
         | hiveutil.awsutils_RevokeAllIngressFromSG _ _ _
         | hiveutil.awsutils_RevokeAllIngressFromCIDR _ _ _ =>
             Some (awserr_Error "InvalidPermission.NotFound" "rule not found")
         | hiveutil.DeleteRoute _ _ _ =>
             Some (awserr_Error "InvalidRoute.NotFound" "no such route")
         | _ => None
         end.

(** The default security group of the endpoint VPC cannot be read. *)
Definition no_default_sg : ∀ R, hiveutil.cloudE R → option error :=
  λ _ c, match c with
         | hiveutil.awsutils_GetDefaultSGOfVpc _ _ =>
             Some (awserr_Error "UnauthorizedOperation" "not authorized")
         | _ => None
         end.

(** The API server refuses to list Secrets. *)
Definition no_list : ∀ R, hiveutil.cloudE R → option error :=
  λ _ c, match c with
         | hiveutil.client_List _ _ _ _ => Some (errors_New "secrets is forbidden")
         | _ => None
         end.

(** The options [Complete] arrives at for [remove vpc-e1] in this cloud. *)
Definition remove_vpc_e1 : endpointvpc.endpointVPCRemoveOptions :=
  {| endpointvpc.hiveConfig := hiveConfig;
     endpointvpc.associatedVpcs := hivev1.AssociatedVPCs privateLink;
     endpointvpc.endpointVpcId := "vpc-e1";
     endpointvpc.endpointVpcRegion := "us-east-1";
     endpointvpc.endpointVpcIdx := 0;
     endpointvpc.endpointSubnetIds := ["subnet-1"; "subnet-2"];
     endpointvpc.dynamicClient := k8s;
     endpointvpc.endpointVpcClients := Some east;
     endpointvpc.awsClientsByRegion := {[ "us-east-1" := east; "us-west-2" := west ]} |}.

End examples.

(** ** pkg/alibabaclient: building a client from a Secret *)

Module alibabaclient_secret.

(** [corev1.Secret], its [Data]. *)
Record Secret : Type := { Data : gmap string (list Byte.byte) }.

(** [credentials.AccessKeyCredential] *)
Record AccessKeyCredential : Type := { AccessKeyId : string; AccessKeySecret : string }.

(** [sdk.Config], opaque. *)
Record Config : Type := { config_id : nat }.

(** [client.InitWithOptions] of the embedded [sdk.Client]. *)
Inductive initE : Type → Type :=
| InitWithOptions (client : alibabaclient.Client) (regionID : string) (config : Config)
    (credential : AccessKeyCredential) : initE (option error).

Section secret.
Context {W : Type}.
(** The two keys of the credentials Secret (package constants) and
    [sdk.NewConfig()]. *)
Variable AlibabaCloudAccessKeyIDSecretKey AlibabaCloudAccessKeySecretSecretKey : string.
Variable sdk_NewConfig : Config.

(** The named results [(client, err)]: the client is built before the SDK
    is initialised and is returned whatever the initialisation says. *)
Definition newClientWithOptions (regionID : string) (config : Config)
    (credential : AccessKeyCredential)
  : M initE W (alibabaclient.Client * option error) :=
  let client := {| alibabaclient.RegionID := regionID;
                   alibabaclient.AccessKeyID := "";
                   alibabaclient.AccessKeySecret := "" |} in
  let! err := call (InitWithOptions client regionID config credential) in
  ret (client, err).

(** The [API] result is nil only on the two early returns. *)
Definition NewClientFromSecret (secret : Secret) (regionID : string)
  : M initE W (option alibabaclient.Client * option error) :=
  match Data secret !! AlibabaCloudAccessKeyIDSecretKey with
  | None =>
      ret (None, Some (errors_New
        ("creds secret does not contain " +:+ hiveutil.dquote +:+
         AlibabaCloudAccessKeyIDSecretKey +:+ hiveutil.dquote +:+ " data")))
  | Some accessKeyID =>
  match Data secret !! AlibabaCloudAccessKeySecretSecretKey with
  | None =>
      ret (None, Some (errors_New
        ("creds secret does not contain " +:+ hiveutil.dquote +:+
         AlibabaCloudAccessKeySecretSecretKey +:+ hiveutil.dquote +:+ " data")))
  | Some accessKeySecret =>
      let credentials :=
        {| AccessKeyId := String.string_of_list_byte accessKeyID;
           AccessKeySecret := String.string_of_list_byte accessKeySecret |} in
      let config := sdk_NewConfig in
      let! made := newClientWithOptions regionID config credentials in
      ret (Some made.1, made.2)
  end end.
End secret.
End alibabaclient_secret.

(** ** pkg/clusterresource: the PowerVS builder *)

Module clusterresource.

(** [Builder], the fields the PowerVS builder reads. *)
Record Builder : Type := { Name : string; Namespace : string }.

(** PowerVSBuilder encapsulates cluster artifact generation logic specific
    to PowerVS. *)
Record PowerVSBuilder : Type := { APIKey : string; Region : string; Zone : string }.

(** [corev1.Secret], the fields the builder fills. *)
Record Secret : Type := {
  Kind : string;
  APIVersion : string;
  secret_Name : string;
  secret_Namespace : string;
  Type_ : string;
  StringData : gmap string string
}.

(** [hivev1.Platform]: the PowerVS pointer (the builder leaves every other
    platform nil). *)
Record Platform : Type := { PowerVS : option machinepool.powervs_Platform }.

(** The installer's [MachinePool]; [Platform.PowerVS] points into the heap
    of PowerVS machine-pool platforms. *)
Record installer_MachinePool : Type := {
  mp_Name : string;
  mp_Replicas : option Z;
  mp_PowerVS : option nat
}.

(** The installer's [InstallConfig]: [ControlPlane] is a pointer,
    [Compute] a slice of values. *)
Record InstallConfig : Type := {
  ic_PowerVS : option machinepool.installer_Platform;
  ControlPlane : option installer_MachinePool;
  Compute : list installer_MachinePool
}.

(** The heap of [powervsinstallertypes.MachinePool] objects. *)
Definition Heap : Type := gmap nat machinepool.powervs_MachinePool.

(** [&powervsinstallertypes.MachinePool{}] *)
Definition zero_MachinePool : machinepool.powervs_MachinePool :=
  {| machinepool.MemoryGiB := 0; machinepool.ProcType := "";
     machinepool.Processors := machinepool.FromInt 0; machinepool.SysType := "" |}.

Definition set_PowerVS (mp : installer_MachinePool) (mpp : nat) : installer_MachinePool :=
  {| mp_Name := mp_Name mp; mp_Replicas := mp_Replicas mp; mp_PowerVS := Some mpp |}.

Section builder.
(** [corev1.SchemeGroupVersion.String()], [corev1.SecretTypeOpaque] and
    [constants.PowerVSAPIKeySecretKey]. *)
Variable corev1_SchemeGroupVersion corev1_SecretTypeOpaque PowerVSAPIKeySecretKey : string.

Definition CredsSecretName (p : PowerVSBuilder) (o : Builder) : string :=
  Name o +:+ "-powervs-creds".

Definition GenerateCredentialsSecret (p : PowerVSBuilder) (o : Builder) : Secret :=
  {| Kind := "Secret";
     APIVersion := corev1_SchemeGroupVersion;
     secret_Name := CredsSecretName p o;
     secret_Namespace := Namespace o;
     Type_ := corev1_SecretTypeOpaque;
     (* This API KEY will be passed to the installer as
        constants.PowerVSAPIKeyEnvVar *)
     StringData := {[ PowerVSAPIKeySecretKey := APIKey p ]} |}.

Definition GetCloudPlatform (p : PowerVSBuilder) (o : Builder) : Platform :=
  {| PowerVS := Some
       {| machinepool.CredentialsSecretRef := CredsSecretName p o;
          machinepool.Region := Region p;
          machinepool.Zone := Zone p |} |}.

(** [mp] is updated in place; the result is its new value. *)
Definition addMachinePoolPlatform (p : PowerVSBuilder) (o : Builder)
    (mp : machinepool.MachinePool) : machinepool.MachinePool :=
  {| machinepool.pool_Name := machinepool.pool_Name mp;
     machinepool.pool_Replicas := machinepool.pool_Replicas mp;
     machinepool.pool_Platform_PowerVS := Some
       {| machinepool.MemoryGiB := 32;
          machinepool.ProcType := "";
          machinepool.Processors := machinepool.FromString "0.5";
          machinepool.SysType := "s922" |} |}.

(** [ic] is updated in place and one machine-pool platform is allocated;
    a nil [ControlPlane] or an empty [Compute] panics. *)
Definition addInstallConfigPlatform (p : PowerVSBuilder) (o : Builder)
    (ic : InstallConfig) (heap : Heap) : Outcome (InstallConfig * Heap) :=
  let platform := Some {| machinepool.ip_Region := Region p; machinepool.ip_Zone := Zone p |} in
  (* Used for both control plane and workers. *)
  let mpp := fresh (dom heap) in
  let heap := <[mpp := zero_MachinePool]> heap in
  match ControlPlane ic with
  | None => Panicked
  | Some controlPlane =>
      match Compute ic with
      | [] => Panicked
      | compute0 :: compute =>
          Returned ({| ic_PowerVS := platform;
                       ControlPlane := Some (set_PowerVS controlPlane mpp);
                       Compute := set_PowerVS compute0 mpp :: compute |}, heap)
      end
  end.
End builder.
End clusterresource.

(** ** pkg/controller/machinepool: the constructor of the PowerVS actuator *)

Module powervsactuator.

(** Opaque objects: the credentials Secret, the scheme, the logger handed
    in and the PowerVS client. *)
Record Secret : Type := { secret_id : nat }.
Record Scheme : Type := { scheme_id : nat }.
Record FieldLogger : Type := { logger_id : nat }.
Record powervsclient_API : Type := { api_id : nat }.

Record PowerVSActuator : Type := {
  logger : FieldLogger;
  powervsClient : powervsclient_API
}.

Inductive clientE : Type → Type :=
| powervsclient_NewClientFromSecret (powervsCreds : Secret)
    : clientE (powervsclient_API * option error).

Section constructor.
Context {W : Type}.

(** NewPowerVSActuator is the constructor for building an PowerVSActuator;
    the warning goes to the logger handed in. *)
Definition NewPowerVSActuator (powervsCreds : Secret) (scheme : Scheme)
    (logger : FieldLogger) : M clientE W (option PowerVSActuator * option error) :=
  let! made := call (powervsclient_NewClientFromSecret powervsCreds) in
  match made with
  | (_, Some err) =>
      log WarnLevel (Some err)
        "failed to create PowerVS client with creds in clusterDeployment's secret" ;;
      ret (None, Some err)
  | (powervsClient, None) =>
      let actuator := {| logger := logger; powervsClient := powervsClient |} in
      ret (Some actuator, None)
  end.
End constructor.
End powervsactuator.

(** ** What the further properties speak of *)

(** The destroyers a PowerVS deprovision run has run, and the destroyers it
    has had made (with the logger and the metadata they were made from). *)
Definition destroyer_runs (t : list (Entry deprovision.cliE)) : list deprovision.Destroyer :=
  omap (λ e, match e with
             | Called c _ =>
                 match c with deprovision.destroyer_Run d => Some d | _ => None end
             | Logged _ _ _ => None
             end) t.

Definition destroyers_made (t : list (Entry deprovision.cliE))
  : list (deprovision.Logger * deprovision.ClusterMetadata * deprovision.Destroyer) :=
  omap (λ e, match e with
             | Called c r =>
                 match c in deprovision.cliE R return R → option _ with
                 | deprovision.powervs_New logger metadata =>
                     λ r, match r.2 with
                          | None => Some (logger, metadata, r.1)
                          | Some _ => None
                          end
                 | _ => λ _, None
                 end r
             | Logged _ _ _ => None
             end) t.

(** The first of the required flags that is empty, in the order in which
    the command looks at them. *)
Definition first_missing_flag (o : deprovision.powerVSDeprovisionOptions) : option string :=
  if decide (deprovision.region o = "") then Some "region"
  else if decide (deprovision.zone o = "") then Some "zone"
  else if decide (deprovision.baseDomain o = "") then Some "base-domain"
  else if decide (deprovision.clusterName o = "") then Some "cluster-name"
  else None.

(** The four required flags of the PowerVS deprovision command. *)
Definition flags_given (o : deprovision.powerVSDeprovisionOptions) : Prop :=
  deprovision.region o ≠ "" ∧ deprovision.zone o ≠ ""
  ∧ deprovision.baseDomain o ≠ "" ∧ deprovision.clusterName o ≠ "".

(** The [Delete] call for one Secret, as the disable command issues it. *)
Definition secret_deletions (c : hiveutil.client_Client) (secrets : list hiveutil.Secret)
    (responses : list (option error)) : list (Entry hiveutil.cloudE) :=
  zip_with (λ secret failed, Called (hiveutil.client_Delete c secret) failed) secrets responses.

(** The regions of the associated VPCs. *)
Definition associated_regions (vpcs : list hivev1.AWSAssociatedVPC) : gset string :=
  list_to_set ((λ vpc, hivev1.Region (hivev1.AWSPrivateLinkVPC_of vpc)) <$> vpcs).

(** The calls through AWS (anything but the Kubernetes client). *)
Definition is_aws_call {R} (c : hiveutil.cloudE R) : bool :=
  match c with
  | hiveutil.hiveutils_GetClient | hiveutil.client_Get _ _ | hiveutil.client_List _ _ _ _
  | hiveutil.client_Delete _ _ | hiveutil.client_Update _ _ => false
  | _ => true
  end.

Definition entry_is_aws_call (e : Entry hiveutil.cloudE) : bool :=
  match e with Called c _ => is_aws_call c | Logged _ _ _ => false end.

Definition aws_calls (t : list (Entry hiveutil.cloudE)) : list (Entry hiveutil.cloudE) :=
  filter (λ e, entry_is_aws_call e = true) t.

(** ** Further example worlds *)

Module more_examples.

(** The request the SDK builds for the ECS product. *)
Definition ecs_request : alibabaclient.DescribeAvailableResourceRequest :=
  {| alibabaclient.Product := "ecs";
     alibabaclient.LocationServiceCode := "ecs";
     alibabaclient.LocationEndpointType := "openAPI";
     alibabaclient.req_RegionId := "";
     alibabaclient.DestinationResource := "";
     alibabaclient.InstanceType := "";
     alibabaclient.Domain := "" |}.

Definition zone (id status category : string) : alibabaclient.AvailableZone :=
  {| alibabaclient.RegionId := "cn-hangzhou"; alibabaclient.ZoneId := id;
     alibabaclient.Status := status; alibabaclient.StatusCategory := category |}.

(** An SDK whose resolver is down ([w = false]) or up, and which knows
    three zones. *)
Definition sdk : Handler alibabaclient.sdkE bool :=
  λ R c, match c in alibabaclient.sdkE R return bool → R * bool with
         | alibabaclient.endpoints_Resolve param =>
             λ w, if w then (("ecs." +:+ alibabaclient.rp_RegionId param +:+ ".example.com",
                              None), w)
                  else (("", Some (errors_New "resolve failed")), w)
         | alibabaclient.DoAction _ response =>
             λ w, (({| alibabaclient.RequestId := "req-1";
                       alibabaclient.AvailableZones :=
                         [ zone "cn-hangzhou-a" "Available" "WithStock";
                           zone "cn-hangzhou-b" "SoldOut" "WithoutStock";
                           zone "cn-hangzhou-c" "Available" "WithStock" ] |}, None), w)
         end.

Definition client_in (region : string) : alibabaclient.Client :=
  {| alibabaclient.RegionID := region; alibabaclient.AccessKeyID := "";
     alibabaclient.AccessKeySecret := "" |}.

(** A credentials Secret without the access key's secret, and an SDK
    that initialises every client. *)
Definition secret_with_id_only : alibabaclient_secret.Secret :=
  {| alibabaclient_secret.Data :=
       {[ "alibabacloud_access_key_id" := String.list_byte_of_string "LTAI4" ]} |}.

Definition empty_secret : alibabaclient_secret.Secret :=
  {| alibabaclient_secret.Data := ∅ |}.

Definition init : Handler alibabaclient_secret.initE unit :=
  λ R c, match c in alibabaclient_secret.initE R return unit → R * unit with
         | alibabaclient_secret.InitWithOptions _ _ _ _ => λ w, (None, w)
         end.

(** A builder and the cluster it builds. *)
Definition powervs_builder : clusterresource.PowerVSBuilder :=
  {| clusterresource.APIKey := "api-key"; clusterresource.Region := "dal";
     clusterresource.Zone := "dal10" |}.

Definition builder : clusterresource.Builder :=
  {| clusterresource.Name := "mycluster"; clusterresource.Namespace := "hive-clusters" |}.

Definition built_clusterDeployment : machinepool.ClusterDeployment :=
  {| machinepool.cd_ClusterMetadata := Some {| machinepool.InfraID := "mycluster-x7k2p" |};
     machinepool.cd_Platform_PowerVS :=
       clusterresource.PowerVS (clusterresource.GetCloudPlatform powervs_builder builder) |}.

Definition bare_pool : machinepool.MachinePool :=
  {| machinepool.pool_Name := "worker"; machinepool.pool_Replicas := Some 3%Z;
     machinepool.pool_Platform_PowerVS := None |}.

(** The options for [remove vpc-e1] when only the region of the endpoint
    VPC has an AWS client. *)
Definition remove_vpc_e1_east_only : endpointvpc.endpointVPCRemoveOptions :=
  {| endpointvpc.hiveConfig := examples.hiveConfig;
     endpointvpc.associatedVpcs := hivev1.AssociatedVPCs examples.privateLink;
     endpointvpc.endpointVpcId := "vpc-e1";
     endpointvpc.endpointVpcRegion := "us-east-1";
     endpointvpc.endpointVpcIdx := 0;
     endpointvpc.endpointSubnetIds := ["subnet-1"; "subnet-2"];
     endpointvpc.dynamicClient := examples.k8s;
     endpointvpc.endpointVpcClients := Some examples.east;
     endpointvpc.awsClientsByRegion := {[ "us-east-1" := examples.east ]} |}.

End more_examples.
(** * Properties *)

(** ** Running scripts *)

Ltac ask_world :=
  match goal with
  | |- context [?h ?R ?c ?w] =>
      lazymatch type of h with
      | Handler _ _ => let r := fresh "r" in let w' := fresh "w" in
                       destruct (h R c w) as [r w'] eqn:?
      end
  end.

Section running.
Context {E : Type → Type} {W : Type}.
Implicit Types (h : Handler E W) (w : W).

Lemma outcome_bind {A B} (m : M E W A) (k : A → M E W B) h w :
  outcome (bind m k h w)
  = match outcome (m h w) with
    | Returned a => outcome (k a h (world (m h w)))
    | Exited c => Exited c
    | Panicked => Panicked
    end.
Proof.
  unfold bind, outcome, world. destruct (m h w) as [[[a|c|] w1] t1]; simpl; try done.
  by destruct (k a h w1) as [[o w2] t2].
Qed.

Lemma world_bind {A B} (m : M E W A) (k : A → M E W B) h w :
  world (bind m k h w)
  = match outcome (m h w) with
    | Returned a => world (k a h (world (m h w)))
    | _ => world (m h w)
    end.
Proof.
  unfold bind, outcome, world. destruct (m h w) as [[[a|c|] w1] t1]; simpl; try done.
  by destruct (k a h w1) as [[o w2] t2].
Qed.

Lemma trace_bind {A B} (m : M E W A) (k : A → M E W B) h w :
  trace (bind m k h w)
  = trace (m h w) ++ match outcome (m h w) with
                     | Returned a => trace (k a h (world (m h w)))
                     | _ => []
                     end.
Proof.
  unfold bind, outcome, world, trace.
  destruct (m h w) as [[[a|c|] w1] t1]; simpl; rewrite ?app_nil_r; try done.
  by destruct (k a h w1) as [[o w2] t2].
Qed.

Lemma returned_bind {A B} (m : M E W A) (k : A → M E W B) h w :
  returned (bind m k h w)
  = match returned (m h w) with
    | Some a => returned (k a h (world (m h w)))
    | None => None
    end.
Proof. unfold returned. rewrite outcome_bind. by destruct (outcome (m h w)). Qed.

Lemma outcome_call {R} (c : E R) h w : outcome (call c h w) = Returned (h R c w).1.
Proof. unfold call, outcome. by destruct (h R c w). Qed.

Lemma world_call {R} (c : E R) h w : world (call c h w) = (h R c w).2.
Proof. unfold call, world. by destruct (h R c w). Qed.

Lemma trace_call {R} (c : E R) h w : trace (call c h w) = [Called c (h R c w).1].
Proof. unfold call, trace. by destruct (h R c w). Qed.

Lemma outcome_ret {A} (a : A) h w : outcome (ret a h w) = Returned a.
Proof. done. Qed.

Lemma world_ret {A} (a : A) h w : world (ret a h w) = w.
Proof. done. Qed.

Lemma trace_ret {A} (a : A) h w : trace (ret a h w) = [].
Proof. done. Qed.

Lemma outcome_log lvl err msg h w : outcome (log lvl err msg h w) = Returned tt.
Proof. done. Qed.

Lemma world_log lvl err msg h w : world (log lvl err msg h w) = w.
Proof. done. Qed.

Lemma trace_log lvl err msg h w : trace (log lvl err msg h w) = [Logged lvl err msg].
Proof. done. Qed.

Lemma outcome_fatal {A} err msg h w : outcome (fatal (A:=A) err msg h w) = Exited 1.
Proof. done. Qed.

Lemma trace_fatal {A} err msg h w :
  trace (fatal (A:=A) err msg h w) = [Logged FatalLevel err msg].
Proof. done. Qed.

Lemma outcome_panic {A} h w : outcome (panic (A:=A) h w) = Panicked.
Proof. done. Qed.

Lemma trace_panic {A} h w : trace (panic (A:=A) h w) = [].
Proof. done. Qed.

Lemma returned_call {R} (c : E R) h w : returned (call c h w) = Some (h R c w).1.
Proof. unfold returned. by rewrite outcome_call. Qed.

Lemma returned_ret {A} (a : A) h w : returned (ret a h w) = Some a.
Proof. done. Qed.

Lemma returned_log lvl err msg h w : returned (log lvl err msg h w) = Some tt.
Proof. done. Qed.

Lemma returned_fatal {A} err msg h w : returned (fatal (A:=A) err msg h w) = None.
Proof. done. Qed.

Lemma returned_panic {A} h w : returned (panic (A:=A) h w) = None.
Proof. done. Qed.

Lemma calls_called {R} (c : E R) (r : R) (t : list (Entry E)) :
  calls (Called c r :: t) = Called c r :: calls t.
Proof. done. Qed.

Lemma calls_logged lvl err msg (t : list (Entry E)) :
  calls (Logged lvl err msg :: t) = calls t.
Proof. done. Qed.

Lemma calls_nil : calls (E:=E) [] = [].
Proof. done. Qed.

Lemma calls_app (t1 t2 : list (Entry E)) : calls (t1 ++ t2) = calls t1 ++ calls t2.
Proof. apply filter_app. Qed.

Lemma calls_logs (t : list (Entry E)) : Forall (λ e, is_log e = true) t → calls t = [].
Proof.
  induction 1 as [|e t He _ IH]; [done|].
  unfold calls in *. rewrite filter_cons, decide_False by congruence. done.
Qed.
End running.

(** Rewriting a run into its outcome, its world and its trace. *)
Ltac run :=
  repeat (rewrite ?outcome_bind, ?world_bind, ?trace_bind, ?returned_bind,
            ?outcome_call, ?world_call, ?trace_call,
            ?outcome_ret, ?world_ret, ?trace_ret,
            ?outcome_log, ?world_log, ?trace_log,
            ?outcome_fatal, ?trace_fatal, ?outcome_panic, ?trace_panic,
            ?returned_call, ?returned_ret, ?returned_log, ?returned_fatal,
            ?returned_panic; simpl).

Ltac only_calls :=
  repeat (rewrite ?calls_app, ?calls_called, ?calls_logged, ?calls_nil; simpl).

(** ** pkg/alibabaclient *)

Lemma collect_zones_elems (zones : slice string) (l : list alibabaclient.AvailableZone) :
  slice_elems (alibabaclient.collect_zones zones l)
  = slice_elems zones ++ available_zone_ids {| alibabaclient.RequestId := ""; alibabaclient.AvailableZones := l |}.
Proof.
  unfold available_zone_ids; simpl.
  revert zones; induction l as [|zone l IH]; intros zones; simpl.
  - by rewrite app_nil_r.
  - rewrite filter_cons.
    destruct (decide (alibabaclient.Status zone = "Available")) as [Hs|Hs];
      destruct (decide (alibabaclient.StatusCategory zone = "WithStock")) as [Hc|Hc];
      rewrite ?(bool_decide_eq_true_2 _ Hs), ?(bool_decide_eq_false_2 _ Hs),
              ?(bool_decide_eq_true_2 _ Hc), ?(bool_decide_eq_false_2 _ Hc); simpl.
    + rewrite decide_True by done. rewrite IH. simpl. by rewrite <- app_assoc.
    + rewrite decide_False by tauto. apply IH.
    + rewrite decide_False by tauto. apply IH.
    + rewrite decide_False by tauto. apply IH.
Qed.

Lemma DescribeAvailableZoneByInstanceType_returns {W} lower req client instanceType
    (h : Handler alibabaclient.sdkE W) (w : W) :
  ∃ described w1 t1,
    alibabaclient.DescribeAvailableZoneByInstanceType lower req client instanceType h w
    = (Returned described, w1, t1).
Proof.
  unfold alibabaclient.DescribeAvailableZoneByInstanceType,
    alibabaclient.doActionWithSetDomain, alibabaclient.getEndpoint, bind, call, ret.
  destruct (alibabaclient.additionEndpoint _ _) as [ep [|]]; simpl.
  - ask_world. eauto.
  - ask_world. destruct r as [ep' [e|]]; simpl; ask_world; eauto.
Qed.

(** C9. [GetAvailableZonesByInstanceType] makes exactly the describe call;
    when that call comes back with an error it returns nil and that error,
    and otherwise it returns, with a nil error, the zone ids of the zones of
    the response whose Status is "Available" and whose StatusCategory is
    "WithStock", in response order. *)
Theorem GetAvailableZonesByInstanceType_available_with_stock {W}
    (strings_ToLower : string → string)
    (CreateRequest : alibabaclient.DescribeAvailableResourceRequest)
    (client : alibabaclient.Client) (instanceType : string)
    (h : Handler alibabaclient.sdkE W) (w : W) :
  ∃ response err w1 t1 zones,
    alibabaclient.DescribeAvailableZoneByInstanceType
      strings_ToLower CreateRequest client instanceType h w
    = (Returned (response, err), w1, t1)
    ∧ alibabaclient.GetAvailableZonesByInstanceType
        strings_ToLower CreateRequest client instanceType h w
      = (Returned (zones, err), w1, t1)
    ∧ match err with
      | Some _ => zones = None
      | None => slice_elems zones = available_zone_ids response
      end.
Proof.
  destruct (DescribeAvailableZoneByInstanceType_returns
              strings_ToLower CreateRequest client instanceType h w)
    as ([response err] & w1 & t1 & Hd).
  unfold alibabaclient.GetAvailableZonesByInstanceType, bind. rewrite Hd.
  destruct err as [e|]; simpl.
  - exists response, (Some e), w1, t1, None. by rewrite app_nil_r.
  - exists response, None, w1, t1,
      (alibabaclient.collect_zones None (alibabaclient.AvailableZones response)).
    rewrite app_nil_r. split_and!; try done.
    rewrite collect_zones_elems. by destruct response.
Qed.

Example GetAvailableZonesByInstanceType_example :
  alibabaclient.collect_zones None
    [ {| alibabaclient.RegionId := "cn-hangzhou"; alibabaclient.ZoneId := "cn-hangzhou-a";
         alibabaclient.Status := "Available"; alibabaclient.StatusCategory := "WithStock" |};
      {| alibabaclient.RegionId := "cn-hangzhou"; alibabaclient.ZoneId := "cn-hangzhou-b";
         alibabaclient.Status := "SoldOut"; alibabaclient.StatusCategory := "WithoutStock" |};
      {| alibabaclient.RegionId := "cn-hangzhou"; alibabaclient.ZoneId := "cn-hangzhou-c";
         alibabaclient.Status := "Available"; alibabaclient.StatusCategory := "ClosedWithStock" |};
      {| alibabaclient.RegionId := "cn-hangzhou"; alibabaclient.ZoneId := "cn-hangzhou-d";
         alibabaclient.Status := "Available"; alibabaclient.StatusCategory := "WithStock" |} ]
  = Some ["cn-hangzhou-a"; "cn-hangzhou-d"].
Proof. reflexivity. Qed.

(** ** pkg/controller/machinepool *)

(** C10. When the cluster deployment has no cluster metadata, or is not
    for PowerVS, or the machine pool is not for PowerVS,
    [GenerateMachineSets] returns (nil, false, a non-nil error): it does
    not panic, and it calls nothing outside (the trace is empty and the
    world is untouched). *)
Theorem GenerateMachineSets_nil_guards {W}
    (baseMachinePool : machinepool.MachinePool → machinepool.installer_MachinePool)
    (workerRole workerUserDataName : string)
    (cd : machinepool.ClusterDeployment) (pool : machinepool.MachinePool)
    (h : Handler machinepool.installerE W) (w : W) :
  machinepool.cd_ClusterMetadata cd = None
  ∨ machinepool.cd_Platform_PowerVS cd = None
  ∨ machinepool.pool_Platform_PowerVS pool = None →
  ∃ err,
    machinepool.GenerateMachineSets baseMachinePool workerRole workerUserDataName cd pool h w
    = (Returned (None, false, Some err), w, []).
Proof.
  unfold machinepool.GenerateMachineSets, ret.
  intros [H|[H|H]]; rewrite ?H;
    repeat (match goal with |- context [match ?x with Some _ => _ | None => _ end] =>
              destruct x end); eauto; done.
Qed.

(** The guard on the cluster metadata, on the deployment of the unit test
    stripped of its metadata. *)
Lemma GenerateMachineSets_nil_guards_witness :
  ∃ err,
    machinepool.GenerateMachineSets examples.baseMachinePool "worker" "worker-user-data"
      examples.clusterDeployment_without_metadata examples.testPowerVSPool
      examples.installer tt
    = (Returned (None, false, Some err), tt, []).
Proof.
  apply GenerateMachineSets_nil_guards. left. reflexivity.
Defined.

Example GenerateMachineSets_example :
  machinepool.GenerateMachineSets examples.baseMachinePool "worker" "worker-user-data"
    examples.testPowerVSClusterDeployment examples.testPowerVSPool examples.installer tt
  = (Returned (Some [ {| machinepool.ms_Name := "foo-12345-worker-1";
                         machinepool.ms_Replicas := Some 3%Z |} ], true, None), tt,
     [ Called (machinepool.installpowervs_MachineSets "foo-12345"
         {| machinepool.ic_Platform_PowerVS :=
              Some {| machinepool.ip_Region := "test-region";
                      machinepool.ip_Zone := "test-zone" |} |}
         {| machinepool.imp_Name := "worker"; machinepool.imp_Replicas := Some 3%Z;
            machinepool.imp_Platform_PowerVS :=
              machinepool.pool_Platform_PowerVS examples.testPowerVSPool |}
         "worker" "worker-user-data")
         (Some [ {| machinepool.ms_Name := "foo-12345-worker-1";
                    machinepool.ms_Replicas := Some 3%Z |} ], None) ]).
Proof. reflexivity. Qed.

(** ** pkg/manageddns *)

(** C7. [ReadManagedDomainsFile] asks for the environment variable first.
    When its value is empty (unset or set to nothing) the result is
    (nil, nil) and no file is read.  Otherwise the file of that name is read:
    when reading fails the error of the read is returned, when decoding the
    bytes fails the error of the decoder is returned, and otherwise the
    decoded array is returned with a nil error. *)
Theorem ReadManagedDomainsFile_cases {W} (ManageDNSConfig : Type)
    (ManagedDomainsFileEnvVar : string)
    (json_Unmarshal : list Byte.byte → slice ManageDNSConfig
                      → slice ManageDNSConfig * option error)
    (h : Handler manageddns.osE W) (w w1 w2 : W)
    (managedDomainsFile : string) (fileBytes : list Byte.byte) (readErr : option error) :
  h _ (manageddns.os_Getenv ManagedDomainsFileEnvVar) w = (managedDomainsFile, w1) →
  h _ (manageddns.os_ReadFile managedDomainsFile) w1 = ((fileBytes, readErr), w2) →
  let r := manageddns.ReadManagedDomainsFile ManageDNSConfig ManagedDomainsFileEnvVar
             json_Unmarshal h w in
  (managedDomainsFile = "" →
     r = (Returned (None, None), w1,
          [Called (manageddns.os_Getenv ManagedDomainsFileEnvVar) managedDomainsFile]))
  ∧ (managedDomainsFile ≠ "" →
       trace r = [ Called (manageddns.os_Getenv ManagedDomainsFileEnvVar) managedDomainsFile;
                   Called (manageddns.os_ReadFile managedDomainsFile) (fileBytes, readErr) ]
       ∧ ∃ domains err, outcome r = Returned (domains, err)
         ∧ match readErr with
           | Some e => err = Some e
           | None => (domains, err) = json_Unmarshal fileBytes (Some [])
           end).
Proof.
  intros Henv Hread r. subst r.
  unfold manageddns.ReadManagedDomainsFile, bind, call, ret. rewrite Henv.
  split.
  - intros ->. reflexivity.
  - intros Hne.
    rewrite bool_decide_eq_false_2; last first.
    { destruct managedDomainsFile; [done | simpl; lia]. }
    rewrite Hread. simpl.
    destruct readErr as [e|]; simpl.
    + split; [done|]. by eexists _, _.
    + destruct (json_Unmarshal fileBytes (Some [])) as [domains [e|]] eqn:Hj; simpl;
        (split; [done|]); by eexists _, _.
Qed.

(** The three cases on a small operating system: the variable is empty;
    the file holds the empty array; the file cannot be read. *)
Lemma ReadManagedDomainsFile_cases_witness :
  manageddns.ReadManagedDomainsFile (list string) "MANAGED_DOMAINS_FILE"
    examples.unmarshal_domains examples.os ("", true)
  = (Returned (None, None), ("", true), [Called (manageddns.os_Getenv "MANAGED_DOMAINS_FILE") ""])
  ∧ outcome (manageddns.ReadManagedDomainsFile (list string) "MANAGED_DOMAINS_FILE"
               examples.unmarshal_domains examples.os ("/data/domains", true))
    = Returned (Some [], None)
  ∧ ∃ domains e,
      outcome (manageddns.ReadManagedDomainsFile (list string) "MANAGED_DOMAINS_FILE"
                 examples.unmarshal_domains examples.os ("/data/domains", false))
      = Returned (domains, Some e).
Proof.
  split_and!.
  - eapply (ReadManagedDomainsFile_cases (list string) "MANAGED_DOMAINS_FILE"
              examples.unmarshal_domains examples.os ("", true));
      reflexivity.
  - edestruct (ReadManagedDomainsFile_cases (list string) "MANAGED_DOMAINS_FILE"
                examples.unmarshal_domains examples.os ("/data/domains", true))
      as [_ H]; [reflexivity | reflexivity |].
    destruct (H ltac:(done)) as (_ & domains & err & -> & Heq).
    simpl in Heq. by inversion Heq.
  - edestruct (ReadManagedDomainsFile_cases (list string) "MANAGED_DOMAINS_FILE"
                examples.unmarshal_domains examples.os ("/data/domains", false))
      as [_ H]; [reflexivity | reflexivity |].
    destruct (H ltac:(done)) as (_ & domains & err & -> & ->).
    by eexists _, _.
Defined.

(** ** Required flags *)

Lemma deprovision_Validate_returns {W} (o : deprovision.powerVSDeprovisionOptions)
    (h : Handler deprovision.cliE W) (w : W) :
  ∃ failed w1 t1,
    deprovision.Validate o h w = (Returned failed, w1, t1)
    ∧ (is_Some failed ↔
         deprovision.region o = "" ∨ deprovision.zone o = ""
         ∨ deprovision.baseDomain o = "" ∨ deprovision.clusterName o = "").
Proof.
  unfold deprovision.Validate, bind, call, ret.
  repeat case_bool_decide; try ask_world; simpl;
    eexists _, _, _; (split; [reflexivity|]);
    (split; [intros Hsome | intros Hempty]); try (by eauto); try tauto.
Qed.

(** C8 (as amended). The four flags region, zone, base-domain and
    cluster-name are required by the PowerVS deprovision command
    ([powervs]): its validation returns an error exactly when one of them
    is empty, and the command then exits fatally before running.  The
    [disable] and [remove] commands of awsprivatelink define no flags, and
    their validation succeeds on every invocation. *)
Theorem required_flags_of_powervs_deprovision :
  (∀ W (o : deprovision.powerVSDeprovisionOptions) (h : Handler deprovision.cliE W) (w : W),
     ∃ failed w1 t1,
       deprovision.Validate o h w = (Returned failed, w1, t1)
       ∧ (is_Some failed ↔
            deprovision.region o = "" ∨ deprovision.zone o = ""
            ∨ deprovision.baseDomain o = "" ∨ deprovision.clusterName o = ""))
  ∧ (∀ W (opt o : deprovision.powerVSDeprovisionOptions) (args : list string)
       (h : Handler deprovision.cliE W) (w w1 : W) t1,
       deprovision.Complete opt args h w = (Returned (o, None), w1, t1) →
       deprovision.region o = "" ∨ deprovision.zone o = ""
       ∨ deprovision.baseDomain o = "" ∨ deprovision.clusterName o = "" →
       outcome (deprovision.NewDeprovisionPowerVSCommand_Run opt args h w) = Exited 1
       ∧ ∀ R (c : deprovision.cliE R) (r : R),
           Called c r ∈ trace (deprovision.NewDeprovisionPowerVSCommand_Run opt args h w) →
           Called c r ∈ t1 ∨ ∃ resp, Called c r = Called deprovision.cmd_Usage resp)
  ∧ (∀ W (o : awsprivatelink.disableOptions) (args : list string)
       (h : Handler hiveutil.cloudE W) (w : W),
       awsprivatelink.Validate o args h w = (Returned None, w, []))
  ∧ (∀ W (o : endpointvpc.endpointVPCRemoveOptions) (args : list string)
       (h : Handler hiveutil.cloudE W) (w : W),
       endpointvpc.Validate o args h w = (Returned None, w, [])).
Proof.
  split_and!; try done.
  - intros. apply deprovision_Validate_returns.
  - intros W opt o args h w w1 t1 HC Hempty.
    unfold deprovision.NewDeprovisionPowerVSCommand_Run, bind. rewrite HC.
    destruct (deprovision_Validate_returns o h w1) as (failed & w2 & t2 & HV & Hiff).
    rewrite HV. destruct (proj2 Hiff Hempty) as [err Herr]. subst failed.
    simpl. split; [done|].
    intros R c r Hin. unfold trace in Hin. simpl in Hin.
    rewrite !elem_of_app in Hin. destruct Hin as [Hin|[Hin|Hin]]; [by left| |].
    + right. clear Hiff HC. revert HV Hin. unfold deprovision.Validate, bind, call, ret.
      repeat case_bool_decide; try ask_world; simpl; intros Heq Hin; simplify_eq;
        apply list_elem_of_singleton in Hin; eauto.
    + apply list_elem_of_singleton in Hin. done.
Qed.

Example powervs_deprovision_without_zone :
  deprovision.NewDeprovisionPowerVSCommand_Run examples.flags_without_zone ["infra-1"]
    examples.terminal tt
  = (Exited 1, tt,
     [ Called deprovision.utils_GetClient ({| deprovision.client_id := 0 |}, None);
       Called (deprovision.powervsutils_ConfigureCreds {| deprovision.client_id := 0 |}) tt;
       Called deprovision.cmd_Usage None;
       Logged FatalLevel (Some (errors_New "no --zone provided, cannot proceed"))
         "validation failed" ]).
Proof. reflexivity. Qed.

(** Against C8 as stated: invoked without any flag, [disable] and [remove]
    pass validation, and [disable] runs to its end. *)
Lemma disable_and_remove_validate_without_flags :
  awsprivatelink.Validate {| awsprivatelink.dynamicClient := examples.k8s |} []
    (examples.cloud examples.healthy) tt
  = (Returned None, tt, [])
  ∧ endpointvpc.Validate examples.remove_vpc_e1 ["vpc-e1"] (examples.cloud examples.healthy) tt
    = (Returned None, tt, [])
  ∧ outcome (awsprivatelink.NewDisableAWSPrivateLinkCommand_Run hivev1.TargetNamespace
               "aws-hub-creds" "hive.openshift.io/awsprivatelink-hub-acct-creds" []
               (examples.cloud_with examples.hiveConfig_without_associated_vpcs
                  examples.healthy) tt)
    = Returned tt.
Proof. vm_compute. done. Qed.

Example powervs_deprovision_with_all_flags :
  outcome (deprovision.NewDeprovisionPowerVSCommand_Run examples.flags_all_given ["infra-1"]
             examples.terminal tt) = Returned tt.
Proof. reflexivity. Qed.

Import hivev1 hiveutil.

(** ** The remove command: the options after [Complete] *)

Example Complete_remove_vpc_e1 :
  outcome (endpointvpc.Complete examples.FindVpcInInventory ["vpc-e1"]
             (examples.cloud examples.healthy) tt)
  = Returned (examples.remove_vpc_e1, None).
Proof. vm_compute. reflexivity. Qed.

(** ** Removing the endpoint VPC from HiveConfig *)

Lemma index_Some {A} (s : list A) (i : Z) (x : A) :
  hiveutil.index s i = Some x ↔ (0 ≤ i)%Z ∧ s !! Z.to_nat i = Some x.
Proof.
  unfold hiveutil.index. destruct (decide (0 ≤ i)%Z); split; try tauto; done.
Qed.

(** Overwriting position [i] with the last element and dropping the last
    position removes the element at [i] and nothing else. *)
Lemma swap_remove_perm {A} (s : list A) (i : nat) (x y : A) :
  s !! i = Some x → s !! (length s - 1) = Some y →
  s ≡ₚ x :: take (length s - 1) (<[i := y]> s).
Proof.
  intros Hi Hlast.
  assert (Hlt := lookup_lt_Some _ _ _ Hi).
  destruct (decide (i = length s - 1)) as [->|Hne].
  - rewrite take_insert_ge by lia.
    rewrite <- (take_drop (length s - 1) s) at 1.
    rewrite Permutation_app_comm.
    erewrite drop_S by exact Hi. rewrite drop_ge by lia. done.
  - destruct (list_elem_of_split_length s i x Hi) as (l1 & l2 & -> & ->).
    revert Hlast Hne Hlt. rewrite length_app. simpl.
    destruct l2 as [|z l2 _] using rev_ind; [simpl; lia|].
    rewrite length_app. simpl. intros Hlast _ _.
    replace (length l1 + S (length l2 + 1) - 1) with (length l1 + S (length l2)) in * by lia.
    rewrite lookup_app_r in Hlast by lia.
    replace (length l1 + S (length l2) - length l1) with (S (length l2)) in Hlast by lia.
    simpl in Hlast. rewrite lookup_app_r in Hlast by lia.
    replace (length l2 - length l2) with 0 in Hlast by lia. simpl in Hlast.
    injection Hlast as ->.
    replace (length l1) with (length l1 + 0) at 2 by lia.
    rewrite insert_app_r. simpl.
    rewrite take_app_ge by lia.
    replace (length l1 + S (length l2) - length l1) with (S (length l2)) by lia.
    simpl. rewrite take_app_length.
    etrans; [symmetry; apply Permutation_middle|]. constructor.
    apply Permutation_app_head. symmetry. apply Permutation_cons_append.
Qed.

Lemma swap_remove_lookup {A} (s : list A) (i j : nat) (y : A) :
  j < length s - 1 →
  take (length s - 1) (<[i := y]> s) !! j = if decide (j = i) then Some y else s !! j.
Proof.
  intros Hj. rewrite lookup_take_lt by lia.
  case_decide as Hij.
  - subst. apply list_lookup_insert_eq. lia.
  - by apply list_lookup_insert_ne.
Qed.

(** C6. When the inventory of the configuration holds, at the index found
    by [Complete], an entry with the requested VPC id,
    [removeEndpointVpcFromHiveConfig] writes back (one [Update] call, right
    after its log line) the configuration whose inventory is the old one
    without exactly that entry: it is one shorter, the old inventory is a
    rearrangement of the removed entry and the new inventory (so every other
    entry is still there, and the removed entry is gone when the inventory
    has no duplicates), the former last entry stands at the removed entry's
    index and every other position is unchanged.  When the write succeeds
    the function returns with the options holding that configuration. *)
Theorem removeEndpointVpcFromHiveConfig_removes_entry {W}
    (o : endpointvpc.endpointVPCRemoveOptions)
    (privateLink : hivev1.AWSPrivateLinkConfig)
    (endpointVpc : hivev1.AWSPrivateLinkInventory)
    (h : Handler hiveutil.cloudE W) (w : W) :
  hivev1.AWSPrivateLink (endpointvpc.hiveConfig o) = Some privateLink →
  hiveutil.index (hivev1.EndpointVPCInventory privateLink) (endpointvpc.endpointVpcIdx o)
  = Some endpointVpc →
  hivev1.VPCID (hivev1.inv_AWSPrivateLinkVPC endpointVpc) = endpointvpc.endpointVpcId o →
  let inventory := hivev1.EndpointVPCInventory privateLink in
  let idx := Z.to_nat (endpointvpc.endpointVpcIdx o) in
  let r := endpointvpc.removeEndpointVpcFromHiveConfig o h w in
  ∃ inventory' written rest,
    let hiveConfig' :=
      {| hivev1.TargetNamespace := hivev1.TargetNamespace (endpointvpc.hiveConfig o);
         hivev1.AWSPrivateLink := Some
           {| hivev1.CredentialsSecretRef := hivev1.CredentialsSecretRef privateLink;
              hivev1.EndpointVPCInventory := inventory';
              hivev1.AssociatedVPCs := hivev1.AssociatedVPCs privateLink;
              hivev1.DNSRecordType := hivev1.DNSRecordType privateLink |} |} in
    trace r
    = [ Logged InfoLevel None
          ("Removing endpoint VPC " +:+ endpointvpc.endpointVpcId o +:+ " from HiveConfig");
        Called (hiveutil.client_Update (endpointvpc.dynamicClient o) hiveConfig') written ]
      ++ rest
    ∧ Forall (λ e, is_log e = true) rest
    ∧ (written = None →
         ∃ o', outcome r = Returned o' ∧ endpointvpc.hiveConfig o' = hiveConfig')
    ∧ length inventory = S (length inventory')
    ∧ inventory ≡ₚ endpointVpc :: inventory'
    ∧ (NoDup inventory → endpointVpc ∉ inventory')
    ∧ (∀ j, j < length inventory' →
         inventory' !! j = if decide (j = idx) then last inventory else inventory !! j).
Proof.
  intros Hpl Hidx _ inventory idx r.
  apply index_Some in Hidx as [Hnonneg Hidx]. fold idx in Hidx. fold inventory in Hidx.
  assert (Hlt := lookup_lt_Some _ _ _ Hidx).
  destruct (lookup_lt_is_Some_2 inventory (length inventory - 1)) as [lastVpc Hlast]; [lia|].
  assert (Hperm := swap_remove_perm inventory idx endpointVpc lastVpc Hidx Hlast).
  subst r. unfold endpointvpc.removeEndpointVpcFromHiveConfig, bind, call, log, fatal, ret.
  rewrite Hpl. fold inventory.
  assert (hiveutil.index inventory (Z.of_nat (length inventory) - 1) = Some lastVpc) as ->.
  { apply index_Some. split; [lia|]. rewrite <- Hlast. f_equal. lia. }
  assert (hiveutil.index inventory (endpointvpc.endpointVpcIdx o) = Some endpointVpc) as ->.
  { by apply index_Some. }
  rewrite length_insert. fold idx.
  ask_world.
  exists (take (length inventory - 1) (<[idx := lastVpc]> inventory)), r.
  exists (match r with
          | Some err => [Logged FatalLevel (Some err) "Failed to update HiveConfig"]
          | None => []
          end).
  split_and!.
  - by destruct r.
  - destruct r; repeat constructor.
  - intros ->. simpl. by eexists.
  - rewrite length_take, length_insert. lia.
  - done.
  - intros Hnd. rewrite Hperm in Hnd. by apply NoDup_cons_1_1 in Hnd.
  - intros j Hj. rewrite length_take, length_insert in Hj.
    rewrite swap_remove_lookup by lia.
    case_decide; [|done]. by rewrite last_lookup, <- Hlast, Nat.sub_1_r.
Qed.

(** Removing the first of three endpoint VPCs: the third takes its place. *)
Lemma removeEndpointVpcFromHiveConfig_removes_entry_witness :
  ∃ written rest,
    trace (endpointvpc.removeEndpointVpcFromHiveConfig examples.remove_vpc_e1
             (examples.cloud examples.healthy) tt)
    = [ Logged InfoLevel None "Removing endpoint VPC vpc-e1 from HiveConfig";
        Called (hiveutil.client_Update examples.k8s
          {| hivev1.TargetNamespace := "hive";
             hivev1.AWSPrivateLink := Some
               {| hivev1.CredentialsSecretRef := "aws-hub-creds";
                  hivev1.EndpointVPCInventory :=
                    [ examples.endpoint_vpc "vpc-e3" "us-west-2" ["subnet-4"];
                      examples.endpoint_vpc "vpc-e2" "us-east-1" ["subnet-3"] ];
                  hivev1.AssociatedVPCs := hivev1.AssociatedVPCs examples.privateLink;
                  hivev1.DNSRecordType := "Alias" |} |}) written ] ++ rest.
Proof.
  destruct (removeEndpointVpcFromHiveConfig_removes_entry examples.remove_vpc_e1
              examples.privateLink
              (examples.endpoint_vpc "vpc-e1" "us-east-1" ["subnet-1"; "subnet-2"])
              (examples.cloud examples.healthy) tt)
    as (inventory' & written & rest & Htrace & _ & _ & Hlen & _ & _ & Hpos);
    [reflexivity | reflexivity | reflexivity |].
  exists written, rest. rewrite Htrace.
  destruct inventory' as [|e0 [|e1 [|]]]; try done.
  assert (H0 := Hpos 0 ltac:(simpl; lia)). assert (H1 := Hpos 1 ltac:(simpl; lia)).
  simpl in H0, H1. by simplify_eq.
Defined.

(** ** Deleting the peering connection *)

(** C4. [deleteVpcPeeringConnection] first asks for the active peering
    connections between the two VPCs.  When the answer has no error and no
    connection, it logs a warning and returns nil, having called nothing
    else (no delete).  When there is a connection, it asks to delete the
    first one; when that call succeeds it waits until that same connection
    is deleted, and returns what the wait returned (nil after a completed
    wait).  An error of the describe or of the delete call is returned as
    it is. *)
Theorem deleteVpcPeeringConnection_tolerates_absence {W}
    (awsClients : awsclient_Client) (VpcId1 VpcId2 : string)
    (h : Handler cloudE W) (w : W) :
  let r := endpointvpc.deleteVpcPeeringConnection (Some awsClients) VpcId1 VpcId2 h w in
  let describe := DescribeVpcPeeringConnections awsClients
                    (active_peering_between VpcId1 VpcId2) in
  ∃ described,
    match described with
    | (_, Some err) =>
        outcome r = Returned (Some err) ∧ calls (trace r) = [Called describe described]
    | ([], None) =>
        outcome r = Returned None
        ∧ trace r
          = [ Logged InfoLevel None
                "Deleting VPC peering connection between the associated VPC and the endpoint VPC";
              Called describe described;
              Logged WarnLevel None
                "No VPC peering connection found between the associated VPC and the endpoint VPC" ]
    | (connection :: _, None) =>
        let id := VpcPeeringConnectionId connection in
        let delete := DeleteVpcPeeringConnection awsClients id in
        let wait := WaitUntilVpcPeeringConnectionDeleted awsClients
                      (peering_connection_with_id id) in
        ∃ deleted,
          match deleted, id with
          | Some err, _ =>
              outcome r = Returned (Some err)
              ∧ calls (trace r) = [Called describe described; Called delete deleted]
          | None, None =>
              outcome r = Panicked
              ∧ calls (trace r) = [Called describe described; Called delete deleted]
          | None, Some _ =>
              ∃ waited,
                outcome r = Returned waited
                ∧ calls (trace r)
                  = [Called describe described; Called delete deleted; Called wait waited]
          end
    end.
Proof.
  intros r describe. subst r describe.
  unfold endpointvpc.deleteVpcPeeringConnection, on_client, deref, bind, call, log, ret, panic.
  fold (active_peering_between VpcId1 VpcId2).
  ask_world. exists r. destruct r as [[|connection connections] [err|]]; simpl; try done.
  ask_world. exists r. destruct r as [err|]; simpl; try done.
  destruct (VpcPeeringConnectionId connection) as [id|] eqn:Hid; simpl; try done.
  fold (peering_connection_with_id (Some id)).
  ask_world. exists r. by destruct r.
Qed.

(** ** Revoking the security-group ingress *)

(** C3. The security-group step looks up the worker security group of the
    associated VPC and then branches on one test only, whether the region
    of the associated VPC equals that of the endpoint VPC.  In the same
    region it revokes, on the associated VPC's worker SG, the ingress from
    the endpoint VPC's default SG, and then, on the endpoint VPC's default
    SG, the ingress from the worker SG.  In different regions it revokes, on
    the worker SG, the ingress from the endpoint VPC's CIDR block, and then,
    on the default SG, the ingress from the associated VPC's CIDR block.  In
    both branches a revoke that fails with "InvalidPermission.NotFound" is
    passed over like one that succeeded. *)
Theorem Run_revoke_ingress_branches_on_region {W}
    (o : endpointvpc.endpointVPCRemoveOptions) (endpointVPCDefaultSG : string)
    (associatedVpc : AWSAssociatedVPC) (associatedVpcCIDR endpointVpcCIDR : string)
    (h : Handler cloudE W) (w : W) :
  let r := endpointvpc.Run_revoke_ingress o endpointVPCDefaultSG associatedVpc
             associatedVpcCIDR endpointVpcCIDR h w in
  let associatedVpcRegion := Region (AWSPrivateLinkVPC_of associatedVpc) in
  let associatedVpcClients := endpointvpc.awsClientsByRegion o !! associatedVpcRegion in
  let endpointVpcClients := endpointvpc.endpointVpcClients o in
  let lookup := awsutils_GetWorkerSGFromVpcId associatedVpcClients
                  (VPCID (AWSPrivateLinkVPC_of associatedVpc)) in
  ∃ got,
    match got with
    | (_, Some err) => outcome r = Exited 1 ∧ calls (trace r) = [Called lookup got]
    | (associatedVpcWorkerSG, None) =>
        (associatedVpcRegion = endpointvpc.endpointVpcRegion o →
           revokes_in_turn r [Called lookup got]
             (awsutils_RevokeAllIngressFromSG associatedVpcClients
                associatedVpcWorkerSG endpointVPCDefaultSG)
             (awsutils_RevokeAllIngressFromSG endpointVpcClients
                endpointVPCDefaultSG associatedVpcWorkerSG))
        ∧ (associatedVpcRegion ≠ endpointvpc.endpointVpcRegion o →
             revokes_in_turn r [Called lookup got]
               (awsutils_RevokeAllIngressFromCIDR associatedVpcClients
                  associatedVpcWorkerSG endpointVpcCIDR)
               (awsutils_RevokeAllIngressFromCIDR endpointVpcClients
                  endpointVPCDefaultSG associatedVpcCIDR))
    end.
Proof.
  intros r associatedVpcRegion associatedVpcClients endpointVpcClients lookup.
  subst r lookup.
  unfold endpointvpc.Run_revoke_ingress, bind, call, log, fatal, ret.
  fold associatedVpcRegion. fold associatedVpcClients.
  ask_world. exists r. destruct r as [associatedVpcWorkerSG [err|]]; simpl; [done|].
  unfold endpointvpc.Run_update_SGs, revokes_in_turn.
  split; intros Hregion.
  - rewrite bool_decide_eq_true_2 by done.
    unfold endpointvpc.revoke_tolerating_not_found, bind, call, log, fatal, ret. simpl.
    ask_world. exists r.
    destruct r as [err1|]; simpl; [destruct (aws_code_is err1 _) eqn:H1; simpl|].
    + ask_world. exists r.
      destruct r as [err2|]; simpl; [destruct (aws_code_is err2 _) eqn:H2; simpl|]; done.
    + done.
    + ask_world. exists r.
      destruct r as [err2|]; simpl; [destruct (aws_code_is err2 _) eqn:H2; simpl|]; done.
  - rewrite bool_decide_eq_false_2 by done.
    unfold endpointvpc.revoke_tolerating_not_found, bind, call, log, fatal, ret. simpl.
    ask_world. exists r.
    destruct r as [err1|]; simpl; [destruct (aws_code_is err1 _) eqn:H1; simpl|].
    + ask_world. exists r.
      destruct r as [err2|]; simpl; [destruct (aws_code_is err2 _) eqn:H2; simpl|]; done.
    + done.
    + ask_world. exists r.
      destruct r as [err2|]; simpl; [destruct (aws_code_is err2 _) eqn:H2; simpl|]; done.
Qed.

(** ** Deleting the routes *)

Lemma route_calls_app c cidr tables1 tables2 responses1 responses2 :
  length responses1 = length tables1 →
  route_calls c cidr (tables1 ++ tables2) (responses1 ++ responses2)
  = route_calls c cidr tables1 responses1 ++ route_calls c cidr tables2 responses2.
Proof. intros Hlen. unfold route_calls. by rewrite zip_with_app. Qed.

Lemma route_calls_short c cidr tables1 tables2 responses :
  (length responses ≤ length tables1)%nat →
  route_calls c cidr (tables1 ++ tables2) responses = route_calls c cidr tables1 responses.
Proof.
  unfold route_calls. revert responses.
  induction tables1 as [|rt tables1 IH]; intros [|resp responses] Hlen; simpl in *;
    try done; try lia.
  - by destruct tables2.
  - f_equal. apply IH. lia.
Qed.

Lemma delete_route_of_table {W} (c : awsclient_Client) (cidr : string) (rt : RouteTable)
    (h : Handler cloudE W) (w : W) :
  let r := endpointvpc.deleteRoute_from_table c cidr rt h w in
  ∃ failed,
    calls (trace r) = [Called (DeleteRoute c (RouteTableId rt) cidr) failed]
    ∧ (is_Some (returned r) ↔ route_gone failed ∧ has_id rt).
Proof.
  unfold endpointvpc.deleteRoute_from_table, has_id, route_gone, returned, deref. run.
  destruct (h _ _ w) as [failed w1]. exists failed. simpl.
  destruct failed as [err|]; simpl;
    [destruct (aws_code_is err _) eqn:Hcode|]; destruct (RouteTableId rt); run;
    (split; [done|]); split; try (intros [? ?]; done); try (intros [? [? ?]]; done); eauto.
Qed.

Lemma delete_routes_of_tables {W} (c : awsclient_Client) (cidr : string)
    (tables : list RouteTable) (h : Handler cloudE W) (w : W) :
  let r := for_each tables (endpointvpc.deleteRoute_from_table c cidr) h w in
  ∃ responses,
    calls (trace r) = route_calls c cidr tables responses
    ∧ (length responses ≤ length tables)%nat
    ∧ (is_Some (returned r) → length responses = length tables)
    ∧ (Forall route_gone responses → Forall has_id tables → is_Some (returned r)).
Proof.
  revert w. induction tables as [|rt tables IH]; intros w; simpl.
  - exists []. split_and!; eauto; done.
  - destruct (delete_route_of_table c cidr rt h w) as (failed & Hc & Hr).
    run. rewrite calls_app, Hc.
    destruct (returned (endpointvpc.deleteRoute_from_table c cidr rt h w)) as [[]|] eqn:Hret.
    + unfold returned in Hret.
      destruct (outcome (endpointvpc.deleteRoute_from_table c cidr rt h w)); try done.
      destruct (IH (world (endpointvpc.deleteRoute_from_table c cidr rt h w)))
        as (responses & Hc' & Hl & Hr' & Ht).
      exists (failed :: responses). simpl. rewrite Hc'.
      split_and!; [done | lia | intros Hs; f_equal; auto |].
      intros Hf Hi. apply Forall_cons in Hf as [_ Hf]. apply Forall_cons in Hi as [_ Hi].
      auto.
    + exists [failed]. unfold returned in Hret |- *.
      destruct (outcome (endpointvpc.deleteRoute_from_table c cidr rt h w)); try done;
        simpl; (split_and!; [by destruct tables | lia | by intros [? ?] |]);
        intros Hf Hi; apply Forall_cons in Hf as [Hf _]; apply Forall_cons in Hi as [Hi _];
        destruct (proj2 Hr (conj Hf Hi)); done.
Qed.

Lemma delete_routes_of_page {W} (c : awsclient_Client) (cidr : string)
    (page : DescribeRouteTablesOutput) (lastPage : bool) (h : Handler cloudE W) (w : W) :
  let r := endpointvpc.deleteRoute_callback c cidr page lastPage h w in
  ∃ responses,
    calls (trace r) = route_calls c cidr (RouteTables page) responses
    ∧ (length responses ≤ length (RouteTables page))%nat
    ∧ (∀ continue, outcome r = Returned continue →
         length responses = length (RouteTables page) ∧ continue = negb lastPage)
    ∧ (Forall route_gone responses → Forall has_id (RouteTables page) →
       is_Some (returned r)).
Proof.
  unfold endpointvpc.deleteRoute_callback. run.
  set (r1 := for_each (RouteTables page) (endpointvpc.deleteRoute_from_table c cidr) h w).
  destruct (delete_routes_of_tables c cidr (RouteTables page) h w)
    as (responses & Hc & Hl & Hr & Ht). fold r1 in Hc, Hr, Ht.
  exists responses. unfold returned in Hr, Ht |- *.
  destruct (outcome r1) as [[]| |]; simpl; rewrite ?app_nil_r.
  all: split_and!; auto; try done.
  - intros continue [= <-]. split; [eauto | done].
  - intros Hf Hi. by destruct (Ht Hf Hi).
  - intros Hf Hi. by destruct (Ht Hf Hi).
Qed.

Lemma delete_routes_of_pages {W} (c : awsclient_Client) (cidr : string) (filters : list Filter)
    (pages : list (DescribeRouteTablesOutput * bool)) (h : Handler cloudE W) (w : W) :
  let r := endpointvpc.paginate (endpointvpc.deleteRoute_callback c cidr) pages
             (call (DescribeRouteTablesPages_result c filters)) h w in
  ∃ responses ending,
    calls (trace r) = route_calls c cidr (delivered pages) responses ++ ending
    ∧ (length responses ≤ length (delivered pages))%nat
    ∧ (is_Some (returned r) → length responses = length (delivered pages))
    ∧ (Forall route_gone responses → Forall has_id (delivered pages) → is_Some (returned r))
    ∧ match returned r with
      | Some failed =>
          if stops pages then ending = [] ∧ failed = None
          else ending = [Called (DescribeRouteTablesPages_result c filters) failed]
      | None => ending = []
      end.
Proof.
  revert w. induction pages as [|[page lastPage] pages IH]; intros w; simpl.
  - exists [], [Called (DescribeRouteTablesPages_result c filters) (h _ (DescribeRouteTablesPages_result c filters) w).1].
    run. split_and!; eauto; done.
  - run.
    set (r1 := endpointvpc.deleteRoute_callback c cidr page lastPage h w).
    destruct (delete_routes_of_page c cidr page lastPage h w)
      as (responses1 & Hc1 & Hl1 & Hr1 & Ht1). fold r1 in Hc1, Hr1, Ht1.
    rewrite calls_app, Hc1.
    unfold returned in Ht1 |- *.
    destruct (outcome r1) as [continue| |] eqn:Ho1; simpl.
    + destruct (Hr1 continue eq_refl) as [Hlen ->].
      destruct lastPage; simpl.
      * exists responses1, []. run. rewrite !app_nil_r.
        split_and!; eauto.
      * destruct (IH (world r1)) as (responses & ending & Hc & Hl & Hr & Ht & He).
        exists (responses1 ++ responses), ending.
        rewrite route_calls_app by done. unfold returned in Hr, Ht, He. rewrite Hc.
        rewrite !length_app, <- app_assoc.
        split_and!; [done | lia | intros Hs; rewrite Hr; auto | | done].
        intros Hf Hi. apply Forall_app in Hf as [_ Hf]. apply Forall_app in Hi as [_ Hi].
        auto.
    + exists responses1, []. rewrite !app_nil_r, route_calls_short by done.
      rewrite length_app. split_and!; [done | lia | by intros [? ?] | | done].
      intros Hf Hi. apply Forall_app in Hi as [Hi _]. destruct (Ht1 Hf Hi); done.
    + exists responses1, []. rewrite !app_nil_r, route_calls_short by done.
      rewrite length_app. split_and!; [done | lia | by intros [? ?] | | done].
      intros Hf Hi. apply Forall_app in Hi as [Hi _]. destruct (Ht1 Hf Hi); done.
Qed.

Lemma deleteRouteFromRouteTables_calls {W} (vpcClients : option awsclient_Client)
    (vpcId peerCIDR : string) (additionalFilters : list Filter)
    (h : Handler cloudE W) (w : W) :
  let r := endpointvpc.deleteRouteFromRouteTables vpcClients vpcId peerCIDR
             additionalFilters h w in
  route_deletion vpcClients
    ({| Name := "vpc-id"; Values := [vpcId] |} :: additionalFilters) peerCIDR
    (calls (trace r)) (returned r).
Proof.
  unfold endpointvpc.deleteRouteFromRouteTables, route_deletion, on_client.
  destruct vpcClients as [c|]; simpl; [|done].
  run.
  destruct (h _ _ w) as [pages w1]; simpl.
  destruct (delete_routes_of_pages c peerCIDR
              ({| Name := "vpc-id"; Values := [vpcId] |} :: additionalFilters) pages h w1)
    as (responses & ending & Hc & Hl & Hr & Ht & He).
  exists pages, responses, ending. only_calls. rewrite Hc. done.
Qed.

(** C5. The step that updates the route tables deletes routes from
    filtered route tables only.  First, through the client of the
    associated VPC, it asks for the route tables of that VPC whose Name tag
    matches "*private*" and deletes the route to the endpoint VPC's CIDR
    from the tables of the answer, in order.  When that returned without
    error it asks, through the client of the endpoint VPC, for the route
    tables of the endpoint VPC associated with the endpoint subnets of the
    options, and deletes the route to the associated VPC's CIDR from those.
    A delete that fails with "InvalidRoute.NotFound" does not stop the
    iteration ([route_deletion]), so the step returns exactly when both
    deletions returned nil. *)
Theorem Run_update_route_tables_filtered {W}
    (o : endpointvpc.endpointVPCRemoveOptions) (associatedVpc : AWSAssociatedVPC)
    (associatedVpcCIDR endpointVpcCIDR : string) (h : Handler cloudE W) (w : W) :
  let r := endpointvpc.Run_update_route_tables o associatedVpc
             associatedVpcCIDR endpointVpcCIDR h w in
  let associatedVpcClients :=
    endpointvpc.awsClientsByRegion o !! Region (AWSPrivateLinkVPC_of associatedVpc) in
  ∃ t1 returned1 t2 returned2,
    calls (trace r) = t1 ++ t2
    ∧ route_deletion associatedVpcClients
        [ {| Name := "vpc-id"; Values := [VPCID (AWSPrivateLinkVPC_of associatedVpc)] |};
          {| Name := "tag:Name"; Values := ["*private*"] |} ]
        endpointVpcCIDR t1 returned1
    ∧ match returned1 with
      | Some None =>
          route_deletion (endpointvpc.endpointVpcClients o)
            [ {| Name := "vpc-id"; Values := [endpointvpc.endpointVpcId o] |};
              {| Name := "association.subnet-id";
                 Values := endpointvpc.endpointSubnetIds o |} ]
            associatedVpcCIDR t2 returned2
          ∧ (returned r = Some tt ↔ returned2 = Some None)
      | _ => t2 = [] ∧ returned r = None
      end.
Proof.
  intros r associatedVpcClients. subst r.
  unfold endpointvpc.Run_update_route_tables. fold associatedVpcClients. run.
  set (r1 := endpointvpc.deleteRouteFromRouteTables associatedVpcClients _ _ _ h w).
  assert (H1 := deleteRouteFromRouteTables_calls associatedVpcClients
                  (VPCID (AWSPrivateLinkVPC_of associatedVpc)) endpointVpcCIDR
                  [ {| Name := "tag:Name"; Values := ["*private*"] |} ] h w).
  simpl in H1. fold r1 in H1.
  unfold returned in H1 |- *.
  destruct (outcome r1) as [[err|]| |] eqn:Ho1; simpl.
  - eexists _, _, [], None. run. only_calls. rewrite !app_nil_r. done.
  - pose (r2 := endpointvpc.deleteRouteFromRouteTables (endpointvpc.endpointVpcClients o)
                 (endpointvpc.endpointVpcId o) associatedVpcCIDR
                    [ {| Name := "association.subnet-id";
                         Values := endpointvpc.endpointSubnetIds o |} ] h (world r1)).
    assert (H2 := deleteRouteFromRouteTables_calls (endpointvpc.endpointVpcClients o)
                    (endpointvpc.endpointVpcId o) associatedVpcCIDR
                    [ {| Name := "association.subnet-id";
                         Values := endpointvpc.endpointSubnetIds o |} ] h (world r1)).
    simpl in H2. fold r2 in H2. run. fold r2. only_calls.
    exists (calls (trace r1)), (Some None), (calls (trace r2)), (returned r2).
    split_and!; [| exact H1 | exact H2 |].
    + f_equal. unfold returned. destruct (outcome r2) as [[err|]| |]; run; only_calls;
        by rewrite ?app_nil_r.
    + unfold returned. destruct (outcome r2) as [[err|]| |]; simpl; run; split; done.
  - eexists _, _, [], None. run. only_calls. rewrite !app_nil_r. done.
  - eexists _, _, [], None. run. only_calls. rewrite !app_nil_r. done.
Qed.

Example Run_update_route_tables_nothing_left :
  let r := endpointvpc.Run_update_route_tables examples.remove_vpc_e1
             (examples.associated_vpc "vpc-a2" "us-west-2") "cidr-vpc-a2" "cidr-vpc-e1"
             (examples.cloud examples.nothing_left) tt in
  let gone := Some (awserr_Error "InvalidRoute.NotFound" "no such route") in
  let pages :=
    [ ({| RouteTables := [examples.route_table "rtb-1"; examples.route_table "rtb-2"] |}, false);
      ({| RouteTables := [examples.route_table "rtb-3"] |}, true) ] in
  let private :=
    [ {| Name := "vpc-id"; Values := ["vpc-a2"] |};
      {| Name := "tag:Name"; Values := ["*private*"] |} ] in
  let subnets :=
    [ {| Name := "vpc-id"; Values := ["vpc-e1"] |};
      {| Name := "association.subnet-id"; Values := ["subnet-1"; "subnet-2"] |} ] in
  outcome r = Returned tt
  ∧ calls (trace r)
    = [ Called (DescribeRouteTablesPages examples.west private) pages;
        Called (DeleteRoute examples.west (Some "rtb-1") "cidr-vpc-e1") gone;
        Called (DeleteRoute examples.west (Some "rtb-2") "cidr-vpc-e1") gone;
        Called (DeleteRoute examples.west (Some "rtb-3") "cidr-vpc-e1") gone;
        Called (DescribeRouteTablesPages examples.east subnets) pages;
        Called (DeleteRoute examples.east (Some "rtb-1") "cidr-vpc-a2") gone;
        Called (DeleteRoute examples.east (Some "rtb-2") "cidr-vpc-a2") gone;
        Called (DeleteRoute examples.east (Some "rtb-3") "cidr-vpc-a2") gone ].
Proof. vm_compute. done. Qed.

(** ** The order of the teardown *)

Lemma phase_nil m : phase m [].
Proof. constructor. Qed.

Lemma phase_app m t1 t2 : phase m t1 → phase m t2 → phase m (t1 ++ t2).
Proof. apply Forall_app_2. Qed.

Lemma phase_logged m lvl err msg t : phase m t → phase m (Logged lvl err msg :: t).
Proof. intros H. constructor; [by left | done]. Qed.

Lemma phase_calls m t : phase m (calls t) → phase m t.
Proof.
  unfold phase, calls. induction t as [|e t IH]; [done|].
  rewrite filter_cons. destruct (decide (is_log e = false)) as [He|He]; intros H.
  - apply Forall_cons in H as [? ?]. constructor; auto.
  - constructor; [|auto]. left. by destruct e.
Qed.

Lemma phase_route_calls c cidr tables responses :
  phase RouteDeleted (route_calls c cidr tables responses).
Proof.
  unfold route_calls. revert responses.
  induction tables as [|rt tables IH]; intros [|resp responses]; simpl;
    try apply phase_nil.
  constructor; [by right | apply IH].
Qed.

Ltac phase_of_list :=
  unfold phase;
  repeat first [ apply Forall_nil_2 | apply Forall_app_2
               | apply Forall_cons_2; [simpl; by auto|] ].

Lemma deleteVpcPeeringConnection_phase {W} (awsClients : option awsclient_Client)
    (VpcId1 VpcId2 : string) (h : Handler cloudE W) (w : W) :
  let r := endpointvpc.deleteVpcPeeringConnection awsClients VpcId1 VpcId2 h w in
  phase PeeringDeleted (trace r)
  ∧ (is_Some (returned r) →
       ∃ c described,
         Called (DescribeVpcPeeringConnections c (active_peering_between VpcId1 VpcId2))
                described ∈ trace r).
Proof.
  unfold endpointvpc.deleteVpcPeeringConnection, on_client, deref.
  fold (active_peering_between VpcId1 VpcId2).
  destruct awsClients as [c|]; run; [|split; [phase_of_list | by intros [? ?]]].
  destruct (h _ _ w) as [[connections err] w1]; simpl.
  split; [|intros _; eexists _, _; apply list_elem_of_further, list_elem_of_here].
  destruct connections as [|connection connections], err as [err|]; run;
    try by phase_of_list.
  destruct (h _ _ w1) as [[err|] w2]; run; [phase_of_list|].
  destruct (VpcPeeringConnectionId connection); run; [|phase_of_list].
  destruct (h _ _ w2) as [[err|] w3]; run; phase_of_list.
Qed.

Lemma deleteRouteFromRouteTables_phase {W} (vpcClients : option awsclient_Client)
    (vpcId peerCIDR : string) (additionalFilters : list Filter)
    (h : Handler cloudE W) (w : W) :
  let r := endpointvpc.deleteRouteFromRouteTables vpcClients vpcId peerCIDR
             additionalFilters h w in
  phase RouteDeleted (trace r)
  ∧ (is_Some (returned r) →
       ∃ c pages,
         Called (DescribeRouteTablesPages c
                   ({| Name := "vpc-id"; Values := [vpcId] |} :: additionalFilters))
                pages ∈ trace r).
Proof.
  intros r.
  assert (H := deleteRouteFromRouteTables_calls vpcClients vpcId peerCIDR
                 additionalFilters h w).
  fold r in H. unfold route_deletion in H.
  destruct vpcClients as [c|].
  - destruct H as (pages & responses & ending & Hc & _ & _ & _ & He).
    split.
    + apply phase_calls. rewrite Hc.
      apply Forall_cons_2; [by left|]. apply phase_app; [apply phase_route_calls|].
      destruct (returned r) as [failed|]; [destruct (stops pages)|].
      * destruct He as [-> _]. apply phase_nil.
      * subst ending. phase_of_list.
      * subst ending. apply phase_nil.
    + intros _. exists c, pages.
      assert (Hin : Called (DescribeRouteTablesPages c
                              ({| Name := "vpc-id"; Values := [vpcId] |} :: additionalFilters))
                           pages ∈ calls (trace r)).
      { rewrite Hc. apply list_elem_of_here. }
      unfold calls in Hin. by apply list_elem_of_filter in Hin as [_ ?].
  - destruct H as [Hc Hr]. split; [|rewrite Hr; by intros [? ?]].
    apply phase_calls. rewrite Hc. apply phase_nil.
Qed.

Lemma Run_delete_peering_phase {W} (o : endpointvpc.endpointVPCRemoveOptions)
    (associatedVpc : AWSAssociatedVPC) (h : Handler cloudE W) (w : W) :
  let r := endpointvpc.Run_delete_peering o associatedVpc h w in
  phase PeeringDeleted (trace r)
  ∧ (is_Some (returned r) →
       ∃ c described,
         Called (DescribeVpcPeeringConnections c
                   (active_peering_between (VPCID (AWSPrivateLinkVPC_of associatedVpc))
                      (endpointvpc.endpointVpcId o)))
                described ∈ trace r).
Proof.
  unfold endpointvpc.Run_delete_peering. run.
  destruct (h _ _ w) as [[associatedVpcCIDR [err|]] w1]; run;
    [split; [phase_of_list | by intros [? ?]]|].
  destruct (h _ _ w1) as [[endpointVpcCIDR [err|]] w2]; run;
    [split; [phase_of_list | by intros [? ?]]|].
  match goal with
  | |- context [endpointvpc.deleteVpcPeeringConnection ?c ?v1 ?v2 h w2] =>
      destruct (deleteVpcPeeringConnection_phase c v1 v2 h w2) as [Hp Hd];
      set (r := endpointvpc.deleteVpcPeeringConnection c v1 v2 h w2) in *
  end.
  unfold returned in Hd |- *.
  destruct (outcome r) as [[err|]| |]; run;
    (split; [repeat (apply Forall_cons_2; [by left|]); apply phase_app; [done | phase_of_list]|]);
    try by intros [? ?].
  intros _. destruct Hd as (c & described & Hin); [by eexists|].
  exists c, described. rewrite !elem_of_cons, elem_of_app. auto 10.
Qed.

Lemma Run_update_route_tables_phase {W} (o : endpointvpc.endpointVPCRemoveOptions)
    (associatedVpc : AWSAssociatedVPC) (associatedVpcCIDR endpointVpcCIDR : string)
    (h : Handler cloudE W) (w : W) :
  let r := endpointvpc.Run_update_route_tables o associatedVpc
             associatedVpcCIDR endpointVpcCIDR h w in
  phase RouteDeleted (trace r)
  ∧ (is_Some (returned r) →
       ∃ c1 pages1 c2 pages2,
         Called (DescribeRouteTablesPages c1
                   [ {| Name := "vpc-id"; Values := [VPCID (AWSPrivateLinkVPC_of associatedVpc)] |};
                     {| Name := "tag:Name"; Values := ["*private*"] |} ])
                pages1 ∈ trace r
         ∧ Called (DescribeRouteTablesPages c2
                     [ {| Name := "vpc-id"; Values := [endpointvpc.endpointVpcId o] |};
                       {| Name := "association.subnet-id";
                          Values := endpointvpc.endpointSubnetIds o |} ])
                  pages2 ∈ trace r).
Proof.
  unfold endpointvpc.Run_update_route_tables. run.
  match goal with
  | |- context [endpointvpc.deleteRouteFromRouteTables ?c ?v ?p ?f h w] =>
      destruct (deleteRouteFromRouteTables_phase c v p f h w) as [Hp1 Hd1];
      set (r1 := endpointvpc.deleteRouteFromRouteTables c v p f h w) in *
  end.
  unfold returned in Hd1 |- *.
  destruct (outcome r1) as [[err|]| |]; run;
    try (split; [apply phase_logged, phase_app; [done | phase_of_list] | by intros [? ?]]).
  match goal with
  | |- context [endpointvpc.deleteRouteFromRouteTables ?c ?v ?p ?f h (world r1)] =>
      destruct (deleteRouteFromRouteTables_phase c v p f h (world r1)) as [Hp2 Hd2];
      set (r2 := endpointvpc.deleteRouteFromRouteTables c v p f h (world r1)) in *
  end.
  unfold returned in Hd2 |- *.
  destruct (outcome r2) as [[err|]| |]; run;
    (split; [apply phase_logged, phase_app; [done|];
             apply phase_logged, phase_app; [done | phase_of_list]|]);
    try by intros [? ?].
  intros _.
  destruct Hd1 as (c1 & pages1 & Hin1); [by eexists|].
  destruct Hd2 as (c2 & pages2 & Hin2); [by eexists|].
  exists c1, pages1, c2, pages2.
  rewrite !elem_of_cons, !elem_of_app, !elem_of_cons, !elem_of_app. auto 10.
Qed.

Lemma mutations_app t1 t2 : mutations (t1 ++ t2) = mutations t1 ++ mutations t2.
Proof. apply omap_app. Qed.

Lemma Run_revoke_ingress_phase {W} (o : endpointvpc.endpointVPCRemoveOptions)
    (endpointVPCDefaultSG : string) (associatedVpc : AWSAssociatedVPC)
    (associatedVpcCIDR endpointVpcCIDR : string) (h : Handler cloudE W) (w : W) :
  let r := endpointvpc.Run_revoke_ingress o endpointVPCDefaultSG associatedVpc
             associatedVpcCIDR endpointVpcCIDR h w in
  phase IngressRevoked (trace r)
  ∧ (is_Some (returned r) → mutations (trace r) = [IngressRevoked; IngressRevoked]).
Proof.
  unfold endpointvpc.Run_revoke_ingress. run.
  destruct (h _ _ w) as [[associatedVpcWorkerSG [err|]] w1]; run;
    [split; [phase_of_list | by intros [? ?]]|].
  unfold endpointvpc.Run_update_SGs, endpointvpc.revoke_tolerating_not_found.
  case_bool_decide; run.
  - destruct (h _ _ w1) as [[err1|] w2]; run;
      [destruct (aws_code_is err1 _); run|];
      try (destruct (h _ _ w2) as [[err2|] w3]; run;
           [destruct (aws_code_is err2 _); run|]);
      (split; [phase_of_list | try by intros [? ?]]); done.
  - destruct (h _ _ w1) as [[err1|] w2]; run;
      [destruct (aws_code_is err1 _); run|];
      try (destruct (h _ _ w2) as [[err2|] w3]; run;
           [destruct (aws_code_is err2 _); run|]);
      (split; [phase_of_list | try by intros [? ?]]); done.
Qed.

Lemma writes_app t1 t2 : writes (t1 ++ t2) = writes t1 + writes t2.
Proof. unfold writes. by rewrite mutations_app, filter_app, length_app. Qed.

Lemma writes_phase m t : m ≠ ConfigWritten → phase m t → writes t = 0.
Proof.
  intros Hm. unfold writes, mutations, phase.
  induction 1 as [|e t He _ IH]; [done|]. simpl.
  destruct He as [->| ->]; simpl; [done|].
  rewrite filter_cons, decide_False by done. done.
Qed.

Lemma writes_mutations_nil t : mutations t = [] → writes t = 0.
Proof. unfold writes. by intros ->. Qed.

(** ** The steps of a completed teardown *)

Lemma deleteVpcPeeringConnection_done {W} (awsClients : option awsclient_Client)
    (VpcId1 VpcId2 : string) (h : Handler cloudE W) (w : W) :
  let r := endpointvpc.deleteVpcPeeringConnection awsClients VpcId1 VpcId2 h w in
  returned r = Some None →
  ∃ c, awsClients = Some c ∧ peering_deletion c VpcId1 VpcId2 (calls (trace r)).
Proof.
  unfold endpointvpc.deleteVpcPeeringConnection, on_client, deref, peering_deletion.
  fold (active_peering_between VpcId1 VpcId2).
  destruct awsClients as [c|]; run; [|done].
  destruct (h _ _ w) as [[connections err] w1]; simpl.
  destruct connections as [|connection connections], err as [err|]; run; try done.
  - intros _. exists c. split; [done|]. by exists [].
  - destruct (h _ _ w1) as [[err|] w2]; run; [done|].
    destruct (VpcPeeringConnectionId connection) as [id|] eqn:Hid; run; [|done].
    fold (peering_connection_with_id (Some id)).
    destruct (h _ _ w2) as [[err|] w3]; run; [done|].
    intros _. exists c. split; [done|]. exists (connection :: connections).
    simpl. by rewrite Hid.
Qed.

Lemma Run_delete_peering_done {W} (o : endpointvpc.endpointVPCRemoveOptions)
    (associatedVpc : AWSAssociatedVPC) (associatedVpcCIDR endpointVpcCIDR : string)
    (h : Handler cloudE W) (w : W) :
  let r := endpointvpc.Run_delete_peering o associatedVpc h w in
  let associatedVpcId := VPCID (AWSPrivateLinkVPC_of associatedVpc) in
  let associatedVpcClients :=
    endpointvpc.awsClientsByRegion o !! Region (AWSPrivateLinkVPC_of associatedVpc) in
  returned r = Some (associatedVpcCIDR, endpointVpcCIDR) →
  ∃ c peering,
    associatedVpcClients = Some c
    ∧ calls (trace r)
      = [ Called (awsutils_GetCIDRFromVpcId associatedVpcClients associatedVpcId)
            (associatedVpcCIDR, None);
          Called (awsutils_GetCIDRFromVpcId (endpointvpc.endpointVpcClients o)
                    (endpointvpc.endpointVpcId o))
            (endpointVpcCIDR, None) ]
        ++ peering
    ∧ peering_deletion c associatedVpcId (endpointvpc.endpointVpcId o) peering.
Proof.
  intros r associatedVpcId associatedVpcClients. subst r.
  unfold endpointvpc.Run_delete_peering. fold associatedVpcId associatedVpcClients. run.
  destruct (h _ _ w) as [[associatedVpcCIDR' [err|]] w1]; run; [done|].
  destruct (h _ _ w1) as [[endpointVpcCIDR' [err|]] w2]; run; [done|].
  assert (Hd := deleteVpcPeeringConnection_done associatedVpcClients associatedVpcId
                  (endpointvpc.endpointVpcId o) h w2).
  simpl in Hd.
  set (r := endpointvpc.deleteVpcPeeringConnection associatedVpcClients associatedVpcId
              (endpointvpc.endpointVpcId o) h w2) in *.
  destruct (returned r) as [[err|]|] eqn:Hr; run; try done.
  intros Heq. simplify_eq. destruct (Hd eq_refl) as (c & Hc & Hp).
  exists c, (calls (trace r)). split_and!; [done | | done].
  unfold returned in Hr. destruct (outcome r) as [[err|]| |]; try done.
  only_calls. by rewrite app_nil_r.
Qed.

Lemma all_nil_or_code_app code t1 t2 :
  all_nil_or_code code t1 → all_nil_or_code code t2 → all_nil_or_code code (t1 ++ t2).
Proof. apply Forall_app_2. Qed.

Lemma all_nil_or_code_calls code t : all_nil_or_code code t → all_nil_or_code code (calls t).
Proof.
  unfold all_nil_or_code, calls. induction 1 as [|e t He _ IH]; [done|].
  rewrite filter_cons. case_decide; [by constructor | done].
Qed.

Ltac all_passed :=
  unfold all_nil_or_code;
  repeat first [ apply Forall_nil_2 | apply Forall_app_2
               | apply Forall_cons_2; [simpl; by auto|] ].

Lemma deleteRoute_from_table_gone {W} (c : awsclient_Client) (cidr : string) (rt : RouteTable)
    (h : Handler cloudE W) (w : W) :
  let r := endpointvpc.deleteRoute_from_table c cidr rt h w in
  is_Some (returned r) → all_nil_or_code "InvalidRoute.NotFound" (trace r).
Proof.
  unfold endpointvpc.deleteRoute_from_table, deref. run.
  destruct (h _ _ w) as [[err|] w1]; simpl;
    [destruct (aws_code_is err _) eqn:Hcode|]; destruct (RouteTableId rt); run;
    try (by intros [? ?]); intros _; all_passed.
Qed.

Lemma deleteRoute_from_tables_gone {W} (c : awsclient_Client) (cidr : string)
    (tables : list RouteTable) (h : Handler cloudE W) (w : W) :
  let r := for_each tables (endpointvpc.deleteRoute_from_table c cidr) h w in
  is_Some (returned r) → all_nil_or_code "InvalidRoute.NotFound" (trace r).
Proof.
  revert w. induction tables as [|rt tables IH]; intros w; simpl; [intros _; all_passed|].
  run. assert (H1 := deleteRoute_from_table_gone c cidr rt h w). simpl in H1.
  set (r1 := endpointvpc.deleteRoute_from_table c cidr rt h w) in *.
  unfold returned in H1 |- *.
  destruct (outcome r1) as [[]| |]; simpl; try (by intros [? ?]).
  intros Hr. apply all_nil_or_code_app; [apply H1; by eexists | by apply IH].
Qed.

Lemma deleteRoute_callback_gone {W} (c : awsclient_Client) (cidr : string)
    (page : DescribeRouteTablesOutput) (lastPage : bool) (h : Handler cloudE W) (w : W) :
  let r := endpointvpc.deleteRoute_callback c cidr page lastPage h w in
  ∀ continue, outcome r = Returned continue →
    continue = negb lastPage ∧ all_nil_or_code "InvalidRoute.NotFound" (trace r).
Proof.
  unfold endpointvpc.deleteRoute_callback. run.
  assert (H1 := deleteRoute_from_tables_gone c cidr (RouteTables page) h w). simpl in H1.
  set (r1 := for_each (RouteTables page) (endpointvpc.deleteRoute_from_table c cidr) h w)
    in *.
  unfold returned in H1.
  destruct (outcome r1) as [[]| |]; run; try done.
  intros continue [= <-]. split; [done|]. rewrite app_nil_r. apply H1. by eexists.
Qed.

Lemma paginate_gone {W} (c : awsclient_Client) (cidr : string) (filters : list Filter)
    (pages : list (DescribeRouteTablesOutput * bool)) (h : Handler cloudE W) (w : W) :
  let r := endpointvpc.paginate (endpointvpc.deleteRoute_callback c cidr) pages
             (call (DescribeRouteTablesPages_result c filters)) h w in
  returned r = Some None → all_nil_or_code "InvalidRoute.NotFound" (trace r).
Proof.
  revert w. induction pages as [|[page lastPage] pages IH]; intros w; simpl.
  - run. destruct (h _ _ w) as [[err|] w1]; simpl; [done|]. intros _. all_passed.
  - run. assert (H1 := deleteRoute_callback_gone c cidr page lastPage h w). simpl in H1.
    set (r1 := endpointvpc.deleteRoute_callback c cidr page lastPage h w) in *.
    unfold returned at 1.
    destruct (outcome r1) as [continue| |]; simpl; try done.
    destruct (H1 continue eq_refl) as [-> Hg].
    destruct lastPage; simpl; run.
    + intros _. by rewrite app_nil_r.
    + intros Hr. apply all_nil_or_code_app; [done | by apply IH].
Qed.

Lemma deleteRouteFromRouteTables_done {W} (vpcClients : option awsclient_Client)
    (vpcId peerCIDR : string) (additionalFilters : list Filter)
    (h : Handler cloudE W) (w : W) :
  let r := endpointvpc.deleteRouteFromRouteTables vpcClients vpcId peerCIDR
             additionalFilters h w in
  returned r = Some None →
  route_deletion vpcClients
    ({| Name := "vpc-id"; Values := [vpcId] |} :: additionalFilters) peerCIDR
    (calls (trace r)) (Some None)
  ∧ all_nil_or_code "InvalidRoute.NotFound" (calls (trace r)).
Proof.
  intros r Hr. split.
  - rewrite <- Hr. apply deleteRouteFromRouteTables_calls.
  - apply all_nil_or_code_calls. revert Hr. subst r.
    unfold endpointvpc.deleteRouteFromRouteTables, on_client.
    destruct vpcClients as [c|]; run; [|done].
    destruct (h _ _ w) as [pages w1]; simpl. intros Hr.
    apply Forall_cons_2; [done|]. by apply paginate_gone.
Qed.

Lemma Run_update_route_tables_done {W} (o : endpointvpc.endpointVPCRemoveOptions)
    (associatedVpc : AWSAssociatedVPC) (associatedVpcCIDR endpointVpcCIDR : string)
    (h : Handler cloudE W) (w : W) :
  let r := endpointvpc.Run_update_route_tables o associatedVpc
             associatedVpcCIDR endpointVpcCIDR h w in
  is_Some (returned r) →
  ∃ routes1 routes2,
    calls (trace r) = routes1 ++ routes2
    ∧ route_deletion
        (endpointvpc.awsClientsByRegion o !! Region (AWSPrivateLinkVPC_of associatedVpc))
        [ {| Name := "vpc-id"; Values := [VPCID (AWSPrivateLinkVPC_of associatedVpc)] |};
          {| Name := "tag:Name"; Values := ["*private*"] |} ]
        endpointVpcCIDR routes1 (Some None)
    ∧ all_nil_or_code "InvalidRoute.NotFound" routes1
    ∧ route_deletion (endpointvpc.endpointVpcClients o)
        [ {| Name := "vpc-id"; Values := [endpointvpc.endpointVpcId o] |};
          {| Name := "association.subnet-id"; Values := endpointvpc.endpointSubnetIds o |} ]
        associatedVpcCIDR routes2 (Some None)
    ∧ all_nil_or_code "InvalidRoute.NotFound" routes2.
Proof.
  intros r. subst r. unfold endpointvpc.Run_update_route_tables. run.
  match goal with
  | |- context [endpointvpc.deleteRouteFromRouteTables ?c ?v ?p ?f h w] =>
      assert (H1 := deleteRouteFromRouteTables_done c v p f h w); simpl in H1;
      set (r1 := endpointvpc.deleteRouteFromRouteTables c v p f h w) in *
  end.
  unfold returned in H1 |- *.
  destruct (outcome r1) as [[err|]| |]; run; try by intros [? ?].
  match goal with
  | |- context [endpointvpc.deleteRouteFromRouteTables ?c ?v ?p ?f h (world r1)] =>
      assert (H2 := deleteRouteFromRouteTables_done c v p f h (world r1)); simpl in H2;
      set (r2 := endpointvpc.deleteRouteFromRouteTables c v p f h (world r1)) in *
  end.
  unfold returned in H2.
  destruct (outcome r2) as [[err|]| |]; run; try by intros [? ?].
  intros _. destruct (H1 eq_refl) as [Hd1 Hg1]. destruct (H2 eq_refl) as [Hd2 Hg2].
  exists (calls (trace r1)), (calls (trace r2)). split_and!; try done.
  only_calls. by rewrite app_nil_r.
Qed.

Lemma Run_revoke_ingress_done {W} (o : endpointvpc.endpointVPCRemoveOptions)
    (endpointVPCDefaultSG : string) (associatedVpc : AWSAssociatedVPC)
    (associatedVpcCIDR endpointVpcCIDR : string) (h : Handler cloudE W) (w : W) :
  let r := endpointvpc.Run_revoke_ingress o endpointVPCDefaultSG associatedVpc
             associatedVpcCIDR endpointVpcCIDR h w in
  is_Some (returned r) →
  ∃ associatedVpcWorkerSG revoked1 revoked2,
    let revokes := ingress_revokes o associatedVpc endpointVPCDefaultSG
                     associatedVpcWorkerSG associatedVpcCIDR endpointVpcCIDR in
    calls (trace r)
    = [ Called (awsutils_GetWorkerSGFromVpcId
                  (endpointvpc.awsClientsByRegion o
                     !! Region (AWSPrivateLinkVPC_of associatedVpc))
                  (VPCID (AWSPrivateLinkVPC_of associatedVpc)))
          (associatedVpcWorkerSG, None);
        Called revokes.1 revoked1;
        Called revokes.2 revoked2 ]
    ∧ nil_or_code "InvalidPermission.NotFound" revoked1 = true
    ∧ nil_or_code "InvalidPermission.NotFound" revoked2 = true.
Proof.
  intros r. subst r. unfold endpointvpc.Run_revoke_ingress, ingress_revokes. run.
  destruct (h _ _ w) as [[associatedVpcWorkerSG [err|]] w1]; run; [by intros [? ?]|].
  unfold endpointvpc.Run_update_SGs, endpointvpc.revoke_tolerating_not_found.
  case_bool_decide as Hregion; run.
  - destruct (h _ _ w1) as [[err1|] w2]; run;
      [destruct (aws_code_is err1 _) eqn:H1; run; [|by intros [? ?]]|];
      (destruct (h _ _ w2) as [[err2|] w3]; run;
       [destruct (aws_code_is err2 _) eqn:H2; run; [|by intros [? ?]]|]);
      intros _; eexists associatedVpcWorkerSG, _, _; rewrite decide_True by done;
      (split_and!; [reflexivity | done | done]).
  - destruct (h _ _ w1) as [[err1|] w2]; run;
      [destruct (aws_code_is err1 _) eqn:H1; run; [|by intros [? ?]]|];
      (destruct (h _ _ w2) as [[err2|] w3]; run;
       [destruct (aws_code_is err2 _) eqn:H2; run; [|by intros [? ?]]|]);
      intros _; eexists associatedVpcWorkerSG, _, _; rewrite decide_False by done;
      (split_and!; [reflexivity | done | done]).
Qed.

Lemma Run_body_done {W} (o : endpointvpc.endpointVPCRemoveOptions)
    (endpointVPCDefaultSG : string) (associatedVpc : AWSAssociatedVPC)
    (h : Handler cloudE W) (w : W) :
  let r := endpointvpc.Run_body o endpointVPCDefaultSG associatedVpc h w in
  is_Some (returned r) → teardown_of o endpointVPCDefaultSG associatedVpc (trace r).
Proof.
  intros r. subst r. unfold endpointvpc.Run_body. run.
  set (r1 := endpointvpc.Run_delete_peering o associatedVpc h w) in *.
  destruct (returned r1) as [[associatedVpcCIDR endpointVpcCIDR]|] eqn:Hr1; [|by intros [? ?]].
  destruct (Run_delete_peering_done o associatedVpc associatedVpcCIDR endpointVpcCIDR h w Hr1)
    as (c & peering & Hc & Hcalls1 & Hpeering).
  fold r1 in Hcalls1.
  assert (Ho1 : outcome r1 = Returned (associatedVpcCIDR, endpointVpcCIDR)).
  { unfold returned in Hr1. destruct (outcome r1); by simplify_eq. }
  rewrite Ho1. simpl. run.
  assert (H2 := Run_update_route_tables_done o associatedVpc associatedVpcCIDR
                  endpointVpcCIDR h (world r1)). simpl in H2.
  set (r2 := endpointvpc.Run_update_route_tables o associatedVpc associatedVpcCIDR
               endpointVpcCIDR h (world r1)) in *.
  destruct (returned r2) as [[]|] eqn:Hr2; [|by intros [? ?]].
  destruct H2 as (routes1 & routes2 & Hcalls2 & Hd1 & Hg1 & Hd2 & Hg2); [by eexists|].
  assert (Ho2 : outcome r2 = Returned tt).
  { unfold returned in Hr2. destruct (outcome r2) as [[]| |]; by simplify_eq. }
  rewrite Ho2. simpl.
  assert (H3 := Run_revoke_ingress_done o endpointVPCDefaultSG associatedVpc
                  associatedVpcCIDR endpointVpcCIDR h (world r2)). simpl in H3.
  set (r3 := endpointvpc.Run_revoke_ingress o endpointVPCDefaultSG associatedVpc
               associatedVpcCIDR endpointVpcCIDR h (world r2)) in *.
  intros Hr3. destruct (H3 Hr3) as (workerSG & revoked1 & revoked2 & Hcalls3 & Hn1 & Hn2).
  exists c, associatedVpcCIDR, endpointVpcCIDR, peering, routes1, routes2,
    workerSG, revoked1, revoked2.
  split_and!; try done.
  rewrite !calls_app, Hcalls1, Hcalls2, Hcalls3. by rewrite <- !app_assoc.
Qed.

Lemma Run_body_teardown {W} (o : endpointvpc.endpointVPCRemoveOptions)
    (endpointVPCDefaultSG : string) (associatedVpc : AWSAssociatedVPC)
    (h : Handler cloudE W) (w : W) :
  let r := endpointvpc.Run_body o endpointVPCDefaultSG associatedVpc h w in
  writes (trace r) = 0
  ∧ (is_Some (returned r) → teardown_of o endpointVPCDefaultSG associatedVpc (trace r)).
Proof.
  intros r. split; [|apply Run_body_done].
  subst r. unfold endpointvpc.Run_body. run.
  destruct (Run_delete_peering_phase o associatedVpc h w) as [Hp1 _].
  set (r1 := endpointvpc.Run_delete_peering o associatedVpc h w) in *.
  assert (Hw1 : writes (trace r1) = 0) by (by apply (writes_phase PeeringDeleted)).
  destruct (outcome r1) as [[associatedVpcCIDR endpointVpcCIDR]| |]; simpl;
    try (by rewrite app_nil_r).
  run.
  destruct (Run_update_route_tables_phase o associatedVpc associatedVpcCIDR
              endpointVpcCIDR h (world r1)) as [Hp2 _].
  set (r2 := endpointvpc.Run_update_route_tables o associatedVpc associatedVpcCIDR
               endpointVpcCIDR h (world r1)) in *.
  assert (Hw2 : writes (trace r2) = 0) by (by apply (writes_phase RouteDeleted)).
  destruct (outcome r2) as [[]| |]; simpl;
    try (by rewrite app_nil_r, writes_app, Hw1, Hw2).
  destruct (Run_revoke_ingress_phase o endpointVPCDefaultSG associatedVpc
              associatedVpcCIDR endpointVpcCIDR h (world r2)) as [Hp3 _].
  by rewrite !writes_app, Hw1, Hw2, (writes_phase IngressRevoked).
Qed.

Lemma Run_loop_teardown {W} (o : endpointvpc.endpointVPCRemoveOptions)
    (endpointVPCDefaultSG : string) (vpcs : list AWSAssociatedVPC)
    (h : Handler cloudE W) (w : W) :
  let r := for_each vpcs (endpointvpc.Run_body o endpointVPCDefaultSG) h w in
  writes (trace r) = 0
  ∧ (is_Some (returned r) →
       ∃ segs, trace r = concat segs
               ∧ Forall2 (teardown_of o endpointVPCDefaultSG) vpcs segs).
Proof.
  revert w. induction vpcs as [|associatedVpc vpcs IH]; intros w; simpl.
  - split; [done|]. intros _. by exists [].
  - run.
    destruct (Run_body_teardown o endpointVPCDefaultSG associatedVpc h w) as [Hw1 Ht1].
    set (r1 := endpointvpc.Run_body o endpointVPCDefaultSG associatedVpc h w) in *.
    unfold returned in Ht1 |- *.
    destruct (outcome r1) as [[]| |]; simpl;
      try (rewrite app_nil_r; split; [done | by intros [? ?]]).
    destruct (IH (world r1)) as [Hw2 Ht2].
    rewrite writes_app, Hw1, Hw2. split; [done|].
    intros Hr. destruct (Ht2 Hr) as (segs & -> & Hsegs).
    exists (trace r1 :: segs). split; [done|]. constructor; eauto.
Qed.

Lemma removeEndpointVpcFromHiveConfig_write {W} (o : endpointvpc.endpointVPCRemoveOptions)
    (h : Handler cloudE W) (w : W) :
  let r := endpointvpc.removeEndpointVpcFromHiveConfig o h w in
  (writes (trace r) = 0 ∧ returned r = None)
  ∨ (∃ inventory' written logs,
       trace r
       = [ Logged InfoLevel None
             ("Removing endpoint VPC " +:+ endpointvpc.endpointVpcId o +:+ " from HiveConfig");
           Called (client_Update (endpointvpc.dynamicClient o)
                     (with_inventory (endpointvpc.hiveConfig o) inventory')) written ]
         ++ logs
       ∧ endpoint_vpc_removed o inventory'
       ∧ Forall (λ e, is_log e = true) logs
       ∧ (is_Some (returned r) ↔ written = None)
       ∧ (written = None → logs = [])).
Proof.
  unfold endpointvpc.removeEndpointVpcFromHiveConfig. run.
  destruct (AWSPrivateLink (endpointvpc.hiveConfig o)) as [privateLink|] eqn:Hpl; run;
    [|by left].
  set (inventory := EndpointVPCInventory privateLink).
  destruct (index inventory (Z.of_nat (length inventory) - 1)) as [lastVpc|] eqn:Hlast;
    run; [|by left].
  destruct (index inventory (endpointvpc.endpointVpcIdx o)) as [endpointVpc|] eqn:Hidx;
    run; [|by left].
  right.
  apply index_Some in Hlast as [_ Hlast]. apply index_Some in Hidx as [Hnonneg Hidx].
  replace (Z.to_nat (Z.of_nat (length inventory) - 1)) with (length inventory - 1)
    in Hlast by lia.
  rewrite length_insert.
  exists (take (length inventory - 1)
            (<[Z.to_nat (endpointvpc.endpointVpcIdx o) := lastVpc]> inventory)).
  unfold with_inventory. rewrite Hpl. simpl.
  destruct (h _ _ w) as [[err|] w1]; run.
  - eexists (Some err), [_].
    split_and!; [done | | repeat constructor | split; [by intros [? ?] | done] | done].
    exists privateLink, endpointVpc. split_and!; [done | by apply index_Some |].
    by apply swap_remove_perm.
  - exists None, [].
    split_and!; [done | | done | done | done].
    exists privateLink, endpointVpc. split_and!; [done | by apply index_Some |].
    by apply swap_remove_perm.
Qed.

Lemma writes_logs (t : list (Entry cloudE)) : Forall (λ e, is_log e = true) t → writes t = 0.
Proof.
  intros H. apply (writes_phase PeeringDeleted); [done|].
  eapply Forall_impl; [exact H|]. intros [R c r|lvl err msg]; simpl; [done | by left].
Qed.

Lemma Run_sequence {W} (o : endpointvpc.endpointVPCRemoveOptions) (args : list string)
    (h : Handler cloudE W) (w : W) :
  let r := endpointvpc.Run o args h w in
  (writes (trace r) = 0 ∧ returned r = None)
  ∨ (∃ endpointVPCDefaultSG setup segs inventory' written logs,
       trace r
       = setup ++ concat segs
         ++ [ Logged InfoLevel None
                ("Removing endpoint VPC " +:+ endpointvpc.endpointVpcId o +:+ " from HiveConfig");
              Called (client_Update (endpointvpc.dynamicClient o)
                        (with_inventory (endpointvpc.hiveConfig o) inventory')) written ]
         ++ logs
       ∧ calls setup
         = [ Called (awsutils_GetDefaultSGOfVpc (endpointvpc.endpointVpcClients o)
                       (endpointvpc.endpointVpcId o)) (endpointVPCDefaultSG, None) ]
       ∧ mutations setup = []
       ∧ Forall2 (teardown_of o endpointVPCDefaultSG) (endpointvpc.associatedVpcs o) segs
       ∧ endpoint_vpc_removed o inventory'
       ∧ Forall (λ e, is_log e = true) logs
       ∧ (is_Some (returned r) ↔ written = None)
       ∧ (written = None → logs = [])
       ∧ writes (trace r) = 1).
Proof.
  unfold endpointvpc.Run. run.
  destruct (h _ _ w) as [[endpointVPCDefaultSG [err|]] w1]; run; [by left|].
  destruct (Run_loop_teardown o endpointVPCDefaultSG (endpointvpc.associatedVpcs o) h w1)
    as [Hw1 Ht1].
  set (r1 := for_each (endpointvpc.associatedVpcs o)
               (endpointvpc.Run_body o endpointVPCDefaultSG) h w1) in *.
  unfold returned in Ht1 |- *.
  destruct (outcome r1) as [[]| |]; run;
    try (left; split; [|done]; change (?x :: ?y :: ?t) with ([x; y] ++ t);
         rewrite ?app_nil_r; by rewrite writes_app, Hw1).
  destruct Ht1 as (segs & Hsegs & Hall); [by eexists|].
  destruct (removeEndpointVpcFromHiveConfig_write o h (world r1))
    as [[Hw2 Hr2]|(inventory' & written & logs & Ht2 & Hrem & Hlogs & Hret & Hnil)];
    set (r2 := endpointvpc.removeEndpointVpcFromHiveConfig o h (world r1)) in *.
  - left. unfold returned in Hr2.
    destruct (outcome r2); try done; run;
      (split; [|done]); change (?x :: ?y :: ?t) with ([x; y] ++ t);
      rewrite ?app_nil_r; by rewrite !writes_app, Hw1, Hw2.
  - right.
    exists endpointVPCDefaultSG,
           [ Called (awsutils_GetDefaultSGOfVpc (endpointvpc.endpointVpcClients o)
                       (endpointvpc.endpointVpcId o)) (endpointVPCDefaultSG, None);
             Logged DebugLevel None
               ("Found default SG " +:+ endpointVPCDefaultSG +:+ " of the endpoint VPC") ],
           segs, inventory', written, logs.
    assert (Htrace : ∀ t, trace r1 ++ trace r2 ++ t
                          = concat segs
                            ++ [ Logged InfoLevel None
                                   ("Removing endpoint VPC " +:+ endpointvpc.endpointVpcId o
                                    +:+ " from HiveConfig");
                                 Called (client_Update (endpointvpc.dynamicClient o)
                                           (with_inventory (endpointvpc.hiveConfig o) inventory'))
                                        written ]
                            ++ logs ++ t).
    { intros t. rewrite Hsegs, Ht2. by rewrite <- !app_assoc. }
    assert (Hwrites : ∀ t, t = [] →
              writes (Called (awsutils_GetDefaultSGOfVpc (endpointvpc.endpointVpcClients o)
                                (endpointvpc.endpointVpcId o)) (endpointVPCDefaultSG, None)
                      :: Logged DebugLevel None
                           ("Found default SG " +:+ endpointVPCDefaultSG
                            +:+ " of the endpoint VPC")
                      :: trace r1 ++ trace r2 ++ t) = 1).
    { intros t ->. change (?x :: ?y :: ?t) with ([x; y] ++ t).
      rewrite !writes_app, Hw1, Ht2, writes_app, (writes_logs logs) by done. done. }
    unfold returned in Hret.
    destruct (outcome r2) as [o'| |]; run; rewrite ?Hwrites by done; rewrite Htrace;
      rewrite ?app_nil_r; (split_and!; [done | done | done | done | done | done | | done | done]).
    + split; [intros _; by apply Hret | by eexists].
    + split; [by intros [? ?] | intros Hn; by apply Hret in Hn as [? ?]].
    + split; [by intros [? ?] | intros Hn; by apply Hret in Hn as [? ?]].
Qed.

Lemma Complete_setup {W} (FindVpcInInventory : string → list AWSPrivateLinkInventory → Z * bool)
    (args : list string) (h : Handler cloudE W) (w : W) :
  let r := endpointvpc.Complete FindVpcInInventory args h w in
  mutations (trace r) = []
  ∧ (∀ o failed, returned r = Some (o, failed) →
       failed = None
       ∧ args !! 0%nat = Some (endpointvpc.endpointVpcId o)
       ∧ ∃ privateLink,
           AWSPrivateLink (endpointvpc.hiveConfig o) = Some privateLink
           ∧ FindVpcInInventory (endpointvpc.endpointVpcId o) (EndpointVPCInventory privateLink)
             = (endpointvpc.endpointVpcIdx o, true)
           ∧ endpointvpc.associatedVpcs o = AssociatedVPCs privateLink).
Proof.
  unfold endpointvpc.Complete.
  destruct (args !! 0%nat) as [endpointVpcId|] eqn:Hargs; run; [|done].
  destruct (h _ _ w) as [[dynamicClient [err|]] w1]; run; [done|].
  destruct (h _ _ w1) as [[hiveConfig [err|]] w2]; run; [done|].
  destruct (AWSPrivateLink hiveConfig) as [privateLink|] eqn:Hpl; run; [|done].
  destruct (bool_decide (length (AssociatedVPCs privateLink) = 0)); run;
    (destruct (FindVpcInInventory endpointVpcId (EndpointVPCInventory privateLink))
       as [endpointVpcIdx [|]] eqn:Hfind; run; [|done]);
    (destruct (index (EndpointVPCInventory privateLink) endpointVpcIdx)
       as [endpointVpc|] eqn:Hidx; run; [|done]);
    (destruct (h _ _ w2) as [[awsClientsByRegion [err|]] w3]; run; [done|]);
    (split; [done|]); intros o failed [= <- <-]; simpl; rewrite Hpl; eauto 10.
Qed.

(** C1 (as amended). Every run of the remove command is of one of two
    kinds.  Either it is cut short (by a fatal error or a panic) before the
    write-back; then nothing is written back.  Or [Complete] found the
    endpoint VPC and the trace is: a setup that changes nothing and whose
    last call reads the default security group of the endpoint VPC; then,
    for each associated VPC in order, its completed teardown
    ([teardown_of]): the peering connection between that VPC and the
    endpoint VPC is looked up and deleted through the client of the
    associated VPC's region, then the route to the endpoint VPC's CIDR block
    is deleted from the private route tables of the associated VPC and the
    route to the associated VPC's CIDR block from the route tables of the
    endpoint subnets, then the ingress between the worker security group of
    the associated VPC and the default security group of the endpoint VPC
    is revoked in both directions; and only then, once, the write-back of
    the configuration without the endpoint VPC's entry, after which nothing
    is called any more.  A run that returns is of the second kind, so it
    writes the configuration back exactly once. *)
Theorem remove_teardown_sequence {W}
    (FindVpcInInventory : string → list AWSPrivateLinkInventory → Z * bool)
    (args : list string) (h : Handler cloudE W) (w : W) :
  let r := endpointvpc.NewEndpointVPCRemoveCommand_Run FindVpcInInventory args h w in
  (writes (trace r) = 0 ∧ returned r = None)
  ∨ (∃ o endpointVPCDefaultSG setup segs inventory' written logs,
       returned (endpointvpc.Complete FindVpcInInventory args h w) = Some (o, None)
       ∧ trace r
         = setup ++ concat segs
           ++ [ Logged InfoLevel None
                  ("Removing endpoint VPC " +:+ endpointvpc.endpointVpcId o
                   +:+ " from HiveConfig");
                Called (client_Update (endpointvpc.dynamicClient o)
                          (with_inventory (endpointvpc.hiveConfig o) inventory')) written ]
           ++ logs
       ∧ calls setup
         = calls (trace (endpointvpc.Complete FindVpcInInventory args h w))
           ++ [ Called (awsutils_GetDefaultSGOfVpc (endpointvpc.endpointVpcClients o)
                          (endpointvpc.endpointVpcId o)) (endpointVPCDefaultSG, None) ]
       ∧ mutations setup = []
       ∧ Forall2 (teardown_of o endpointVPCDefaultSG) (endpointvpc.associatedVpcs o) segs
       ∧ endpoint_vpc_removed o inventory'
       ∧ Forall (λ e, is_log e = true) logs
       ∧ (returned r = Some tt ↔ written = None)
       ∧ (written = None → logs = [])
       ∧ writes (trace r) = 1).
Proof.
  unfold endpointvpc.NewEndpointVPCRemoveCommand_Run. run.
  destruct (Complete_setup FindVpcInInventory args h w) as [Hm Hret].
  set (r0 := endpointvpc.Complete FindVpcInInventory args h w) in *.
  assert (Hw0 : writes (trace r0) = 0) by (by apply writes_mutations_nil).
  unfold returned in Hret |- *.
  destruct (outcome r0) as [[o failed]| |]; run;
    try (left; by rewrite app_nil_r).
  destruct (Hret o failed eq_refl) as [-> _]. unfold endpointvpc.Validate. run.
  destruct (Run_sequence o args h (world r0))
    as [[Hw1 Hr1]|(endpointVPCDefaultSG & setup & segs & inventory' & written & logs
                   & Ht & Hsetup & Hs & Hsegs & Hrem & Hlogs & Hiff & Hnil & Hw1)];
    set (r1 := endpointvpc.Run o args h (world r0)) in *.
  - left. unfold returned in Hr1.
    destruct (outcome r1) as [failed| |]; try done; run;
      by rewrite ?app_nil_r, writes_app, Hw0, Hw1.
  - right.
    exists o, endpointVPCDefaultSG, (trace r0 ++ setup), segs, inventory', written, logs.
    assert (Htrace : ∀ t, t = [] →
              trace r0 ++ trace r1 ++ t
              = (trace r0 ++ setup) ++ concat segs
                ++ [ Logged InfoLevel None
                       ("Removing endpoint VPC " +:+ endpointvpc.endpointVpcId o
                        +:+ " from HiveConfig");
                     Called (client_Update (endpointvpc.dynamicClient o)
                               (with_inventory (endpointvpc.hiveConfig o) inventory')) written ]
                ++ logs).
    { intros t ->. rewrite Ht, app_nil_r. by rewrite <- !app_assoc. }
    assert (Hwrites : ∀ t, t = [] → writes (trace r0 ++ trace r1 ++ t) = 1).
    { intros t ->. by rewrite app_nil_r, writes_app, Hw0, Hw1. }
    unfold returned in Hiff.
    destruct (outcome r1) as [[failed|]| |]; run;
      rewrite Hwrites, Htrace by done;
      (split_and!; [done | done | by rewrite calls_app, Hsetup
                    | by rewrite mutations_app, Hm, Hs | done | done | done
                    | | done | done]).
    + split; [intros _; apply Hiff; by eexists | done].
    + split; [intros _; apply Hiff; by eexists | done].
    + split; [done | intros Hn; by apply Hiff in Hn as [? ?]].
    + split; [done | intros Hn; by apply Hiff in Hn as [? ?]].
Qed.

(** Against C1 as stated: the endpoint VPC is found, its default security
    group cannot be read, the command exits with code 1 and the
    configuration is never written back. *)
Lemma remove_cut_short_writes_nothing :
  let r := endpointvpc.NewEndpointVPCRemoveCommand_Run examples.FindVpcInInventory ["vpc-e1"]
             (examples.cloud examples.no_default_sg) tt in
  examples.FindVpcInInventory "vpc-e1" (EndpointVPCInventory examples.privateLink) = (0%Z, true)
  ∧ returned (endpointvpc.Complete examples.FindVpcInInventory ["vpc-e1"]
                (examples.cloud examples.no_default_sg) tt)
    = Some (examples.remove_vpc_e1, None)
  ∧ outcome r = Exited 1
  ∧ writes (trace r) = 0.
Proof. vm_compute. done. Qed.

Example remove_vpc_e1_healthy :
  let r := endpointvpc.NewEndpointVPCRemoveCommand_Run examples.FindVpcInInventory ["vpc-e1"]
             (examples.cloud examples.healthy) tt in
  outcome r = Returned tt
  ∧ mutations (trace r)
    = [ PeeringDeleted; RouteDeleted; RouteDeleted; RouteDeleted;
        RouteDeleted; RouteDeleted; RouteDeleted; IngressRevoked; IngressRevoked;
        PeeringDeleted; RouteDeleted; RouteDeleted; RouteDeleted;
        RouteDeleted; RouteDeleted; RouteDeleted; IngressRevoked; IngressRevoked;
        ConfigWritten ].
Proof. vm_compute. done. Qed.

(** ** Failing fast *)

Section failing_fast.
Context {E : Type → Type} {W : Type}.
Variable call_err : ∀ R, E R → R → option error.
Variable tolerated : Tolerance E.


Lemma same_level_eq a b : same_level a b = true → a = b.
Proof. by destruct a, b. Qed.

Lemma judge_app_clean (t1 t2 : list (Entry E)) :
  (judge call_err tolerated) t1 = Clean → (judge call_err tolerated) (t1 ++ t2) = (judge call_err tolerated) t2.
Proof.
  induction t1 as [|e t1 IH]; [done|]. simpl.
  destruct e as [R c r|lvl oe msg].
  - destruct (call_err R c r) as [err|]; [|done].
    destruct (tolerated R c err) as [lvl|].
    + destruct t1 as [|[R' c' r'|lvl' oe' msg'] t1]; try done. simpl in *.
      destruct (same_level lvl' lvl && negb (is_fatal lvl)); [|done].
      exact IH.
    + by destruct t1 as [|[?|[] ? ?] [|? ?]].
  - destruct (is_fatal lvl); [by destruct t1|]. exact IH.
Qed.

Lemma judge_pending_fatal (t : list (Entry E)) oe msg :
  (judge call_err tolerated) t = Pending → (judge call_err tolerated) (t ++ [Logged FatalLevel oe msg]) = Ended.
Proof.
  induction t as [|e t IH]; [done|]. simpl.
  destruct e as [R c r|lvl oe' msg'].
  - destruct (call_err R c r) as [err|]; [|done].
    destruct (tolerated R c err) as [lvl|].
    + destruct t as [|[R' c' r'|lvl' oe' msg'] t]; try done. simpl in *.
      destruct (same_level lvl' lvl && negb (is_fatal lvl)); [|done].
      exact IH.
    + by destruct t as [|[?|[] ? ?] [|? ?]].
  - destruct (is_fatal lvl); [by destruct t|]. exact IH.
Qed.

(** Where the verdict is not [Bad], every failed call is either passed
    over and logged next, or the last call. *)
Lemma judge_fail_fast (t pre post : list (Entry E)) R (c : E R) (resp : R) err :
  t = pre ++ Called c resp :: post →
  call_err R c resp = Some err →
  (judge call_err tolerated) t ≠ Bad →
  match tolerated R c err with
  | Some lvl =>
      (∃ oe msg post', post = Logged lvl oe msg :: post')
      ∨ ((judge call_err tolerated) t = Unlogged ∧ post = [])
  | None =>
      ((judge call_err tolerated) t = Ended ∧ ∃ oe msg, post = [Logged FatalLevel oe msg])
      ∨ ((judge call_err tolerated) t = Pending ∧ post = [])
  end.
Proof.
  intros -> Herr. induction pre as [|e pre IH]; simpl.
  - rewrite Herr. destruct (tolerated R c err) as [lvl|].
    + destruct post as [|[R' c' r'|lvl' oe' msg'] post]; try done; [by right|].
      destruct (same_level lvl' lvl) eqn:Hl; [|done].
      apply same_level_eq in Hl as ->. left. eauto.
    + destruct post as [|[R' c' r'|[] oe' msg'] [|? ?]]; try done; eauto 10.
  - destruct e as [R' c' r'|lvl' oe' msg'].
    + destruct (call_err R' c' r') as [err'|]; [|done].
      destruct (tolerated R' c' err') as [lvl'|].
      * destruct pre as [|[R'' c'' r''|lvl'' oe'' msg''] pre]; try done. simpl in *.
        destruct (same_level lvl'' lvl' && negb (is_fatal lvl')); [|done]. exact IH.
      * by destruct pre as [|[?|[] ? ?] [|? ?]].
    + destruct (is_fatal lvl'); [by destruct pre|]. exact IH.
Qed.

Lemma settled_fail_fast {A} (r : Outcome A * W * list (Entry E)) :
  (settled call_err tolerated) (λ _, false) r → fail_fast call_err tolerated r.
Proof.
  intros Hs pre R c resp err post Ht Herr.
  assert (Hj := judge_fail_fast (trace r) pre post R c resp err Ht Herr).
  unfold settled in Hs.
  destruct (tolerated R c err) as [lvl|].
  - destruct Hj as [?|[Hj ?]].
    + intros Hbad. rewrite Hbad in Hs. by destruct (outcome r).
    + by left.
    + right. rewrite Hj in Hs. by destruct (outcome r).
  - destruct Hj as [[Hj ?]|[Hj ?]].
    + intros Hbad. rewrite Hbad in Hs. by destruct (outcome r).
    + left. rewrite Hj in Hs. destruct (outcome r); try done. by subst.
    + right. rewrite Hj in Hs. by destruct (outcome r).
Qed.

(** Sequencing: after a clean return the rest decides; after a returned
    failure the rest may only log it fatally or return a failure. *)
Lemma settled_bind {A B} (f1 : A → bool) (f2 : B → bool)
    (m : M E W A) (k : A → M E W B) (h : Handler E W) (w : W) :
  (settled call_err tolerated) f1 (m h w) →
  (∀ a, f1 a = false → (settled call_err tolerated) f2 (k a h (world (m h w)))) →
  (∀ a, f1 a = true →
     (∃ oe msg, k a = fatal oe msg) ∨ (∃ b, k a = ret b ∧ f2 b = true)) →
  (settled call_err tolerated) f2 (bind m k h w).
Proof.
  unfold settled. rewrite outcome_bind, trace_bind.
  intros Hm Hk Hf.
  destruct (outcome (m h w)) as [a| |] eqn:Ho; simpl.
  - destruct ((judge call_err tolerated) (trace (m h w))) eqn:Hj; try done.
    + rewrite judge_app_clean by done.
      destruct (f1 a) eqn:Hfa; [|by apply Hk].
      by destruct (Hf a Hfa) as [(oe & msg & ->)|(b & -> & Hb)].
    + destruct (Hf a Hm) as [(oe & msg & ->)|(b & -> & Hb)]; simpl.
      * by rewrite judge_pending_fatal.
      * by rewrite app_nil_r, Hj.
  - by rewrite app_nil_r.
  - by rewrite app_nil_r.
Qed.

Lemma settled_ret {A} (f : A → bool) (a : A) (h : Handler E W) (w : W) :
  (settled call_err tolerated) f (ret a h w).
Proof. done. Qed.

Lemma settled_log (f : unit → bool) lvl oe msg (h : Handler E W) (w : W) :
  is_fatal lvl = false → (settled call_err tolerated) f (log lvl oe msg h w).
Proof. unfold settled. simpl. by intros ->. Qed.

(** A call whose errors are passed over, when the rest starts by logging
    them at the level of the tolerance. *)
Lemma settled_call_logged {R B} (f : B → bool) (c : E R) (k : R → M E W B)
    (h : Handler E W) (w : W) :
  (∀ r w1, (settled call_err tolerated) f (k r h w1)) →
  (∀ r err w1, call_err R c r = Some err →
     ∃ lvl oe msg t,
       tolerated R c err = Some lvl ∧ is_fatal lvl = false
       ∧ trace (k r h w1) = Logged lvl oe msg :: t) →
  (settled call_err tolerated) f (bind (call c) k h w).
Proof.
  intros Hk Hlog. unfold settled. rewrite outcome_bind, trace_bind, outcome_call.
  rewrite trace_call, world_call. simpl.
  specialize (Hk (h R c w).1 (h R c w).2). unfold settled in Hk.
  destruct (call_err R c (h R c w).1) as [err|] eqn:He; [|done].
  destruct (Hlog _ _ (h R c w).2 He) as (lvl & oe & msg & t & -> & Hlvl & Ht).
  rewrite Ht in Hk |- *. rewrite Hlvl.
  by destruct lvl.
Qed.

Lemma settled_fatal {A} (f : A → bool) oe msg (h : Handler E W) (w : W) :
  (settled call_err tolerated) f (fatal oe msg h w).
Proof. done. Qed.

Lemma settled_panic {A} (f : A → bool) (h : Handler E W) (w : W) :
  (settled call_err tolerated) f (panic h w).
Proof. done. Qed.

(** A call none of whose errors is passed over. *)
Lemma settled_call {R} (c : E R) (h : Handler E W) (w : W) :
  (∀ err, tolerated R c err = None) →
  (settled call_err tolerated) (λ r, erred (call_err R c r)) (call c h w).
Proof.
  intros Hc. unfold settled. rewrite outcome_call, trace_call. simpl.
  destruct (call_err R c (h R c w).1) as [err|] eqn:He; [|done].
  by rewrite Hc.
Qed.

Lemma bind_ret_l {A B} (a : A) (k : A → M E W B) (h : Handler E W) (w : W) :
  bind (ret a) k h w = k a h w.
Proof. unfold bind, ret. by destruct (k a h w) as [[o w2] t2]. Qed.

Lemma bind_panic_l {A B} (k : A → M E W B) (h : Handler E W) (w : W) :
  bind panic k h w = panic h w.
Proof. done. Qed.

Lemma bind_fatal_l {A B} oe msg (k : A → M E W B) (h : Handler E W) (w : W) :
  bind (fatal oe msg) k h w = fatal oe msg h w.
Proof. done. Qed.

Lemma settled_for_each {A} (body : A → M E W unit) (l : list A)
    (h : Handler E W) (w : W) :
  (∀ x h w, (settled call_err tolerated) (λ _, false) (body x h w)) →
  (settled call_err tolerated) (λ _, false) (for_each l body h w).
Proof.
  intros Hbody. revert w. induction l as [|x l IH]; intros w; simpl; [done|].
  apply (settled_bind (λ _, false)); [apply Hbody | intros; apply IH | done].
Qed.
End failing_fast.

(** One step of a settled script: a log line, or a call none of whose
    errors is passed over, followed by the rest. *)
Ltac split_response resp :=
  lazymatch type of resp with
  | unit => destruct resp
  | option _ => destruct resp as [?|]
  | (_ * option _)%type => destruct resp as [? [?|]]
  end.

Ltac settle_call :=
  lazymatch goal with
  | |- settled ?ce ?tol _ (bind (call ?c) _ _ _) =>
      apply (settled_bind ce tol (λ r, erred (ce _ c r)));
      [ by apply settled_call
      | let resp := fresh "resp" in let H := fresh "H" in
        intros resp H; split_response resp;
        simpl in H; try discriminate H; clear H
      | let resp := fresh "resp" in let H := fresh "H" in
        intros resp H; split_response resp;
        simpl in H; try discriminate H; clear H;
        first [ left; by eexists _, _ | right; by eexists ] ]
  end.

Ltac settle_log :=
  lazymatch goal with
  | |- settled ?ce ?tol _ (bind (log _ _ _) _ _ _) =>
      apply (settled_bind ce tol (λ _, false));
      [ by apply settled_log | intros [] _ | done ]
  end.

Ltac settle :=
  repeat first
    [ rewrite bind_ret_l
    | rewrite bind_panic_l
    | rewrite bind_fatal_l
    | apply settled_ret
    | apply settled_fatal
    | apply settled_panic
    | by apply settled_log
    | settle_log
    | settle_call ].

(** *** The remove command fails fast *)

Lemma deleteVpcPeeringConnection_settled {W} (awsClients : option awsclient_Client)
    (VpcId1 VpcId2 : string) (h : Handler cloudE W) (w : W) :
  settled (@call_error) not_found_only erred
    (endpointvpc.deleteVpcPeeringConnection awsClients VpcId1 VpcId2 h w).
Proof.
  unfold endpointvpc.deleteVpcPeeringConnection, on_client, deref.
  settle. destruct awsClients as [c|]; settle.
  match goal with
  | |- settled ?ce ?tol _ (bind (call ?c) _ _ _) =>
      apply (settled_bind ce tol (λ r, erred (ce _ c r))); [by apply settled_call | |]
  end.
  - intros [[|connection connections] [err|]] H; try discriminate H; clear H; settle.
    destruct (VpcPeeringConnectionId connection); settle.
  - intros [[|connection connections] [err|]] H; try discriminate H; right; by eexists.
Qed.

Lemma deleteRoute_from_table_settled {W} (c : awsclient_Client) (cidr : string)
    (rt : RouteTable) (h : Handler cloudE W) (w : W) :
  settled (@call_error) not_found_only (λ _, false)
    (endpointvpc.deleteRoute_from_table c cidr rt h w).
Proof.
  unfold endpointvpc.deleteRoute_from_table, deref, settled. run.
  destruct (h _ _ w) as [[err|] w1]; simpl;
    [destruct (aws_code_is err _) eqn:Hcode|]; destruct (RouteTableId rt); run;
    rewrite ?Hcode; done.
Qed.

Lemma deleteRoute_callback_settled {W} (c : awsclient_Client) (cidr : string)
    (page : DescribeRouteTablesOutput) (lastPage : bool) (h : Handler cloudE W) (w : W) :
  settled (@call_error) not_found_only (λ _, false)
    (endpointvpc.deleteRoute_callback c cidr page lastPage h w).
Proof.
  unfold endpointvpc.deleteRoute_callback.
  apply (settled_bind _ _ (λ _, false)); [|intros [] _; settle | done].
  apply settled_for_each. intros. apply deleteRoute_from_table_settled.
Qed.

Lemma paginate_settled {W} (c : awsclient_Client) (cidr : string) (filters : list Filter)
    (pages : list (DescribeRouteTablesOutput * bool)) (h : Handler cloudE W) (w : W) :
  settled (@call_error) not_found_only erred
    (endpointvpc.paginate (endpointvpc.deleteRoute_callback c cidr) pages
       (call (DescribeRouteTablesPages_result c filters)) h w).
Proof.
  revert w. induction pages as [|[page lastPage] pages IH]; intros w; simpl.
  - by apply (settled_call (@call_error) not_found_only
                (DescribeRouteTablesPages_result c filters)).
  - apply (settled_bind _ _ (λ _, false));
      [apply deleteRoute_callback_settled | | done].
    intros [|] _; [apply IH | settle].
Qed.

Lemma deleteRouteFromRouteTables_settled {W} (vpcClients : option awsclient_Client)
    (vpcId peerCIDR : string) (additionalFilters : list Filter)
    (h : Handler cloudE W) (w : W) :
  settled (@call_error) not_found_only erred
    (endpointvpc.deleteRouteFromRouteTables vpcClients vpcId peerCIDR additionalFilters h w).
Proof.
  unfold endpointvpc.deleteRouteFromRouteTables, on_client.
  destruct vpcClients as [c|]; [|apply settled_panic].
  apply (settled_bind _ _ (λ _, false)); [| intros pages _; apply paginate_settled | done].
  unfold settled. by run.
Qed.

Lemma Run_update_SGs_settled {W} (o : endpointvpc.endpointVPCRemoveOptions)
    (associatedVpcClients : option awsclient_Client)
    (associatedVpcRegion associatedVpcWorkerSG endpointVPCDefaultSG
     associatedVpcCIDR endpointVpcCIDR : string) (h : Handler cloudE W) (w : W) :
  settled (@call_error) not_found_only (λ _, false)
    (endpointvpc.Run_update_SGs o associatedVpcClients associatedVpcRegion
       associatedVpcWorkerSG endpointVPCDefaultSG associatedVpcCIDR endpointVpcCIDR h w).
Proof.
  unfold endpointvpc.Run_update_SGs, endpointvpc.revoke_tolerating_not_found, settled.
  case_bool_decide; run.
  - destruct (h _ _ w) as [[err1|] w1]; run;
      [destruct (aws_code_is err1 _) eqn:H1; run; rewrite ?H1; try done|];
      (destruct (h _ _ w1) as [[err2|] w2]; run;
       [destruct (aws_code_is err2 _) eqn:H2; run; rewrite ?H2|]); done.
  - destruct (h _ _ w) as [[err1|] w1]; run;
      [destruct (aws_code_is err1 _) eqn:H1; run; rewrite ?H1; try done|];
      (destruct (h _ _ w1) as [[err2|] w2]; run;
       [destruct (aws_code_is err2 _) eqn:H2; run; rewrite ?H2|]); done.
Qed.

Lemma Run_body_settled {W} (o : endpointvpc.endpointVPCRemoveOptions)
    (endpointVPCDefaultSG : string) (associatedVpc : AWSAssociatedVPC)
    (h : Handler cloudE W) (w : W) :
  settled (@call_error) not_found_only (λ _, false)
    (endpointvpc.Run_body o endpointVPCDefaultSG associatedVpc h w).
Proof.
  unfold endpointvpc.Run_body.
  apply (settled_bind _ _ (λ _, false)); [| intros [associatedVpcCIDR endpointVpcCIDR] _ | done].
  - unfold endpointvpc.Run_delete_peering. settle.
    apply (settled_bind _ _ erred); [apply deleteVpcPeeringConnection_settled | |].
    + intros [err|] H; [done|]. settle.
    + intros [err|] H; [|done]. left. by eexists _, _.
  - apply (settled_bind _ _ (λ _, false)); [| intros [] _ | done].
    + unfold endpointvpc.Run_update_route_tables. settle.
      apply (settled_bind _ _ erred); [apply deleteRouteFromRouteTables_settled | |].
      * intros [err|] H; [done|]. settle.
        apply (settled_bind _ _ erred); [apply deleteRouteFromRouteTables_settled | |].
        -- intros [err|] H'; [done|]. settle.
        -- intros [err|] H'; [|done]. left. by eexists _, _.
      * intros [err|] H; [|done]. left. by eexists _, _.
    + unfold endpointvpc.Run_revoke_ingress. settle. apply Run_update_SGs_settled.
Qed.

Lemma removeEndpointVpcFromHiveConfig_settled {W} (o : endpointvpc.endpointVPCRemoveOptions)
    (h : Handler cloudE W) (w : W) :
  settled (@call_error) not_found_only (λ _, false)
    (endpointvpc.removeEndpointVpcFromHiveConfig o h w).
Proof.
  unfold endpointvpc.removeEndpointVpcFromHiveConfig. settle.
  destruct (AWSPrivateLink (endpointvpc.hiveConfig o)) as [privateLink|]; settle.
  destruct (index _ _); settle. destruct (index _ _); settle.
Qed.

Lemma Run_settled {W} (o : endpointvpc.endpointVPCRemoveOptions) (args : list string)
    (h : Handler cloudE W) (w : W) :
  settled (@call_error) not_found_only (λ _, false) (endpointvpc.Run o args h w).
Proof.
  unfold endpointvpc.Run. settle.
  apply (settled_bind _ _ (λ _, false)); [| intros [] _ | done].
  - apply settled_for_each. intros. apply Run_body_settled.
  - apply (settled_bind _ _ (λ _, false));
      [apply removeEndpointVpcFromHiveConfig_settled | intros; settle | done].
Qed.

Lemma Complete_settled {W}
    (FindVpcInInventory : string → list AWSPrivateLinkInventory → Z * bool)
    (args : list string) (h : Handler cloudE W) (w : W) :
  settled (@call_error) not_found_only (λ _, false)
    (endpointvpc.Complete FindVpcInInventory args h w).
Proof.
  unfold endpointvpc.Complete.
  destruct (args !! 0%nat) as [endpointVpcId|]; settle.
  destruct (AWSPrivateLink _) as [privateLink|]; settle.
  apply (settled_bind _ _ (λ _, false)); [case_bool_decide; settle | intros [] _ | done].
  destruct (FindVpcInInventory _ _) as [endpointVpcIdx [|]]; settle.
  destruct (index _ _); settle.
Qed.

Lemma remove_command_settled {W}
    (FindVpcInInventory : string → list AWSPrivateLinkInventory → Z * bool)
    (args : list string) (h : Handler cloudE W) (w : W) :
  settled (@call_error) not_found_only (λ _, false)
    (endpointvpc.NewEndpointVPCRemoveCommand_Run FindVpcInInventory args h w).
Proof.
  unfold endpointvpc.NewEndpointVPCRemoveCommand_Run.
  apply (settled_bind _ _ (λ _, false)); [apply Complete_settled | | done].
  intros [opt [err|]] _; settle.
  unfold endpointvpc.Validate.
  apply (settled_bind _ _ (λ _, false)); [settle | | done].
  intros [err|] _; settle.
  apply (settled_bind _ _ (λ _, false)); [apply Run_settled | | done].
  intros [err|] _; settle.
Qed.

(** *** The disable command: failures on Secrets are passed over *)

Lemma disable_Run_settled {W} (GetHiveNamespace : HiveConfig → string)
    (credsName credsLabel : string) (o : awsprivatelink.disableOptions) (args : list string)
    (h : Handler cloudE W) (w : W) :
  settled (@call_error) secrets_also (λ _, false)
    (awsprivatelink.Run GetHiveNamespace credsName credsLabel o args h w).
Proof.
  unfold awsprivatelink.Run. settle.
  apply (settled_bind _ _ (λ _, false));
    [destruct (AWSPrivateLink _); settle | intros [] _ | done].
  apply (settled_bind _ _ (λ _, false));
    [destruct (AWSPrivateLink _); [case_match|]; settle | intros [] _ | done].
  apply settled_call_logged.
  - intros [secrets listErr] w1.
    apply (settled_bind _ _ (λ _, false)); [destruct listErr; settle | intros [] _ | done].
    apply (settled_bind _ _ (λ _, false)); [| intros [] _; settle | done].
    apply settled_for_each. intros secret h' w'.
    apply settled_call_logged.
    + intros [err|] w2; settle.
    + intros [err|] err' w2 [= <-]. eexists _, _, _, _. split_and!; done.
  - intros [secrets [err|]] err' w1 [= <-]. eexists _, _, _, _.
    split_and!; [done | done |]. by run.
Qed.

Lemma disable_command_settled {W} (GetHiveNamespace : HiveConfig → string)
    (credsName credsLabel : string) (args : list string) (h : Handler cloudE W) (w : W) :
  settled (@call_error) secrets_also (λ _, false)
    (awsprivatelink.NewDisableAWSPrivateLinkCommand_Run GetHiveNamespace credsName credsLabel
       args h w).
Proof.
  unfold awsprivatelink.NewDisableAWSPrivateLinkCommand_Run.
  apply (settled_bind _ _ (λ _, false)); [unfold awsprivatelink.Complete; settle | | done].
  intros [opt [err|]] _; settle.
  unfold awsprivatelink.Validate.
  apply (settled_bind _ _ (λ _, false)); [settle | | done].
  intros [err|] _; settle.
  apply (settled_bind _ _ (λ _, false)); [apply disable_Run_settled | | done].
  intros [err|] _; settle.
Qed.

(** *** The PowerVS deprovision command fails fast *)

Lemma deprovision_command_settled {W} (opt : deprovision.powerVSDeprovisionOptions)
    (args : list string) (h : Handler deprovision.cliE W) (w : W) :
  settled (@cli_error) nothing_tolerated (λ _, false)
    (deprovision.NewDeprovisionPowerVSCommand_Run opt args h w).
Proof.
  unfold deprovision.NewDeprovisionPowerVSCommand_Run.
  apply (settled_bind _ _ (λ r, erred r.2)).
  - unfold deprovision.Complete. destruct (args !! 0%nat); settle.
  - intros [o [err|]] H; [done|]. clear H.
    apply (settled_bind _ _ erred).
    + unfold deprovision.Validate. repeat case_bool_decide; settle.
    + intros [err|] H; [done|]. clear H.
      apply (settled_bind _ _ erred).
      * unfold deprovision.Run. settle.
        exact (settled_call (@cli_error) nothing_tolerated (deprovision.destroyer_Run _)
                 h _ (λ _, eq_refl)).
      * intros [err|] H; settle.
      * intros [err|] H; [|done]. left. by eexists _, _.
    + intros [err|] H; [|done]. left. by eexists _, _.
  - intros [o [err|]] H; [|done]. left. by eexists _, _.
Qed.



Example remove_nothing_left :
  let r := endpointvpc.NewEndpointVPCRemoveCommand_Run examples.FindVpcInInventory ["vpc-e1"]
             (examples.cloud examples.nothing_left) tt in
  outcome r = Returned tt
  ∧ mutations (trace r)
    = [ PeeringDeleted; RouteDeleted; RouteDeleted; RouteDeleted;
        RouteDeleted; RouteDeleted; RouteDeleted; IngressRevoked; IngressRevoked;
        PeeringDeleted; RouteDeleted; RouteDeleted; RouteDeleted;
        RouteDeleted; RouteDeleted; RouteDeleted; IngressRevoked; IngressRevoked;
        ConfigWritten ].
Proof. vm_compute. done. Qed.

(** * Further properties *)

(** ** pkg/alibabaclient: endpoints *)

Lemma additionEndpoint_cases (productName regionID : string) :
  match alibabaclient.additionEndpoint productName regionID with
  | (endpoint, true) =>
      productName = "ecs"
      ∧ regionID ∈ ["cn-wulanchabu"; "cn-guangzhou"; "ap-southeast-6"; "cn-heyuan"; "cn-chengdu"]
      ∧ endpoint = "ecs." +:+ regionID +:+ ".aliyuncs.com"
  | (endpoint, false) =>
      endpoint = ""
      ∧ ¬ (productName = "ecs"
           ∧ regionID ∈ ["cn-wulanchabu"; "cn-guangzhou"; "ap-southeast-6";
                         "cn-heyuan"; "cn-chengdu"])
  end.
Proof.
  unfold alibabaclient.additionEndpoint.
  rewrite lookup_singleton. case_decide as Hp; [subst|].
  - rewrite !lookup_insert, lookup_singleton.
    repeat (case_decide;
            [subst; simpl; split_and!;
             [done | repeat first [apply list_elem_of_here | apply list_elem_of_further] | done]|]).
    simpl. split; [done|]. intros [_ Hin].
    repeat (apply elem_of_cons in Hin as [->|Hin]; [done|]).
    by apply elem_of_nil in Hin.
  - split; [done|]. intros [? _]. done.
Qed.

(** X1. The table of additional endpoints answers only for the product
    "ecs" in one of five regions, and then with "ecs.<region>.aliyuncs.com";
    for anything else the answer is the empty string and false. *)
Theorem additionEndpoint_table (productName regionID : string) :
  match alibabaclient.additionEndpoint productName regionID with
  | (endpoint, true) =>
      productName = "ecs"
      ∧ regionID ∈ ["cn-wulanchabu"; "cn-guangzhou"; "ap-southeast-6"; "cn-heyuan"; "cn-chengdu"]
      ∧ endpoint = "ecs." +:+ regionID +:+ ".aliyuncs.com"
  | (endpoint, false) =>
      endpoint = ""
      ∧ ¬ (productName = "ecs"
           ∧ regionID ∈ ["cn-wulanchabu"; "cn-guangzhou"; "ap-southeast-6";
                         "cn-heyuan"; "cn-chengdu"])
  end.
Proof. apply additionEndpoint_cases. Qed.

(** X2. For the product "ecs" in one of the five regions of the table
    (after lower-casing), [getEndpoint] answers "ecs.<region>.aliyuncs.com"
    without asking the SDK's resolver. *)
Theorem getEndpoint_addition_first {W} (strings_ToLower : string → string)
    (client : alibabaclient.Client) (request : alibabaclient.DescribeAvailableResourceRequest)
    (h : Handler alibabaclient.sdkE W) (w : W) :
  strings_ToLower (alibabaclient.Product request) = "ecs" →
  strings_ToLower (alibabaclient.RegionID client)
  ∈ ["cn-wulanchabu"; "cn-guangzhou"; "ap-southeast-6"; "cn-heyuan"; "cn-chengdu"] →
  alibabaclient.getEndpoint strings_ToLower client request h w
  = (Returned ("ecs." +:+ strings_ToLower (alibabaclient.RegionID client) +:+ ".aliyuncs.com"),
     w, []).
Proof.
  intros Hp Hr. unfold alibabaclient.getEndpoint. rewrite Hp.
  repeat (apply elem_of_cons in Hr as [->|Hr]; [done|]).
  by apply elem_of_nil in Hr.
Qed.

Lemma getEndpoint_addition_first_witness :
  alibabaclient.getEndpoint id (more_examples.client_in "cn-heyuan")
    more_examples.ecs_request more_examples.sdk true
  = (Returned "ecs.cn-heyuan.aliyuncs.com", true, []).
Proof.
  apply (getEndpoint_addition_first id (more_examples.client_in "cn-heyuan")
           more_examples.ecs_request more_examples.sdk true).
  - reflexivity.
  - simpl. repeat first [apply list_elem_of_here | apply list_elem_of_further].
Defined.

(** X3. Outside the table, [getEndpoint] asks the resolver exactly once;
    when the resolver fails it falls back on the default endpoint of the
    product (the empty string for a product without default), and otherwise
    it answers what the resolver answered. *)
Theorem getEndpoint_resolver_fallback {W} (strings_ToLower : string → string)
    (client : alibabaclient.Client) (request : alibabaclient.DescribeAvailableResourceRequest)
    (h : Handler alibabaclient.sdkE W) (w : W) :
  let productName := strings_ToLower (alibabaclient.Product request) in
  let regionID := strings_ToLower (alibabaclient.RegionID client) in
  let r := alibabaclient.getEndpoint strings_ToLower client request h w in
  let resolve :=
    alibabaclient.endpoints_Resolve
      {| alibabaclient.LocationProduct := alibabaclient.LocationServiceCode request;
         alibabaclient.rp_LocationEndpointType := alibabaclient.LocationEndpointType request;
         alibabaclient.rp_Product := productName;
         alibabaclient.rp_RegionId := regionID |} in
  let resolved := (h _ resolve w).1 in
  ¬ (productName = "ecs"
     ∧ regionID ∈ ["cn-wulanchabu"; "cn-guangzhou"; "ap-southeast-6"; "cn-heyuan"; "cn-chengdu"]) →
  trace r = [Called resolve resolved]
  ∧ match resolved.2 with
    | None => outcome r = Returned resolved.1
    | Some _ =>
        outcome r
        = Returned (if decide (productName = "pvtz") then "pvtz.aliyuncs.com"
                    else if decide (productName = "resourcemanager")
                         then "resourcemanager.aliyuncs.com"
                    else if decide (productName = "ecs") then "ecs.aliyuncs.com"
                    else "")
    end.
Proof.
  intros productName regionID r resolve resolved Hout. subst r resolved resolve.
  unfold alibabaclient.getEndpoint. fold productName regionID.
  assert (Ht := additionEndpoint_cases productName regionID).
  destruct (alibabaclient.additionEndpoint productName regionID) as [endpoint [|]].
  { destruct Ht as (? & ? & _). tauto. }
  run. destruct (h _ _ w) as [[endpoint' [err|]] w1]; simpl; (split; [done|]); [|done].
  f_equal. unfold alibabaclient.defaultEndpoint.
  rewrite !lookup_insert, lookup_singleton. by repeat case_decide.
Qed.

Lemma getEndpoint_resolver_fallback_witness :
  outcome (alibabaclient.getEndpoint id (more_examples.client_in "eu-central-1")
             more_examples.ecs_request more_examples.sdk false)
  = Returned "ecs.aliyuncs.com".
Proof.
  refine (proj2 (getEndpoint_resolver_fallback id (more_examples.client_in "eu-central-1")
                   more_examples.ecs_request more_examples.sdk false _)).
  simpl. intros [_ Hin].
  repeat (apply elem_of_cons in Hin as [Hin|Hin]; [discriminate Hin|]).
  by apply elem_of_nil in Hin.
Defined.

Lemma getEndpoint_returns {W} (strings_ToLower : string → string)
    (client : alibabaclient.Client) (request : alibabaclient.DescribeAvailableResourceRequest)
    (h : Handler alibabaclient.sdkE W) (w : W) :
  ∃ endpoint, outcome (alibabaclient.getEndpoint strings_ToLower client request h w)
              = Returned endpoint
    ∧ (length (trace (alibabaclient.getEndpoint strings_ToLower client request h w)) ≤ 1)%nat.
Proof.
  unfold alibabaclient.getEndpoint.
  destruct (alibabaclient.additionEndpoint _ _) as [endpoint [|]]; run.
  - eexists. split; [done|]. simpl. lia.
  - destruct (h _ _ w) as [[endpoint' [err|]] w1]; run; eexists; (split; [done|]); simpl; lia.
Qed.

(** X4. [DescribeAvailableZoneByInstanceType] ends with the one [DoAction]
    call: the request is the SDK's fresh request with the client's region
    (as it is spelled in the client), the destination resource
    "InstanceType", the instance type asked for, and as its domain the
    endpoint [getEndpoint] answered for that request; the response handed in
    is empty, and the call's answer is returned as it is.  Before that call
    there is at most the one call of the endpoint resolver. *)
Theorem DescribeAvailableZoneByInstanceType_request {W} (strings_ToLower : string → string)
    (CreateRequest : alibabaclient.DescribeAvailableResourceRequest)
    (client : alibabaclient.Client) (instanceType : string)
    (h : Handler alibabaclient.sdkE W) (w : W) :
  let request domain :=
    {| alibabaclient.Product := alibabaclient.Product CreateRequest;
       alibabaclient.LocationServiceCode := alibabaclient.LocationServiceCode CreateRequest;
       alibabaclient.LocationEndpointType := alibabaclient.LocationEndpointType CreateRequest;
       alibabaclient.req_RegionId := alibabaclient.RegionID client;
       alibabaclient.DestinationResource := "InstanceType";
       alibabaclient.InstanceType := instanceType;
       alibabaclient.Domain := domain |} in
  let resolving :=
    alibabaclient.getEndpoint strings_ToLower client
      (request (alibabaclient.Domain CreateRequest)) h w in
  let r := alibabaclient.DescribeAvailableZoneByInstanceType
             strings_ToLower CreateRequest client instanceType h w in
  ∃ endpoint answer,
    outcome resolving = Returned endpoint
    ∧ (length (trace resolving) ≤ 1)%nat
    ∧ trace r
      = trace resolving
        ++ [ Called (alibabaclient.DoAction (request endpoint)
                       {| alibabaclient.RequestId := ""; alibabaclient.AvailableZones := [] |})
                    answer ]
    ∧ outcome r = Returned answer.
Proof.
  intros request resolving r.
  destruct (getEndpoint_returns strings_ToLower client
              (request (alibabaclient.Domain CreateRequest)) h w) as (endpoint & Ho & Hl).
  fold resolving in Ho, Hl. subst r.
  unfold alibabaclient.DescribeAvailableZoneByInstanceType,
    alibabaclient.doActionWithSetDomain.
  fold (request (alibabaclient.Domain CreateRequest)). run. fold resolving. rewrite Ho. run.
  by eexists _, _.
Qed.

Lemma collect_zones_from_nil (l : list alibabaclient.AvailableZone) (zones : slice string) :
  alibabaclient.collect_zones zones l
  = match available_zone_ids {| alibabaclient.RequestId := "";
                                alibabaclient.AvailableZones := l |} with
    | [] => zones
    | ids => Some (slice_elems zones ++ ids)
    end.
Proof.
  unfold available_zone_ids; simpl.
  revert zones; induction l as [|zone l IH]; intros zones; simpl; [done|].
  rewrite filter_cons.
  destruct (decide (alibabaclient.Status zone = "Available")) as [Hs|Hs];
    destruct (decide (alibabaclient.StatusCategory zone = "WithStock")) as [Hc|Hc];
    rewrite ?(bool_decide_eq_true_2 _ Hs), ?(bool_decide_eq_false_2 _ Hs),
            ?(bool_decide_eq_true_2 _ Hc), ?(bool_decide_eq_false_2 _ Hc); simpl;
    [rewrite decide_True by done | rewrite decide_False by tauto ..]; rewrite IH; try done.
  simpl. change (list_fmap _ _ alibabaclient.ZoneId) with (fmap (M:=list) alibabaclient.ZoneId).
  destruct (alibabaclient.ZoneId <$> _) as [|id ids]; simpl; [done|].
  by rewrite <- app_assoc.
Qed.

(** X5. The slice [GetAvailableZonesByInstanceType] returns is nil exactly
    when the describe call failed or no zone of the response is available
    with stock; it is never an empty slice that is not nil. *)
Theorem GetAvailableZonesByInstanceType_nil_slice {W}
    (strings_ToLower : string → string)
    (CreateRequest : alibabaclient.DescribeAvailableResourceRequest)
    (client : alibabaclient.Client) (instanceType : string)
    (h : Handler alibabaclient.sdkE W) (w : W) :
  ∃ response err zones,
    outcome (alibabaclient.DescribeAvailableZoneByInstanceType
               strings_ToLower CreateRequest client instanceType h w)
    = Returned (response, err)
    ∧ outcome (alibabaclient.GetAvailableZonesByInstanceType
                 strings_ToLower CreateRequest client instanceType h w)
      = Returned (zones, err)
    ∧ (zones = None ↔ is_Some err ∨ available_zone_ids response = [])
    ∧ zones ≠ Some [].
Proof.
  destruct (DescribeAvailableZoneByInstanceType_returns
              strings_ToLower CreateRequest client instanceType h w)
    as ([response err] & w1 & t1 & Hd).
  exists response, err. unfold alibabaclient.GetAvailableZonesByInstanceType. run.
  rewrite Hd. run. destruct err as [e|]; run.
  - eexists. split_and!; try done. split; [by left; eexists | done].
  - rewrite collect_zones_from_nil. destruct response as [rid zs].
    unfold available_zone_ids; simpl.
    destruct (alibabaclient.ZoneId <$> _); eexists; (split_and!; [done | done | | done]).
    + split; [by right | done].
    + split; [done | by intros [[? [=]]|]].
Qed.

(** ** pkg/alibabaclient: building a client from a Secret *)

(** X6. [NewClientFromSecret] returns a nil client exactly when one of the
    two keys is missing from the Secret's data; it then returns an error and
    has not touched the SDK.  Otherwise it initialises the SDK once, with the
    region, the fresh configuration and the two values of the Secret as
    credential, and returns a client (nil or not the result of the
    initialisation, which is returned as the error) that holds the region
    and no credential in its own fields. *)
Theorem NewClientFromSecret_client_nil_iff_key_missing {W}
    (AlibabaCloudAccessKeyIDSecretKey AlibabaCloudAccessKeySecretSecretKey : string)
    (sdk_NewConfig : alibabaclient_secret.Config)
    (secret : alibabaclient_secret.Secret) (regionID : string)
    (h : Handler alibabaclient_secret.initE W) (w : W) :
  let r := alibabaclient_secret.NewClientFromSecret AlibabaCloudAccessKeyIDSecretKey
             AlibabaCloudAccessKeySecretSecretKey sdk_NewConfig secret regionID h w in
  let data := alibabaclient_secret.Data secret in
  ∃ client err,
    outcome r = Returned (client, err)
    ∧ (client = None ↔ data !! AlibabaCloudAccessKeyIDSecretKey = None
                       ∨ data !! AlibabaCloudAccessKeySecretSecretKey = None)
    ∧ (client = None → is_Some err ∧ trace r = [] ∧ world r = w)
    ∧ (∀ c, client = Some c →
         c = {| alibabaclient.RegionID := regionID; alibabaclient.AccessKeyID := "";
                alibabaclient.AccessKeySecret := "" |}
         ∧ ∃ accessKeyID accessKeySecret,
             data !! AlibabaCloudAccessKeyIDSecretKey = Some accessKeyID
             ∧ data !! AlibabaCloudAccessKeySecretSecretKey = Some accessKeySecret
             ∧ trace r
               = [ Called (alibabaclient_secret.InitWithOptions c regionID sdk_NewConfig
                     {| alibabaclient_secret.AccessKeyId :=
                          String.string_of_list_byte accessKeyID;
                        alibabaclient_secret.AccessKeySecret :=
                          String.string_of_list_byte accessKeySecret |}) err ]).
Proof.
  intros r data. subst r.
  unfold alibabaclient_secret.NewClientFromSecret, alibabaclient_secret.newClientWithOptions.
  fold data.
  destruct (data !! AlibabaCloudAccessKeyIDSecretKey) as [accessKeyID|] eqn:Hid;
    [destruct (data !! AlibabaCloudAccessKeySecretSecretKey) as [accessKeySecret|] eqn:Hsecret|];
    run.
  - eexists _, _. split_and!; [done | | done |].
    + split; [done | by intros [|]].
    + intros c [= <-]. split; [done|]. by eexists _, _.
  - eexists _, _. split_and!; [done | | |]; [split; eauto | by eauto | done].
  - eexists _, _. split_and!; [done | | |]; [split; eauto | by eauto | done].
Qed.

(** X7. The key of the access key id is looked up first: when it is
    missing the error names it, whatever else the Secret holds; when only
    the key of the access key secret is missing, the error names that one. *)
Theorem NewClientFromSecret_names_missing_key {W}
    (AlibabaCloudAccessKeyIDSecretKey AlibabaCloudAccessKeySecretSecretKey : string)
    (sdk_NewConfig : alibabaclient_secret.Config)
    (secret : alibabaclient_secret.Secret) (regionID : string)
    (h : Handler alibabaclient_secret.initE W) (w : W) :
  let data := alibabaclient_secret.Data secret in
  let missing :=
    match data !! AlibabaCloudAccessKeyIDSecretKey with
    | Some _ => AlibabaCloudAccessKeySecretSecretKey
    | None => AlibabaCloudAccessKeyIDSecretKey
    end in
  data !! AlibabaCloudAccessKeyIDSecretKey = None
  ∨ data !! AlibabaCloudAccessKeySecretSecretKey = None →
  outcome (alibabaclient_secret.NewClientFromSecret AlibabaCloudAccessKeyIDSecretKey
             AlibabaCloudAccessKeySecretSecretKey sdk_NewConfig secret regionID h w)
  = Returned (None, Some (errors_New ("creds secret does not contain " +:+ hiveutil.dquote
                                      +:+ missing +:+ hiveutil.dquote +:+ " data"))).
Proof.
  intros data missing Hmissing. subst missing.
  unfold alibabaclient_secret.NewClientFromSecret. fold data.
  destruct (data !! AlibabaCloudAccessKeyIDSecretKey) as [accessKeyID|]; [|done].
  destruct Hmissing as [? | ->]; done.
Qed.

Lemma NewClientFromSecret_names_missing_key_witness :
  outcome (alibabaclient_secret.NewClientFromSecret "alibabacloud_access_key_id"
             "alibabacloud_access_key_secret" {| alibabaclient_secret.config_id := 0 |}
             more_examples.secret_with_id_only "cn-hangzhou" more_examples.init tt)
  = Returned (None, Some (errors_New ("creds secret does not contain " +:+ hiveutil.dquote
                +:+ "alibabacloud_access_key_secret" +:+ hiveutil.dquote +:+ " data")))
  ∧ outcome (alibabaclient_secret.NewClientFromSecret "alibabacloud_access_key_id"
               "alibabacloud_access_key_secret" {| alibabaclient_secret.config_id := 0 |}
               more_examples.empty_secret "cn-hangzhou" more_examples.init tt)
    = Returned (None, Some (errors_New ("creds secret does not contain " +:+ hiveutil.dquote
                  +:+ "alibabacloud_access_key_id" +:+ hiveutil.dquote +:+ " data"))).
Proof.
  split.
  - apply (NewClientFromSecret_names_missing_key "alibabacloud_access_key_id"
             "alibabacloud_access_key_secret" {| alibabaclient_secret.config_id := 0 |}
             more_examples.secret_with_id_only "cn-hangzhou" more_examples.init tt).
    right. reflexivity.
  - apply (NewClientFromSecret_names_missing_key "alibabacloud_access_key_id"
             "alibabacloud_access_key_secret" {| alibabaclient_secret.config_id := 0 |}
             more_examples.empty_secret "cn-hangzhou" more_examples.init tt).
    left. reflexivity.
Defined.

(** ** pkg/controller/machinepool: the PowerVS actuator *)

(** X8. [GenerateMachineSets] always returns, and its three results hang
    together: the flag is true exactly when the error is nil, and with an
    error the machine sets are nil.  It calls the installer at most once,
    and not at all exactly when one of the three guards fails (the world is
    then untouched). *)
Theorem GenerateMachineSets_results_consistent {W}
    (baseMachinePool : machinepool.MachinePool → machinepool.installer_MachinePool)
    (workerRole workerUserDataName : string)
    (cd : machinepool.ClusterDeployment) (pool : machinepool.MachinePool)
    (h : Handler machinepool.installerE W) (w : W) :
  let r := machinepool.GenerateMachineSets baseMachinePool workerRole workerUserDataName
             cd pool h w in
  ∃ machineSets ok err,
    outcome r = Returned (machineSets, ok, err)
    ∧ (ok = true ↔ err = None)
    ∧ (is_Some err → machineSets = None)
    ∧ (length (trace r) ≤ 1)%nat
    ∧ (trace r = [] ↔ machinepool.cd_ClusterMetadata cd = None
                      ∨ machinepool.cd_Platform_PowerVS cd = None
                      ∨ machinepool.pool_Platform_PowerVS pool = None)
    ∧ (trace r = [] → world r = w ∧ ok = false).
Proof.
  intros r. subst r. unfold machinepool.GenerateMachineSets.
  destruct (machinepool.cd_ClusterMetadata cd) as [clusterMetadata|];
    [destruct (machinepool.cd_Platform_PowerVS cd) as [cdPowerVS|];
     [destruct (machinepool.pool_Platform_PowerVS pool) as [poolPowerVS|]|]|]; run.
  2-4: eexists _, _, _; split_and!;
         [done | done | done | simpl; lia | split; eauto | done].
  destruct (h _ _ w) as [[installerMachineSets [err|]] w1]; run;
    eexists _, _, _; (split_and!; [done | done | | simpl; lia | | done]).
  - done.
  - split; [done | by intros [|[|]]].
  - by intros [? [=]].
  - split; [done | by intros [|[|]]].
Qed.

(** X9. Past the three guards [GenerateMachineSets] makes exactly one call
    of the installer: with the infra id of the cluster metadata, an install
    configuration holding the region and zone of the cluster deployment, the
    base machine pool with its PowerVS platform replaced by a copy of the
    pool's, and the worker role and user data name.  The installer's machine
    sets are returned with true; its error is wrapped, and its machine sets
    are then dropped. *)
Theorem GenerateMachineSets_installer_call {W}
    (baseMachinePool : machinepool.MachinePool → machinepool.installer_MachinePool)
    (workerRole workerUserDataName : string)
    (cd : machinepool.ClusterDeployment) (pool : machinepool.MachinePool)
    (clusterMetadata : machinepool.ClusterMetadata) (cdPowerVS : machinepool.powervs_Platform)
    (poolPowerVS : machinepool.powervs_MachinePool)
    (h : Handler machinepool.installerE W) (w : W) :
  machinepool.cd_ClusterMetadata cd = Some clusterMetadata →
  machinepool.cd_Platform_PowerVS cd = Some cdPowerVS →
  machinepool.pool_Platform_PowerVS pool = Some poolPowerVS →
  let r := machinepool.GenerateMachineSets baseMachinePool workerRole workerUserDataName
             cd pool h w in
  let generate :=
    machinepool.installpowervs_MachineSets (machinepool.InfraID clusterMetadata)
      {| machinepool.ic_Platform_PowerVS :=
           Some {| machinepool.ip_Region := machinepool.Region cdPowerVS;
                   machinepool.ip_Zone := machinepool.Zone cdPowerVS |} |}
      {| machinepool.imp_Name := machinepool.imp_Name (baseMachinePool pool);
         machinepool.imp_Replicas := machinepool.imp_Replicas (baseMachinePool pool);
         machinepool.imp_Platform_PowerVS := Some poolPowerVS |}
      workerRole workerUserDataName in
  let generated := (h _ generate w).1 in
  trace r = [Called generate generated]
  ∧ world r = (h _ generate w).2
  ∧ outcome r
    = Returned match generated.2 with
               | Some err => (None, false, Some (errors_Wrap err "failed to generate machinesets"))
               | None => (generated.1, true, None)
               end.
Proof.
  intros Hmd Hcd Hpool r generate generated. subst r generated generate.
  unfold machinepool.GenerateMachineSets. rewrite Hmd, Hcd, Hpool. run.
  destruct poolPowerVS as [memory procType processors sysType]; simpl.
  by destruct (h _ _ w) as [[installerMachineSets [err|]] w1].
Qed.

Lemma GenerateMachineSets_installer_call_witness :
  outcome (machinepool.GenerateMachineSets examples.baseMachinePool "worker" "worker-user-data"
             examples.testPowerVSClusterDeployment examples.testPowerVSPool
             examples.installer tt)
  = Returned (Some [ {| machinepool.ms_Name := "foo-12345-worker-1";
                        machinepool.ms_Replicas := Some 3%Z |} ], true, None).
Proof.
  apply (GenerateMachineSets_installer_call examples.baseMachinePool "worker"
           "worker-user-data" examples.testPowerVSClusterDeployment examples.testPowerVSPool
           {| machinepool.InfraID := "foo-12345" |}
           {| machinepool.CredentialsSecretRef := "powervs-credentials";
              machinepool.Region := "test-region"; machinepool.Zone := "test-zone" |}
           {| machinepool.MemoryGiB := 32; machinepool.ProcType := "Shared";
              machinepool.Processors := machinepool.FromString "0.5";
              machinepool.SysType := "s922" |}
           examples.installer tt); reflexivity.
Defined.

(** X10. [NewPowerVSActuator] asks once for a PowerVS client made from the
    credentials.  It returns a nil actuator exactly when that failed, with
    the error of the failure, after one warning that carries it; otherwise it
    logs nothing and the actuator holds the logger handed in and the client
    made. *)
Theorem NewPowerVSActuator_nil_iff_client_fails {W}
    (powervsCreds : powervsactuator.Secret) (scheme : powervsactuator.Scheme)
    (logger : powervsactuator.FieldLogger)
    (h : Handler powervsactuator.clientE W) (w : W) :
  let r := powervsactuator.NewPowerVSActuator powervsCreds scheme logger h w in
  let made := (h _ (powervsactuator.powervsclient_NewClientFromSecret powervsCreds) w).1 in
  ∃ actuator,
    outcome r = Returned (actuator, made.2)
    ∧ (actuator = None ↔ is_Some made.2)
    ∧ (∀ a, actuator = Some a →
         a = {| powervsactuator.logger := logger; powervsactuator.powervsClient := made.1 |})
    ∧ trace r
      = Called (powervsactuator.powervsclient_NewClientFromSecret powervsCreds) made
        :: match made.2 with
           | Some err =>
               [ Logged WarnLevel (Some err)
                   "failed to create PowerVS client with creds in clusterDeployment's secret" ]
           | None => []
           end.
Proof.
  intros r made. subst r made. unfold powervsactuator.NewPowerVSActuator. run.
  destruct (h _ _ w) as [[powervsClient [err|]] w1]; run; eexists;
    (split_and!; [done | | | done]).
  - split; [by eexists | done].
  - done.
  - split; [done | by intros [? [=]]].
  - by intros a [= <-].
Qed.

(** ** pkg/clusterresource: the PowerVS builder *)

(** X11. The platform the builder hands out refers to the credentials
    Secret the builder generates: the referenced name is the name of that
    Secret, which lies in the builder's namespace and holds the API key
    under the one key [PowerVSAPIKeySecretKey] and nothing else. *)
Theorem PowerVSBuilder_platform_refers_to_generated_secret
    (corev1_SchemeGroupVersion corev1_SecretTypeOpaque PowerVSAPIKeySecretKey : string)
    (p : clusterresource.PowerVSBuilder) (o : clusterresource.Builder) :
  let secret :=
    clusterresource.GenerateCredentialsSecret corev1_SchemeGroupVersion
      corev1_SecretTypeOpaque PowerVSAPIKeySecretKey p o in
  ∃ platform,
    clusterresource.PowerVS (clusterresource.GetCloudPlatform p o) = Some platform
    ∧ machinepool.CredentialsSecretRef platform = clusterresource.secret_Name secret
    ∧ clusterresource.secret_Namespace secret = clusterresource.Namespace o
    ∧ ∀ key, clusterresource.StringData secret !! key
             = if decide (key = PowerVSAPIKeySecretKey)
               then Some (clusterresource.APIKey p) else None.
Proof.
  intros secret. eexists. split_and!; try done.
  intros key. subst secret. simpl. rewrite lookup_singleton. by repeat case_decide.
Qed.

(** X12. What the builder stamps passes the actuator: for a cluster
    deployment with cluster metadata whose platform is the builder's and a
    machine pool the builder has given its platform, [GenerateMachineSets]
    calls the installer, with the builder's region and zone and a machine
    pool platform of 32 GiB, 0.5 processors, system type s922 and no
    processor type, and keeps name and replicas of the base machine pool. *)
Theorem GenerateMachineSets_of_built_cluster {W}
    (baseMachinePool : machinepool.MachinePool → machinepool.installer_MachinePool)
    (workerRole workerUserDataName : string)
    (p : clusterresource.PowerVSBuilder) (o : clusterresource.Builder)
    (cd : machinepool.ClusterDeployment) (clusterMetadata : machinepool.ClusterMetadata)
    (mp : machinepool.MachinePool)
    (h : Handler machinepool.installerE W) (w : W) :
  machinepool.cd_ClusterMetadata cd = Some clusterMetadata →
  machinepool.cd_Platform_PowerVS cd
  = clusterresource.PowerVS (clusterresource.GetCloudPlatform p o) →
  let pool := clusterresource.addMachinePoolPlatform p o mp in
  ∃ generated,
    trace (machinepool.GenerateMachineSets baseMachinePool workerRole workerUserDataName
             cd pool h w)
    = [ Called (machinepool.installpowervs_MachineSets (machinepool.InfraID clusterMetadata)
          {| machinepool.ic_Platform_PowerVS :=
               Some {| machinepool.ip_Region := clusterresource.Region p;
                       machinepool.ip_Zone := clusterresource.Zone p |} |}
          {| machinepool.imp_Name := machinepool.imp_Name (baseMachinePool pool);
             machinepool.imp_Replicas := machinepool.imp_Replicas (baseMachinePool pool);
             machinepool.imp_Platform_PowerVS :=
               Some {| machinepool.MemoryGiB := 32; machinepool.ProcType := "";
                       machinepool.Processors := machinepool.FromString "0.5";
                       machinepool.SysType := "s922" |} |}
          workerRole workerUserDataName) generated ].
Proof.
  intros Hmd Hcd pool. unfold machinepool.GenerateMachineSets. rewrite Hmd, Hcd. simpl. run.
  destruct (h _ _ w) as [[installerMachineSets [err|]] w1]; run; by eexists.
Qed.

Lemma GenerateMachineSets_of_built_cluster_witness :
  ∃ generated,
    trace (machinepool.GenerateMachineSets examples.baseMachinePool "worker" "worker-user-data"
             more_examples.built_clusterDeployment
             (clusterresource.addMachinePoolPlatform more_examples.powervs_builder
                more_examples.builder more_examples.bare_pool)
             examples.installer tt)
    = [ Called (machinepool.installpowervs_MachineSets "mycluster-x7k2p"
          {| machinepool.ic_Platform_PowerVS :=
               Some {| machinepool.ip_Region := "dal"; machinepool.ip_Zone := "dal10" |} |}
          {| machinepool.imp_Name := "worker"; machinepool.imp_Replicas := Some 3%Z;
             machinepool.imp_Platform_PowerVS :=
               Some {| machinepool.MemoryGiB := 32; machinepool.ProcType := "";
                       machinepool.Processors := machinepool.FromString "0.5";
                       machinepool.SysType := "s922" |} |}
          "worker" "worker-user-data") generated ].
Proof.
  apply (GenerateMachineSets_of_built_cluster examples.baseMachinePool "worker"
           "worker-user-data" more_examples.powervs_builder more_examples.builder
           more_examples.built_clusterDeployment {| machinepool.InfraID := "mycluster-x7k2p" |}
           more_examples.bare_pool examples.installer tt); reflexivity.
Defined.

(** X13. [addInstallConfigPlatform] panics exactly when the install
    configuration has no control plane or no compute pool.  Otherwise it
    allocates one machine-pool platform, a zero value at an address that
    was free, and leaves every other object as it was; the control plane and
    the first compute pool both point to that one object and keep their
    names and replicas, the other compute pools are unchanged, and the
    platform holds the builder's region and zone. *)
Theorem addInstallConfigPlatform_shares_one_platform
    (p : clusterresource.PowerVSBuilder) (o : clusterresource.Builder)
    (ic : clusterresource.InstallConfig) (heap : clusterresource.Heap) :
  match clusterresource.addInstallConfigPlatform p o ic heap with
  | Panicked => clusterresource.ControlPlane ic = None ∨ clusterresource.Compute ic = []
  | Exited _ => False
  | Returned (ic', heap') =>
      ∃ mpp controlPlane controlPlane' compute0 compute0',
        heap !! mpp = None
        ∧ heap' !! mpp = Some clusterresource.zero_MachinePool
        ∧ (∀ other, other ≠ mpp → heap' !! other = heap !! other)
        ∧ clusterresource.ControlPlane ic = Some controlPlane
        ∧ clusterresource.ControlPlane ic' = Some controlPlane'
        ∧ clusterresource.Compute ic !! 0%nat = Some compute0
        ∧ clusterresource.Compute ic' !! 0%nat = Some compute0'
        ∧ clusterresource.mp_PowerVS controlPlane' = Some mpp
        ∧ clusterresource.mp_PowerVS compute0' = Some mpp
        ∧ clusterresource.mp_Name controlPlane' = clusterresource.mp_Name controlPlane
        ∧ clusterresource.mp_Replicas controlPlane' = clusterresource.mp_Replicas controlPlane
        ∧ clusterresource.mp_Name compute0' = clusterresource.mp_Name compute0
        ∧ clusterresource.mp_Replicas compute0' = clusterresource.mp_Replicas compute0
        ∧ drop 1 (clusterresource.Compute ic') = drop 1 (clusterresource.Compute ic)
        ∧ clusterresource.ic_PowerVS ic'
          = Some {| machinepool.ip_Region := clusterresource.Region p;
                    machinepool.ip_Zone := clusterresource.Zone p |}
  end.
Proof.
  unfold clusterresource.addInstallConfigPlatform.
  destruct (clusterresource.ControlPlane ic) as [controlPlane|]; [|by left].
  destruct (clusterresource.Compute ic) as [|compute0 compute]; [by right|].
  eexists (fresh (dom heap)), _, _, _, _. split_and!; try done.
  - apply not_elem_of_dom, is_fresh.
  - apply lookup_insert_eq.
  - intros other Hother. by apply lookup_insert_ne.
Qed.

(** ** contrib/pkg/deprovision: the PowerVS command *)

(** X14. [Validate] looks at the flags in the order region, zone,
    base-domain, cluster-name and reports the first one that is empty, after
    printing the usage once (whatever printing returns); when none is empty
    it returns nil and prints nothing. *)
Theorem deprovision_Validate_reports_first_missing_flag {W}
    (o : deprovision.powerVSDeprovisionOptions) (h : Handler deprovision.cliE W) (w : W) :
  let r := deprovision.Validate o h w in
  outcome r
  = Returned ((λ flag, errors_New ("no --" +:+ flag +:+ " provided, cannot proceed"))
              <$> first_missing_flag o)
  ∧ trace r = match first_missing_flag o with
              | Some _ => [Called deprovision.cmd_Usage (h _ deprovision.cmd_Usage w).1]
              | None => []
              end.
Proof.
  unfold deprovision.Validate, first_missing_flag.
  repeat (case_bool_decide; [rewrite decide_True by done; run; done
                            | rewrite decide_False by done]).
  done.
Qed.

(** X15. [Complete] takes the infra id from the first argument and leaves
    the flags as they are.  It asks for a client once; when that fails the
    error is wrapped and the credentials are not configured, otherwise they
    are configured with the client obtained and the result is nil.  Without
    an argument it panics before any call. *)
Theorem deprovision_Complete_takes_infra_id {W}
    (o : deprovision.powerVSDeprovisionOptions) (args : list string)
    (h : Handler deprovision.cliE W) (w : W) :
  let r := deprovision.Complete o args h w in
  let got := (h _ deprovision.utils_GetClient w).1 in
  match args !! 0%nat with
  | None => outcome r = Panicked ∧ trace r = []
  | Some arg0 =>
      ∃ o' failed,
        outcome r = Returned (o', failed)
        ∧ deprovision.infraID o' = arg0
        ∧ deprovision.region o' = deprovision.region o
        ∧ deprovision.zone o' = deprovision.zone o
        ∧ deprovision.baseDomain o' = deprovision.baseDomain o
        ∧ deprovision.clusterName o' = deprovision.clusterName o
        ∧ deprovision.logLevel o' = deprovision.logLevel o
        ∧ failed = (λ err, errors_Wrap err "failed to get client") <$> got.2
        ∧ trace r
          = Called deprovision.utils_GetClient got
            :: match got.2 with
               | Some _ => []
               | None => [Called (deprovision.powervsutils_ConfigureCreds got.1) tt]
               end
  end.
Proof.
  intros r got. subst r got. unfold deprovision.Complete.
  destruct (args !! 0%nat) as [arg0|]; run; [|done].
  destruct (h _ _ w) as [[client [err|]] w1]; run.
  - by eexists _, _.
  - destruct (h _ _ w1) as [[] w2]. by eexists _, _.
Qed.

(** X16. The command runs a destroyer only with all four required flags
    given: whenever a run of the command has run a destroyer, the flags
    region, zone, base-domain and cluster-name were all non-empty, there was
    a first argument, and the destroyer run is the one destroyer the run has
    had made, from the cluster name, base domain, region and zone of the
    flags and that first argument as infra id; it is run once. *)
Theorem deprovision_destroys_only_with_flags {W}
    (opt : deprovision.powerVSDeprovisionOptions) (args : list string)
    (h : Handler deprovision.cliE W) (w : W) :
  let r := deprovision.NewDeprovisionPowerVSCommand_Run opt args h w in
  destroyer_runs (trace r) ≠ [] →
  flags_given opt
  ∧ ∃ infraID logger destroyer,
      args !! 0%nat = Some infraID
      ∧ destroyers_made (trace r)
        = [ (logger,
             {| deprovision.md_ClusterName := deprovision.clusterName opt;
                deprovision.md_InfraID := infraID;
                deprovision.md_BaseDomain := deprovision.baseDomain opt;
                deprovision.md_Region := deprovision.region opt;
                deprovision.md_Zone := deprovision.zone opt |},
             destroyer) ]
      ∧ destroyer_runs (trace r) = [destroyer].
Proof.
  intros r. subst r.
  unfold deprovision.NewDeprovisionPowerVSCommand_Run, deprovision.Complete,
    deprovision.Validate, deprovision.Run, flags_given.
  destruct (args !! 0%nat) as [arg0|]; run; [|done].
  destruct (h _ deprovision.utils_GetClient w) as [[client [err|]] w1]; run; [done|].
  destruct (h _ (deprovision.powervsutils_ConfigureCreds client) w1) as [[] w2]; run.
  repeat (case_bool_decide; [run; done|]). run.
  destruct (h _ (deprovision.utils_NewLogger _) w2) as [[logger [err|]] w3]; run; [done|].
  destruct (h _ (deprovision.powervs_New _ _) w3) as [[destroyer [err|]] w4]; run; [done|].
  intros _. split; [done|].
  destruct (h _ (deprovision.destroyer_Run destroyer) w4) as [[err|] w5]; run;
    by eexists _, _, _.
Qed.

Lemma deprovision_destroys_only_with_flags_witness :
  flags_given examples.flags_all_given
  ∧ ∃ infraID logger destroyer,
      ["infra-1"] !! 0%nat = Some infraID
      ∧ destroyers_made
          (trace (deprovision.NewDeprovisionPowerVSCommand_Run examples.flags_all_given
                    ["infra-1"] examples.terminal tt))
        = [ (logger,
             {| deprovision.md_ClusterName := "c1"; deprovision.md_InfraID := infraID;
                deprovision.md_BaseDomain := "example.com";
                deprovision.md_Region := "us-east"; deprovision.md_Zone := "us-east" |},
             destroyer) ]
      ∧ destroyer_runs
          (trace (deprovision.NewDeprovisionPowerVSCommand_Run examples.flags_all_given
                    ["infra-1"] examples.terminal tt))
        = [destroyer].
Proof.
  apply (deprovision_destroys_only_with_flags examples.flags_all_given ["infra-1"]
           examples.terminal tt).
  vm_compute. discriminate.
Defined.

(** ** contrib/pkg/awsprivatelink: the disable command *)

Ltac known_world :=
  repeat match goal with
         | |- context [world (?o, ?w, ?t)] => change (world (o, w, t)) with w
         end.

Lemma disable_deletes_each_secret {W} (c : client_Client) (secrets : list Secret)
    (h : Handler cloudE W) (w : W) :
  let r := for_each secrets (λ hubAcctSecret,
             let! failed := call (client_Delete c hubAcctSecret) in
             match failed with
             | Some err => log ErrorLevel (Some err)
                 ("Failed to delete Hub account credentials Secret "
                  +:+ secret_Name hubAcctSecret)
             | None => log InfoLevel None
                 ("Hub account credentials Secret " +:+ secret_Name hubAcctSecret
                  +:+ " deleted")
             end) h w in
  outcome r = Returned tt
  ∧ ∃ responses, length responses = length secrets
                 ∧ calls (trace r) = secret_deletions c secrets responses.
Proof.
  revert w. induction secrets as [|secret secrets IH]; intros w; simpl.
  - split; [done|]. by exists [].
  - run. destruct (h _ (client_Delete c secret) w) as [[err|] w1]; run;
      destruct (IH w1) as (-> & responses & Hlen & Hcalls); (split; [done|]);
      only_calls; rewrite Hcalls;
      [exists (Some err :: responses) | exists (None :: responses)];
      simpl; by rewrite Hlen.
Qed.

(** X17. [Run] of the disable command refuses to go on while the
    configuration names at least one endpoint VPC and at least one
    associated VPC: after reading the configuration it exits fatally, and
    it has neither listed nor deleted a Secret nor written the
    configuration. *)
Theorem disable_Run_refuses_with_vpcs_on_both_sides {W}
    (GetHiveNamespace : HiveConfig → string)
    (PrivateLinkHubAcctCredsName PrivateLinkHubAcctCredsLabel : string)
    (o : awsprivatelink.disableOptions) (args : list string)
    (privateLink : AWSPrivateLinkConfig) (h : Handler cloudE W) (w : W) :
  let r := awsprivatelink.Run GetHiveNamespace PrivateLinkHubAcctCredsName
             PrivateLinkHubAcctCredsLabel o args h w in
  let get := client_Get (awsprivatelink.dynamicClient o) "hive" in
  let got := (h _ get w).1 in
  got.2 = None →
  AWSPrivateLink got.1 = Some privateLink →
  EndpointVPCInventory privateLink ≠ [] →
  AssociatedVPCs privateLink ≠ [] →
  outcome r = Exited 1
  ∧ calls (trace r) = [Called get got]
  ∧ mutations (trace r) = [].
Proof.
  intros r get got Herr Hpl Hinv Hassoc. subst r got get.
  unfold awsprivatelink.Run. run.
  destruct (h _ _ w) as [[hiveConfig err] w1]; simpl in *. subst err. run.
  rewrite Hpl. run.
  destruct (EndpointVPCInventory privateLink) as [|? ?]; [done|].
  destruct (AssociatedVPCs privateLink) as [|? ?]; [done|].
  simpl. run. done.
Qed.

Lemma disable_Run_refuses_with_vpcs_on_both_sides_witness :
  let r := awsprivatelink.Run TargetNamespace "aws-hub-creds"
             "hive.openshift.io/awsprivatelink-hub-acct-creds"
             {| awsprivatelink.dynamicClient := examples.k8s |} []
             (examples.cloud examples.healthy) tt in
  outcome r = Exited 1
  ∧ calls (trace r) = [Called (client_Get examples.k8s "hive") (examples.hiveConfig, None)]
  ∧ mutations (trace r) = [].
Proof.
  apply (disable_Run_refuses_with_vpcs_on_both_sides TargetNamespace "aws-hub-creds"
           "hive.openshift.io/awsprivatelink-hub-acct-creds"
           {| awsprivatelink.dynamicClient := examples.k8s |} []
           examples.privateLink (examples.cloud examples.healthy) tt);
    [reflexivity | reflexivity | simpl; discriminate | simpl; discriminate].
Defined.

(** X18. When the configuration is read and does not name VPCs on both
    sides (PrivateLink is already disabled, or there is no endpoint VPC, or
    no associated VPC), [Run] of the disable command lists the hub-account
    Secrets by name and label in the Hive namespace, asks to delete each
    listed Secret once, in the order of the list, whatever the list call and
    the earlier deletions answered, and then writes the configuration back
    with PrivateLink removed and nothing else changed.  It returns nil when
    that write succeeds and exits fatally when it fails. *)
Theorem disable_Run_deletes_secrets_then_writes {W}
    (GetHiveNamespace : HiveConfig → string)
    (PrivateLinkHubAcctCredsName PrivateLinkHubAcctCredsLabel : string)
    (o : awsprivatelink.disableOptions) (args : list string)
    (h : Handler cloudE W) (w : W) :
  let c := awsprivatelink.dynamicClient o in
  let r := awsprivatelink.Run GetHiveNamespace PrivateLinkHubAcctCredsName
             PrivateLinkHubAcctCredsLabel o args h w in
  let get := client_Get c "hive" in
  let got := (h _ get w).1 in
  let list := client_List c ("metadata.name", PrivateLinkHubAcctCredsName)
                (PrivateLinkHubAcctCredsLabel, "true") (GetHiveNamespace got.1) in
  let listed := (h _ list (h _ get w).2).1 in
  got.2 = None →
  (∀ privateLink, AWSPrivateLink got.1 = Some privateLink →
     EndpointVPCInventory privateLink = [] ∨ AssociatedVPCs privateLink = []) →
  ∃ responses written,
    length responses = length listed.1
    ∧ calls (trace r)
      = [Called get got; Called list listed]
        ++ secret_deletions c listed.1 responses
        ++ [ Called (client_Update c {| TargetNamespace := TargetNamespace got.1;
                                        AWSPrivateLink := None |}) written ]
    ∧ outcome r = match written with
                  | None => Returned None
                  | Some _ => Exited 1
                  end.
Proof.
  intros c r get got list listed Herr Hguard. subst r listed list got get.
  unfold awsprivatelink.Run. fold c. run.
  destruct (h _ (client_Get c "hive") w) as [[hiveConfig err] w1]; simpl in *.
  subst err. run.
  assert (Hpass : ∀ (k : M cloudE W (option error)) w',
            (match AWSPrivateLink hiveConfig with
             | Some privateLink =>
                 if bool_decide (0 < length (EndpointVPCInventory privateLink))
                    && bool_decide (0 < length (AssociatedVPCs privateLink))
                 then fatal None
                   ("HiveConfig has at least 1 associated VPC and 1 endpoint VPC specified. " +:+
                    "Please either remove all associated VPCs or all endpoint VPCs from it. " +:+
                    "Please remember to delete relevant cloud resources for networking " +:+
                    "(between the associated VPCs and endpoint VPCs) as you remove the VPCs." +:+
                    "You can remove the endpoint VPCs (and relevant cloud resources for networking) " +:+
                    "one by one via `hiveutil awsprivatelink endpointvpc remove ...`.")
                 else ret tt
             | None => ret tt
             end) h w' = (Returned tt, w', [])).
  { intros _ w'. destruct (AWSPrivateLink hiveConfig) as [privateLink|] eqn:Hpl; [|done].
    destruct (Hguard privateLink eq_refl) as [-> | ->]; simpl; [done|].
    by rewrite andb_false_r. }
  assert (Hwarn : ∃ t0, Forall (λ e, is_log e = true) t0
            ∧ (match AWSPrivateLink hiveConfig with
               | None => log WarnLevel None "AWS PrivateLink is already disabled in HiveConfig"
               | Some _ => ret tt
               end) h w1 = (Returned tt, w1, t0)).
  { destruct (AWSPrivateLink hiveConfig); eexists; (split; [|done]); repeat constructor. }
  destruct Hwarn as (t0 & Hlogs0 & ->). run. rewrite (Hpass (ret None)). run. known_world.
  destruct (h _ (client_List _ _ _ _) w1) as [[secrets listErr] w2]; simpl.
  assert (Hlisted : ∃ t1, Forall (λ e, is_log e = true) t1
            ∧ (match listErr with
               | Some err =>
                   log ErrorLevel (Some err) "Failed to list Hub account credentials Secrets"
               | None => ret tt
               end) h w2 = (Returned tt, w2, t1)).
  { destruct listErr; eexists; (split; [|done]); repeat constructor. }
  destruct Hlisted as (t1 & Hlogs1 & ->). run. known_world.
  destruct (disable_deletes_each_secret c secrets h w2) as (Hout & responses & Hlen & Hcalls).
  rewrite Hout. run.
  set (deleted := for_each secrets _ h w2) in *.
  exists responses.
  destruct (h _ (client_Update _ _) (world deleted)) as [[err|] w3]; run;
    [exists (Some err) | exists None]; (split_and!; [done | | done]);
    only_calls; rewrite (calls_logs t0), (calls_logs t1), Hcalls by done; simpl;
    by rewrite ?app_nil_r.
Qed.

Lemma disable_Run_deletes_secrets_then_writes_witness :
  ∃ responses written,
    length responses = 1
    ∧ calls (trace (awsprivatelink.Run TargetNamespace "aws-hub-creds"
                      "hive.openshift.io/awsprivatelink-hub-acct-creds"
                      {| awsprivatelink.dynamicClient := examples.k8s |} []
                      (examples.cloud_with examples.hiveConfig_without_associated_vpcs
                         examples.no_list) tt))
      = [ Called (client_Get examples.k8s "hive")
            (examples.hiveConfig_without_associated_vpcs, None);
          Called (client_List examples.k8s ("metadata.name", "aws-hub-creds")
                    ("hive.openshift.io/awsprivatelink-hub-acct-creds", "true") "hive")
            ([ {| secret_Name := "aws-hub-creds"; secret_Namespace := "hive" |} ],
             Some (errors_New "secrets is forbidden")) ]
        ++ secret_deletions examples.k8s
             [ {| secret_Name := "aws-hub-creds"; secret_Namespace := "hive" |} ] responses
        ++ [ Called (client_Update examples.k8s
                       {| TargetNamespace := "hive"; AWSPrivateLink := None |}) written ]
    ∧ outcome (awsprivatelink.Run TargetNamespace "aws-hub-creds"
                 "hive.openshift.io/awsprivatelink-hub-acct-creds"
                 {| awsprivatelink.dynamicClient := examples.k8s |} []
                 (examples.cloud_with examples.hiveConfig_without_associated_vpcs
                    examples.no_list) tt)
      = match written with
        | None => Returned None
        | Some _ => Exited 1
        end.
Proof.
  apply (disable_Run_deletes_secrets_then_writes TargetNamespace "aws-hub-creds"
           "hive.openshift.io/awsprivatelink-hub-acct-creds"
           {| awsprivatelink.dynamicClient := examples.k8s |} []
           (examples.cloud_with examples.hiveConfig_without_associated_vpcs
              examples.no_list) tt).
  - reflexivity.
  - simpl. intros privateLink [= <-]. right. reflexivity.
Defined.

(** ** contrib/pkg/awsprivatelink/endpointvpc: the remove command *)

Lemma regions_of_associated_vpcs (vpcs : list AWSAssociatedVPC) (start : gset string) :
  foldl (λ regions associatedVpc, regions ∪ {[ Region (AWSPrivateLinkVPC_of associatedVpc) ]})
        start vpcs
  = start ∪ associated_regions vpcs.
Proof.
  unfold associated_regions. revert start.
  induction vpcs as [|vpc vpcs IH]; intros start; simpl.
  - by rewrite (right_id_L ∅ (∪)).
  - by rewrite IH, (assoc_L (∪)).
Qed.



(** X20. The error results of the two awsprivatelink commands are always
    nil: whenever [Complete] or [Run] of the disable command or of the
    remove command returns, it returns nil; every failure ends the process
    instead. *)
Theorem awsprivatelink_commands_return_no_error {W}
    (GetHiveNamespace : HiveConfig → string)
    (PrivateLinkHubAcctCredsName PrivateLinkHubAcctCredsLabel : string)
    (FindVpcInInventory : string → list AWSPrivateLinkInventory → Z * bool)
    (disable : awsprivatelink.disableOptions) (remove : endpointvpc.endpointVPCRemoveOptions)
    (args : list string) (h : Handler cloudE W) (w : W) :
  snd <$> returned (awsprivatelink.Complete args h w) ∈ [None; Some None]
  ∧ returned (awsprivatelink.Run GetHiveNamespace PrivateLinkHubAcctCredsName
                PrivateLinkHubAcctCredsLabel disable args h w) ∈ [None; Some None]
  ∧ snd <$> returned (endpointvpc.Complete FindVpcInInventory args h w) ∈ [None; Some None]
  ∧ returned (endpointvpc.Run remove args h w) ∈ [None; Some None].
Proof.
  assert (Hnone : ∀ x : option (option error), x = None ∨ x = Some None → x ∈ [None; Some None]).
  { intros x [-> | ->]; [apply list_elem_of_here | apply list_elem_of_further, list_elem_of_here]. }
  split_and!; apply Hnone.
  - unfold awsprivatelink.Complete. run.
    destruct (h _ hiveutils_GetClient w) as [[dynamicClient [err|]] w1]; run; auto.
  - unfold awsprivatelink.Run. run.
    destruct (h _ (client_Get _ _) w) as [[hiveConfig [err|]] w1]; run; [by left|].
    repeat match goal with
           | |- context [match returned ?m with Some _ => _ | None => _ end] =>
               destruct (returned m); [|by left]
           end.
    match goal with |- context [h _ (client_Update ?c ?cfg) ?w'] =>
      destruct (h _ (client_Update c cfg) w') as [[err|] w3] end; run; auto.
  - destruct (Complete_setup FindVpcInInventory args h w) as [_ Hret].
    destruct (returned (endpointvpc.Complete FindVpcInInventory args h w))
      as [[o failed]|]; [|by left].
    destruct (Hret o failed eq_refl) as [-> _]. by right.
  - unfold endpointvpc.Run. run.
    destruct (h _ (awsutils_GetDefaultSGOfVpc _ _) w) as [[sg [err|]] w1]; run; [by left|].
    repeat match goal with
           | |- context [match returned ?m with Some _ => _ | None => _ end] =>
               destruct (returned m); [|by left]
           end.
    by right.
Qed.

(** X21. [removeEndpointVpcFromHiveConfig] panics exactly when there is
    no inventory entry at the index of the options (PrivateLink is nil, the
    inventory is empty, or the index is out of range); it has then written
    its log line and has not called the API server. *)
Theorem removeEndpointVpcFromHiveConfig_panics_iff_out_of_range {W}
    (o : endpointvpc.endpointVPCRemoveOptions) (h : Handler cloudE W) (w : W) :
  let r := endpointvpc.removeEndpointVpcFromHiveConfig o h w in
  let entry :=
    privateLink ← AWSPrivateLink (endpointvpc.hiveConfig o);
    index (EndpointVPCInventory privateLink) (endpointvpc.endpointVpcIdx o) in
  (outcome r = Panicked ↔ entry = None)
  ∧ (entry = None →
       trace r = [ Logged InfoLevel None
                     ("Removing endpoint VPC " +:+ endpointvpc.endpointVpcId o
                      +:+ " from HiveConfig") ]).
Proof.
  intros r entry. subst r entry. unfold endpointvpc.removeEndpointVpcFromHiveConfig. run.
  destruct (AWSPrivateLink (endpointvpc.hiveConfig o)) as [privateLink|]; simpl; run; [|done].
  set (inventory := EndpointVPCInventory privateLink).
  destruct (index inventory (endpointvpc.endpointVpcIdx o)) as [endpointVpc|] eqn:Hidx.
  - apply index_Some in Hidx as [Hnonneg Hidx].
    assert (Hlt := lookup_lt_Some _ _ _ Hidx).
    destruct (lookup_lt_is_Some_2 inventory (length inventory - 1)) as [lastVpc Hlast]; [lia|].
    assert (index inventory (Z.of_nat (length inventory) - 1) = Some lastVpc) as ->.
    { unfold index. rewrite decide_True by lia.
      by replace (Z.to_nat (Z.of_nat (length inventory) - 1)) with (length inventory - 1) by lia. }
    run. destruct (h _ (client_Update _ _) w) as [[err|] w1]; run; done.
  - destruct (index inventory (Z.of_nat (length inventory) - 1)); run; done.
Qed.

(** X22. Without an AWS client for the region of an associated VPC, the
    teardown of that VPC never gets to change anything: whatever the calls
    answer, the run ends (fatally or in a panic) before the peering
    connection, a route or an ingress rule is touched, having asked AWS for
    nothing but the CIDR blocks of the two VPCs. *)
Theorem Run_body_without_regional_client_changes_nothing {W}
    (o : endpointvpc.endpointVPCRemoveOptions) (endpointVPCDefaultSG : string)
    (associatedVpc : AWSAssociatedVPC) (h : Handler cloudE W) (w : W) :
  endpointvpc.awsClientsByRegion o !! Region (AWSPrivateLinkVPC_of associatedVpc) = None →
  let r := endpointvpc.Run_body o endpointVPCDefaultSG associatedVpc h w in
  returned r = None
  ∧ mutations (trace r) = []
  ∧ aws_calls (trace r)
    `prefix_of`
      [ Called (awsutils_GetCIDRFromVpcId None (VPCID (AWSPrivateLinkVPC_of associatedVpc)))
          (h _ (awsutils_GetCIDRFromVpcId None (VPCID (AWSPrivateLinkVPC_of associatedVpc)))
             w).1;
        Called (awsutils_GetCIDRFromVpcId (endpointvpc.endpointVpcClients o)
                  (endpointvpc.endpointVpcId o))
          (h _ (awsutils_GetCIDRFromVpcId (endpointvpc.endpointVpcClients o)
                  (endpointvpc.endpointVpcId o))
             (h _ (awsutils_GetCIDRFromVpcId None
                     (VPCID (AWSPrivateLinkVPC_of associatedVpc))) w).2).1 ].
Proof.
  intros Hclient r. subst r.
  unfold endpointvpc.Run_body, endpointvpc.Run_delete_peering,
    endpointvpc.deleteVpcPeeringConnection. rewrite Hclient. run.
  destruct (h _ (awsutils_GetCIDRFromVpcId None _) w) as [[associatedVpcCIDR [err|]] w1];
    run; [split_and!; [done | done | by eexists [_]]|].
  destruct (h _ (awsutils_GetCIDRFromVpcId (endpointvpc.endpointVpcClients o) _) w1)
    as [[endpointVpcCIDR [err|]] w2]; run; (split_and!; [done | done | by exists []]).
Qed.

Lemma Run_body_without_regional_client_changes_nothing_witness :
  let r := endpointvpc.Run_body more_examples.remove_vpc_e1_east_only "sg-default-vpc-e1"
             (examples.associated_vpc "vpc-a2" "us-west-2")
             (examples.cloud examples.healthy) tt in
  returned r = None ∧ mutations (trace r) = [].
Proof.
  intros r.
  destruct (Run_body_without_regional_client_changes_nothing
              more_examples.remove_vpc_e1_east_only "sg-default-vpc-e1"
              (examples.associated_vpc "vpc-a2" "us-west-2")
              (examples.cloud examples.healthy) tt) as (Hret & Hmut & _).
  - vm_compute. reflexivity.
  - split; [exact Hret | exact Hmut].
Defined.

(** ** pkg/manageddns *)

(** X23. When the variable names a file that cannot be read,
    [ReadManagedDomainsFile] returns the error of the read together with an
    empty slice that is not nil (unlike the nil slice it returns when the
    variable is empty), and the decoder is not consulted. *)
Theorem ReadManagedDomainsFile_read_failure_returns_empty_slice {W} (ManageDNSConfig : Type)
    (ManagedDomainsFileEnvVar : string)
    (json_Unmarshal json_Unmarshal' : list Byte.byte → slice ManageDNSConfig
                                       → slice ManageDNSConfig * option error)
    (h : Handler manageddns.osE W) (w : W) :
  let getenv := h _ (manageddns.os_Getenv ManagedDomainsFileEnvVar) w in
  let read := h _ (manageddns.os_ReadFile getenv.1) getenv.2 in
  getenv.1 ≠ "" →
  is_Some read.1.2 →
  outcome (manageddns.ReadManagedDomainsFile ManageDNSConfig ManagedDomainsFileEnvVar
             json_Unmarshal h w)
  = Returned (Some [], read.1.2)
  ∧ manageddns.ReadManagedDomainsFile ManageDNSConfig ManagedDomainsFileEnvVar
      json_Unmarshal h w
    = manageddns.ReadManagedDomainsFile ManageDNSConfig ManagedDomainsFileEnvVar
        json_Unmarshal' h w.
Proof.
  intros getenv read Hfile [err Herr]. subst read getenv.
  unfold manageddns.ReadManagedDomainsFile, bind, call, ret.
  destruct (h _ (manageddns.os_Getenv _) w) as [managedDomainsFile w1]; simpl in *.
  rewrite bool_decide_eq_false_2; last first.
  { destruct managedDomainsFile; [done | simpl; lia]. }
  destruct (h _ (manageddns.os_ReadFile _) w1) as [[fileBytes readErr] w2]; simpl in *.
  by subst readErr.
Qed.

Lemma ReadManagedDomainsFile_read_failure_returns_empty_slice_witness :
  ∃ err,
    outcome (manageddns.ReadManagedDomainsFile (list string) "MANAGED_DOMAINS_FILE"
               examples.unmarshal_domains examples.os ("/data/domains", false))
    = Returned (Some [], Some err).
Proof.
  destruct (ReadManagedDomainsFile_read_failure_returns_empty_slice (list string)
              "MANAGED_DOMAINS_FILE" examples.unmarshal_domains examples.unmarshal_domains
              examples.os ("/data/domains", false)) as [Hout _].
  - simpl. discriminate.
  - vm_compute. eexists. reflexivity.
  - eexists. exact Hout.
Defined.
